(** * Portal Gun LED controller (Portal_Gun_v3_1.ino, version 3.1)

    A shallow embedding of the sketch: the file-scope globals and the
    hardware the sketch drives (millisecond clock, PWM duty registers,
    timer control register, display font metrics) form one explicit
    state; every function of the sketch is a computation over that state
    which also produces the chronological list of calls it makes to the
    Arduino core and to the display and audio drivers. *)

From Stdlib Require Import ZArith List String Bool Lia.
Import ListNotations.
Local Open Scope string_scope.
Local Open Scope list_scope.
Local Open Scope Z_scope.

(* ===================================================================== *)
(** ** Machine arithmetic of the target (8-bit AVR: 16-bit [int],
       32-bit [unsigned long]) *)
(* ===================================================================== *)

Module Avr.

Definition INT_MIN : Z := -32768.
Definition INT_MAX : Z := 32767.

(** Value of a 16-bit signed [int] after wrap-around. *)
Definition wrap_int (z : Z) : Z := (z + 32768) mod 65536 - 32768.

(** Value of a 16-bit [unsigned int] / [uint16_t]. *)
Definition wrap_uint (z : Z) : Z := z mod 65536.

(** Value of a 32-bit [unsigned long]. *)
Definition wrap_ulong (z : Z) : Z := z mod 4294967296.

Definition int_add (a b : Z) : Z := wrap_int (a + b).
Definition int_sub (a b : Z) : Z := wrap_int (a - b).
Definition int_mul (a b : Z) : Z := wrap_int (a * b).

(** [a - b] on [unsigned long] operands. *)
Definition ulong_sub (a b : Z) : Z := wrap_ulong (a - b).

End Avr.
Import Avr.

(** Logic levels; the sketch stores them in [bool] variables. *)
Definition HIGH : bool := true.
Definition LOW : bool := false.

(* ===================================================================== *)
(** ** Configuration section of the sketch *)
(* ===================================================================== *)

Definition SCREEN_WIDTH : Z := 128.
Definition SCREEN_HEIGHT : Z := 32.

Definition TOGGLE_BUTTON_PIN : Z := 8.
Definition SHOOT_BUTTON_PIN : Z := 7.
Definition BLUE_LED_PIN : Z := 5.
Definition RED_LED_PIN : Z := 6.
Definition ONBOARD_LED_PIN : Z := 13.

Definition AUDIO_VOLUME : Z := 25.

Definition DIM_BRIGHTNESS : Z := 30.
Definition MAX_BRIGHTNESS : Z := 255.
Definition FADE_STEP : Z := 2.
Definition FADE_DELAY : Z := 20.

Definition DEBOUNCE_DELAY : Z := 50.
Definition BLINK_INTERVAL : Z := 500.
Definition OLED_UPDATE_INTERVAL : Z := 200.
Definition PULSE_DELAY : Z := 15.
Definition PULSE_COUNT : Z := 8.
Definition BRIGHTNESS_STEP : Z := 20.

Inductive AudioTrack : Set :=
| SOUND_POWER_UP
| SOUND_BLUE_PORTAL
| SOUND_RED_PORTAL
| SOUND_MODE_SWITCH
| SOUND_POWER_DOWN.

(** The integer value of each enumerator. *)
Definition track_index (t : AudioTrack) : Z :=
  match t with
  | SOUND_POWER_UP => 1
  | SOUND_BLUE_PORTAL => 2
  | SOUND_RED_PORTAL => 3
  | SOUND_MODE_SWITCH => 4
  | SOUND_POWER_DOWN => 5
  end.

Definition DISPLAY_STRINGS : list string :=
  [ "PORTAL GUN"; "BLUE"; "RED"; "Status: READY"; "Fired: "; "PWR:";
    "â™ª"; "O"; "@" ].

Definition MODE_STRINGS : list string :=
  [ "MODE SWITCHING"; ">> BLUE PORTAL <<"; ">> RED PORTAL <<";
    "AUTO-SWITCH!"; "Next: BLUE PORTAL"; "Next: RED PORTAL" ].

Definition STARTUP_STRINGS : list string :=
  [ "PORTAL GUN v3.1"; "AUDIO: READY"; "AUDIO: OFFLINE";
    "INITIALIZING..."; "SYSTEMS ONLINE"; "READY TO FIRE" ].

(** Indexing of the constant string tables. *)
Definition str_at (tbl : list string) (i : nat) : string := nth i tbl "".

(* ===================================================================== *)
(** ** Global variables and hardware state *)
(* ===================================================================== *)

Inductive PortalMode : Set := BLUE_MODE | RED_MODE.

Definition mode_eqb (a b : PortalMode) : bool :=
  match a, b with
  | BLUE_MODE, BLUE_MODE | RED_MODE, RED_MODE => true
  | _, _ => false
  end.

Record State : Type := mkState {
  (* globals of the sketch *)
  currentMode : PortalMode;
  isShooting : bool;
  audioEnabled : bool;
  totalPortalsFired : Z;
  lastButtonPress : Z;
  lastBlinkTime : Z;
  lastOLEDUpdate : Z;
  lastToggleState : bool;
  lastShootState : bool;
  onboardLEDState : bool;
  (* hardware *)
  clock : Z;               (* ticks counted since reset, in the unit of
                              millis() and delay() *)
  pwm : Z -> Z;            (* duty last written to each pin by analogWrite *)
  TCCR0B : Z;              (* timer 0 control register B *)
  font_width : string -> Z -> Z
                           (* pixel width the display driver's
                              getTextBounds reports for a text at a size *)
}.

Definition set_currentMode (v : PortalMode) (s : State) : State :=
  mkState v (isShooting s) (audioEnabled s) (totalPortalsFired s)
    (lastButtonPress s) (lastBlinkTime s) (lastOLEDUpdate s)
    (lastToggleState s) (lastShootState s) (onboardLEDState s)
    (clock s) (pwm s) (TCCR0B s) (font_width s).

Definition set_isShooting (v : bool) (s : State) : State :=
  mkState (currentMode s) v (audioEnabled s) (totalPortalsFired s)
    (lastButtonPress s) (lastBlinkTime s) (lastOLEDUpdate s)
    (lastToggleState s) (lastShootState s) (onboardLEDState s)
    (clock s) (pwm s) (TCCR0B s) (font_width s).

Definition set_audioEnabled (v : bool) (s : State) : State :=
  mkState (currentMode s) (isShooting s) v (totalPortalsFired s)
    (lastButtonPress s) (lastBlinkTime s) (lastOLEDUpdate s)
    (lastToggleState s) (lastShootState s) (onboardLEDState s)
    (clock s) (pwm s) (TCCR0B s) (font_width s).

Definition set_totalPortalsFired (v : Z) (s : State) : State :=
  mkState (currentMode s) (isShooting s) (audioEnabled s) v
    (lastButtonPress s) (lastBlinkTime s) (lastOLEDUpdate s)
    (lastToggleState s) (lastShootState s) (onboardLEDState s)
    (clock s) (pwm s) (TCCR0B s) (font_width s).

Definition set_lastButtonPress (v : Z) (s : State) : State :=
  mkState (currentMode s) (isShooting s) (audioEnabled s)
    (totalPortalsFired s) v (lastBlinkTime s) (lastOLEDUpdate s)
    (lastToggleState s) (lastShootState s) (onboardLEDState s)
    (clock s) (pwm s) (TCCR0B s) (font_width s).

Definition set_lastBlinkTime (v : Z) (s : State) : State :=
  mkState (currentMode s) (isShooting s) (audioEnabled s)
    (totalPortalsFired s) (lastButtonPress s) v (lastOLEDUpdate s)
    (lastToggleState s) (lastShootState s) (onboardLEDState s)
    (clock s) (pwm s) (TCCR0B s) (font_width s).

Definition set_lastOLEDUpdate (v : Z) (s : State) : State :=
  mkState (currentMode s) (isShooting s) (audioEnabled s)
    (totalPortalsFired s) (lastButtonPress s) (lastBlinkTime s) v
    (lastToggleState s) (lastShootState s) (onboardLEDState s)
    (clock s) (pwm s) (TCCR0B s) (font_width s).

Definition set_lastToggleState (v : bool) (s : State) : State :=
  mkState (currentMode s) (isShooting s) (audioEnabled s)
    (totalPortalsFired s) (lastButtonPress s) (lastBlinkTime s)
    (lastOLEDUpdate s) v (lastShootState s) (onboardLEDState s)
    (clock s) (pwm s) (TCCR0B s) (font_width s).

Definition set_lastShootState (v : bool) (s : State) : State :=
  mkState (currentMode s) (isShooting s) (audioEnabled s)
    (totalPortalsFired s) (lastButtonPress s) (lastBlinkTime s)
    (lastOLEDUpdate s) (lastToggleState s) v (onboardLEDState s)
    (clock s) (pwm s) (TCCR0B s) (font_width s).

Definition set_onboardLEDState (v : bool) (s : State) : State :=
  mkState (currentMode s) (isShooting s) (audioEnabled s)
    (totalPortalsFired s) (lastButtonPress s) (lastBlinkTime s)
    (lastOLEDUpdate s) (lastToggleState s) (lastShootState s) v
    (clock s) (pwm s) (TCCR0B s) (font_width s).

Definition set_clock (v : Z) (s : State) : State :=
  mkState (currentMode s) (isShooting s) (audioEnabled s)
    (totalPortalsFired s) (lastButtonPress s) (lastBlinkTime s)
    (lastOLEDUpdate s) (lastToggleState s) (lastShootState s)
    (onboardLEDState s) v (pwm s) (TCCR0B s) (font_width s).

Definition set_pwm (v : Z -> Z) (s : State) : State :=
  mkState (currentMode s) (isShooting s) (audioEnabled s)
    (totalPortalsFired s) (lastButtonPress s) (lastBlinkTime s)
    (lastOLEDUpdate s) (lastToggleState s) (lastShootState s)
    (onboardLEDState s) (clock s) v (TCCR0B s) (font_width s).

Definition set_TCCR0B (v : Z) (s : State) : State :=
  mkState (currentMode s) (isShooting s) (audioEnabled s)
    (totalPortalsFired s) (lastButtonPress s) (lastBlinkTime s)
    (lastOLEDUpdate s) (lastToggleState s) (lastShootState s)
    (onboardLEDState s) (clock s) (pwm s) v (font_width s).

(** Duty register file after writing [v] to [pin]. *)
Definition write_duty (f : Z -> Z) (pin v : Z) : Z -> Z :=
  fun p => if p =? pin then v else f p.

(* ===================================================================== *)
(** ** Calls made to the Arduino core and to the two drivers *)
(* ===================================================================== *)

Inductive PinDir : Set := INPUT_PULLUP | OUTPUT.

Inductive Event : Type :=
| SerialBegin (baud : Z)
| SerialPrintln (text : string)
| DisplayBegin (ok : bool)
| AudioSerialBegin (baud : Z)
| AudioBegin (ok : bool)
| AudioVolume (v : Z)
| AudioPlay (track : Z)
| PinMode (pin : Z) (dir : PinDir)
| DigitalRead (pin : Z) (level : bool)
| DigitalWrite (pin : Z) (level : bool)
| AnalogWrite (pin : Z) (duty : Z)
| Delay (ms : Z)
| DClear
| DSetTextColor
| DSetTextSize (n : Z)
| DGetTextBounds (text : string)
| DSetCursor (x y : Z)
| DPrint (text : string)
| DPrintInt (n : Z)
| DFlush.

(** What the environment answers during one pass of [loop]: the levels of
    the two button lines, and the ticks that went by since the previous
    pass ended (beyond the sketch's own delays). *)
Record Poll : Type := mkPoll {
  slack : Z;
  toggle_line : bool;
  shoot_line : bool
}.

Definition line_level (p : Poll) (pin : Z) : bool :=
  if pin =? TOGGLE_BUTTON_PIN then toggle_line p
  else if pin =? SHOOT_BUTTON_PIN then shoot_line p
  else HIGH.

(** What the two collaborators answer at start-up. *)
Record Boot : Type := mkBoot {
  display_ok : bool;
  audio_ok : bool
}.

(* ===================================================================== *)
(** ** The computation monad *)
(* ===================================================================== *)

(** A computation either returns, or never returns ([Hang], the empty
    endless loop), and in both cases has made the listed calls.
    [OutOfFuel] marks a loop of the model cut short; it is shown below
    that no function of the sketch ever yields it. *)
Inductive Res (A : Type) : Type :=
| Done (a : A) (s : State) (tr : list Event)
| Hang (s : State) (tr : list Event)
| OutOfFuel.
Arguments Done {A} a s tr.
Arguments Hang {A} s tr.
Arguments OutOfFuel {A}.

Definition M (A : Type) : Type := State -> Res A.

Definition ret {A} (a : A) : M A := fun s => Done a s [].

(** The result [r], preceded by the calls [t] made before it. *)
Definition preceded {A} (t : list Event) (r : Res A) : Res A :=
  match r with
  | Done a s t' => Done a s (t ++ t')
  | Hang s t' => Hang s (t ++ t')
  | OutOfFuel => OutOfFuel
  end.

Definition bind {A B} (m : M A) (k : A -> M B) : M B :=
  fun s =>
    match m s with
    | Done a s1 t1 => preceded t1 (k a s1)
    | Hang s1 t1 => Hang s1 t1
    | OutOfFuel => OutOfFuel
    end.

Declare Scope sketch_scope.
Delimit Scope sketch_scope with sketch.
Notation "x <- m ;; k" := (bind m (fun x => k))
  (at level 61, m at next level, right associativity) : sketch_scope.
Notation "m ;; k" := (bind m (fun _ => k))
  (at level 61, right associativity) : sketch_scope.
Local Open Scope sketch_scope.

Definition gets {A} (f : State -> A) : M A := fun s => Done (f s) s [].
Definition modify (f : State -> State) : M unit := fun s => Done tt (f s) [].
Definition emit (e : Event) : M unit := fun s => Done tt s [e].

(** [if (c) { body }] without an else branch. *)
Definition when (c : bool) (body : M unit) : M unit :=
  if c then body else ret tt.

(** [for(;;);] *)
Definition forever {A} : M A := fun s => Hang s [].

(** [for (int i = init; cond(i); i = next(i)) body(i)] *)
Fixpoint for_loop (fuel : nat) (i : Z) (cond : Z -> bool) (next : Z -> Z)
    (body : Z -> M unit) : M unit :=
  match fuel with
  | O => fun _ => OutOfFuel
  | S fuel' =>
      if cond i
      then body i ;; for_loop fuel' (next i) cond next body
      else ret tt
  end.

Definition loop_fuel : nat := 512.

(** The state and the calls of a result. *)
Definition state_of {A} (r : Res A) (dflt : State) : State :=
  match r with
  | Done _ s _ | Hang s _ => s
  | OutOfFuel => dflt
  end.

Definition trace_of {A} (r : Res A) : list Event :=
  match r with
  | Done _ _ tr | Hang _ tr => tr
  | OutOfFuel => []
  end.

Definition returns {A} (r : Res A) : bool :=
  match r with Done _ _ _ => true | _ => false end.

(* ===================================================================== *)
(** ** Arduino core *)
(* ===================================================================== *)

Definition millis : M Z := gets (fun s => wrap_ulong (clock s)).

Definition delay (ms : Z) : M unit :=
  fun s => Done tt (set_clock (clock s + ms) s) [Delay ms].

(** [pin] is the pin number as the core receives it, an 8-bit unsigned
    value: the definition is for pins in 0..255 (the sketch passes 5 and
    6 only), and the duty registers are those of the pins 0..255. *)
Definition analogWrite (pin v : Z) : M unit :=
  fun s => Done tt (set_pwm (write_duty (pwm s) pin v) s) [AnalogWrite pin v].

Definition digitalWrite (pin : Z) (level : bool) : M unit :=
  emit (DigitalWrite pin level).

Definition digitalRead (p : Poll) (pin : Z) : M bool :=
  fun s => Done (line_level p pin) s [DigitalRead pin (line_level p pin)].

Definition pinMode (pin : Z) (dir : PinDir) : M unit := emit (PinMode pin dir).

(* ===================================================================== *)
(** ** Display helper functions *)
(* ===================================================================== *)

(** [display.getTextBounds(text, 0, 0, &x1, &y1, &w, &h)] at the text size
    in force; only [w] (a [uint16_t]) is used by the sketch. *)
Definition getTextBounds (text : string) (textSize : Z) : M Z :=
  fun s => Done (wrap_uint (font_width s text textSize)) s [DGetTextBounds text].

Definition showCenteredText (text : string) (y : Z) (textSize : Z) : M unit :=
  emit (DSetTextSize textSize) ;;
  w <- getTextBounds text textSize ;;
  (* int - uint16_t is computed on 16-bit unsigned operands *)
  let x := wrap_int (wrap_uint (SCREEN_WIDTH - w) / 2) in
  emit (DSetCursor x y) ;;
  emit (DPrint text).

Definition showTextAt (text : string) (x y : Z) (textSize : Z) : M unit :=
  emit (DSetTextSize textSize) ;;
  emit (DSetCursor x y) ;;
  emit (DPrint text).

(** [line2 = None] is the [nullptr] default. *)
Definition displayMessage (line1 : string) (line2 : option string)
    (delayMs : Z) : M unit :=
  emit DClear ;;
  emit DSetTextColor ;;
  match line2 with
  | None => showCenteredText line1 12 1
  | Some l2 => showCenteredText line1 4 1 ;; showCenteredText l2 20 1
  end ;;
  emit DFlush ;;
  when (0 <? delayMs) (delay delayMs).

Definition drawPowerBars (x y count : Z) : M unit :=
  for_loop loop_fuel 0 (fun i => i <? count) (fun i => int_add i 1)
    (fun i => emit (DSetCursor (int_add x (int_mul i 3)) y) ;; emit (DPrint "|")).

(* ===================================================================== *)
(** ** Audio *)
(* ===================================================================== *)

Definition playAudio (track : AudioTrack) : M unit :=
  enabled <- gets audioEnabled ;;
  when (enabled && (1 <=? track_index track) && (track_index track <=? 5))
    (emit (AudioPlay (track_index track))).

(* ===================================================================== *)
(** ** LED control *)
(* ===================================================================== *)

Definition fadeTransition (fromPin toPin : Z) : M unit :=
  for_loop loop_fuel 0 (fun step => step <=? DIM_BRIGHTNESS)
    (fun step => int_add step FADE_STEP)
    (fun step =>
       analogWrite fromPin (int_sub DIM_BRIGHTNESS step) ;;
       analogWrite toPin step ;;
       delay FADE_DELAY) ;;
  analogWrite fromPin 0 ;;
  analogWrite toPin DIM_BRIGHTNESS.

Definition setIdleMode : M unit :=
  mode <- gets currentMode ;;
  if mode_eqb mode BLUE_MODE then
    analogWrite BLUE_LED_PIN DIM_BRIGHTNESS ;;
    analogWrite RED_LED_PIN 0 ;;
    digitalWrite ONBOARD_LED_PIN HIGH
  else
    analogWrite RED_LED_PIN DIM_BRIGHTNESS ;;
    analogWrite BLUE_LED_PIN 0.

Definition updateOnboardLED : M unit :=
  mode <- gets currentMode ;;
  if mode_eqb mode BLUE_MODE then
    digitalWrite ONBOARD_LED_PIN HIGH
  else
    now <- millis ;;
    lastBlink <- gets lastBlinkTime ;;
    when (BLINK_INTERVAL <=? ulong_sub now lastBlink)
      (modify (fun s => set_onboardLEDState (negb (onboardLEDState s)) s) ;;
       led <- gets onboardLEDState ;;
       digitalWrite ONBOARD_LED_PIN led ;;
       now' <- millis ;;
       modify (set_lastBlinkTime now')).

Definition performShootingEffect (ledPin : Z) : M unit :=
  for_loop loop_fuel 0 (fun pulse => pulse <? PULSE_COUNT)
    (fun pulse => int_add pulse 1)
    (fun _ =>
       (* pulse up *)
       for_loop loop_fuel DIM_BRIGHTNESS
         (fun brightness => brightness <=? MAX_BRIGHTNESS)
         (fun brightness => int_add brightness BRIGHTNESS_STEP)
         (fun brightness =>
            analogWrite ledPin brightness ;; delay PULSE_DELAY) ;;
       (* pulse down *)
       for_loop loop_fuel MAX_BRIGHTNESS
         (fun brightness => DIM_BRIGHTNESS <=? brightness)
         (fun brightness => int_sub brightness BRIGHTNESS_STEP)
         (fun brightness =>
            analogWrite ledPin brightness ;; delay PULSE_DELAY)) ;;
  analogWrite ledPin MAX_BRIGHTNESS ;;
  delay 100.

(* ===================================================================== *)
(** ** Display functions *)
(* ===================================================================== *)

Definition runStartupSequence : M unit :=
  enabled <- gets audioEnabled ;;
  displayMessage (str_at STARTUP_STRINGS 0)
    (Some (if enabled then str_at STARTUP_STRINGS 1
           else str_at STARTUP_STRINGS 2))
    2000 ;;
  displayMessage (str_at STARTUP_STRINGS 3) None 800 ;;
  displayMessage (str_at STARTUP_STRINGS 4) (Some (str_at STARTUP_STRINGS 5))
    1500 ;;
  enabled' <- gets audioEnabled ;;
  when enabled'
    (delay 2000 ;;
     emit DClear ;;
     showTextAt "O" 35 8 1 ;;
     showTextAt "[]" 55 8 1 ;;
     showTextAt "@" 75 8 1 ;;
     emit DFlush ;;
     delay 1200).

Definition updateMainDisplay : M unit :=
  shooting <- gets isShooting ;;
  if shooting then ret tt
  else
    emit DClear ;;
    emit DSetTextColor ;;
    mode <- gets currentMode ;;
    showTextAt (str_at DISPLAY_STRINGS 0) 0 0 1 ;;
    showTextAt (if mode_eqb mode BLUE_MODE then str_at DISPLAY_STRINGS 1
                else str_at DISPLAY_STRINGS 2) 85 0 1 ;;
    showTextAt (str_at DISPLAY_STRINGS 3) 0 10 1 ;;
    enabled <- gets audioEnabled ;;
    when enabled (showTextAt (str_at DISPLAY_STRINGS 6) 85 10 1) ;;
    showTextAt (str_at DISPLAY_STRINGS 4) 0 20 1 ;;
    fired <- gets totalPortalsFired ;;
    emit (DPrintInt fired) ;;
    showTextAt (str_at DISPLAY_STRINGS 5) 70 20 1 ;;
    drawPowerBars 100 20 4 ;;
    mode' <- gets currentMode ;;
    showTextAt (if mode_eqb mode' BLUE_MODE then str_at DISPLAY_STRINGS 7
                else str_at DISPLAY_STRINGS 8) 110 0 2 ;;
    emit DFlush.

Definition updateDisplayPeriodically : M unit :=
  now <- millis ;;
  lastUpdate <- gets lastOLEDUpdate ;;
  when (OLED_UPDATE_INTERVAL <=? ulong_sub now lastUpdate)
    (updateMainDisplay ;;
     now' <- millis ;;
     modify (set_lastOLEDUpdate now')).

(* ===================================================================== *)
(** ** Portal shooting and mode switching *)
(* ===================================================================== *)

(** [(currentMode == BLUE_MODE) ? RED_MODE : BLUE_MODE] *)
Definition other_mode (m : PortalMode) : PortalMode :=
  if mode_eqb m BLUE_MODE then RED_MODE else BLUE_MODE.

Definition autoSwitchMode : M unit :=
  modify (fun s => set_currentMode (other_mode (currentMode s)) s) ;;
  mode <- gets currentMode ;;
  if mode_eqb mode BLUE_MODE then
    digitalWrite ONBOARD_LED_PIN HIGH ;;
    displayMessage (str_at MODE_STRINGS 3) (Some (str_at MODE_STRINGS 4)) 1500 ;;
    fadeTransition RED_LED_PIN BLUE_LED_PIN
  else
    now <- millis ;;
    modify (set_lastBlinkTime now) ;;
    modify (set_onboardLEDState true) ;;
    digitalWrite ONBOARD_LED_PIN HIGH ;;
    displayMessage (str_at MODE_STRINGS 3) (Some (str_at MODE_STRINGS 5)) 1500 ;;
    fadeTransition BLUE_LED_PIN RED_LED_PIN.

Definition shootPortal : M unit :=
  modify (set_isShooting true) ;;
  modify (fun s => set_totalPortalsFired (int_add (totalPortalsFired s) 1) s) ;;
  mode <- gets currentMode ;;
  let activePin := if mode_eqb mode BLUE_MODE then BLUE_LED_PIN
                   else RED_LED_PIN in
  let soundTrack := if mode_eqb mode BLUE_MODE then SOUND_BLUE_PORTAL
                    else SOUND_RED_PORTAL in
  playAudio soundTrack ;;
  performShootingEffect activePin ;;
  autoSwitchMode ;;
  modify (set_isShooting false) ;;
  updateMainDisplay.

Definition togglePortalMode : M unit :=
  modify (fun s => set_currentMode (other_mode (currentMode s)) s) ;;
  playAudio SOUND_MODE_SWITCH ;;
  mode <- gets currentMode ;;
  (if mode_eqb mode BLUE_MODE then
     digitalWrite ONBOARD_LED_PIN HIGH ;;
     displayMessage (str_at MODE_STRINGS 0) (Some (str_at MODE_STRINGS 1)) 1000 ;;
     fadeTransition RED_LED_PIN BLUE_LED_PIN
   else
     now <- millis ;;
     modify (set_lastBlinkTime now) ;;
     modify (set_onboardLEDState true) ;;
     digitalWrite ONBOARD_LED_PIN HIGH ;;
     displayMessage (str_at MODE_STRINGS 0) (Some (str_at MODE_STRINGS 2)) 1000 ;;
     fadeTransition BLUE_LED_PIN RED_LED_PIN) ;;
  updateMainDisplay.

(* ===================================================================== *)
(** ** Button handling *)
(* ===================================================================== *)

Definition handleButtons (p : Poll) : M unit :=
  toggleLevel <- digitalRead p TOGGLE_BUTTON_PIN ;;
  let togglePressed := Bool.eqb toggleLevel LOW in
  shootLevel <- digitalRead p SHOOT_BUTTON_PIN ;;
  let shootPressed := Bool.eqb shootLevel LOW in
  now <- millis ;;
  lastPress <- gets lastButtonPress ;;
  when (DEBOUNCE_DELAY <? ulong_sub now lastPress)
    (lastToggle <- gets lastToggleState ;;
     when (togglePressed && Bool.eqb lastToggle HIGH)
       (togglePortalMode ;;
        t <- millis ;;
        modify (set_lastButtonPress t)) ;;
     lastShoot <- gets lastShootState ;;
     shooting <- gets isShooting ;;
     when (shootPressed && Bool.eqb lastShoot HIGH && negb shooting)
       (shootPortal ;;
        t <- millis ;;
        modify (set_lastButtonPress t))) ;;
  modify (set_lastToggleState (if togglePressed then LOW else HIGH)) ;;
  modify (set_lastShootState (if shootPressed then LOW else HIGH)).

(* ===================================================================== *)
(** ** Core functions *)
(* ===================================================================== *)

Definition display_begin (b : Boot) : M bool :=
  fun s => Done (display_ok b) s [DisplayBegin (display_ok b)].

Definition audio_begin (b : Boot) : M bool :=
  fun s => Done (audio_ok b) s [AudioBegin (audio_ok b)].

Definition setup (b : Boot) : M unit :=
  emit (SerialBegin 9600) ;;
  emit (SerialPrintln "Portal Gun v3.1 - Right On Edition") ;;
  (* initialize OLED *)
  displayUp <- display_begin b ;;
  when (negb displayUp)
    (emit (SerialPrintln "OLED initialization failed!") ;;
     forever) ;;
  (* initialize audio *)
  emit (AudioSerialBegin 9600) ;;
  audioUp <- audio_begin b ;;
  (if negb audioUp then
     emit (SerialPrintln "DFPlayer Mini not detected") ;;
     modify (set_audioEnabled false)
   else
     emit (AudioVolume AUDIO_VOLUME) ;;
     delay 1000 ;;
     playAudio SOUND_POWER_UP) ;;
  (* setup pins *)
  pinMode TOGGLE_BUTTON_PIN INPUT_PULLUP ;;
  pinMode SHOOT_BUTTON_PIN INPUT_PULLUP ;;
  pinMode BLUE_LED_PIN OUTPUT ;;
  pinMode RED_LED_PIN OUTPUT ;;
  pinMode ONBOARD_LED_PIN OUTPUT ;;
  (* TCCR0B = TCCR0B & B11111000 | B00000010 *)
  modify (fun s => set_TCCR0B (Z.lor (Z.land (TCCR0B s) 248) 2) s) ;;
  runStartupSequence ;;
  setIdleMode ;;
  updateMainDisplay ;;
  emit (SerialPrintln "Portal Gun Ready!").

Definition loop (p : Poll) : M unit :=
  handleButtons p ;;
  updateOnboardLED ;;
  updateDisplayPeriodically ;;
  delay 10.

(** One pass of the main loop as the environment sees it: [slack p] ticks
    go by, then [loop] runs against the line levels of [p]. *)
Definition pass (p : Poll) : M unit :=
  modify (fun s => set_clock (clock s + slack p) s) ;;
  loop p.

(** The Arduino runtime calls [loop] again and again; [passes ps] is the
    prefix of that execution that consumes the polls [ps]. *)
Fixpoint passes (ps : list Poll) : M unit :=
  match ps with
  | [] => ret tt
  | p :: ps' => pass p ;; passes ps'
  end.

(** The sketch from reset: [setup], then the main loop. *)
Definition sketch (b : Boot) (ps : list Poll) : M unit :=
  setup b ;; passes ps.

(** The state at reset: the initializers of the globals. The hardware
    part (tick counter, duty registers, timer register, font) is whatever
    the board has. *)
Definition power_on (pwm0 : Z -> Z) (tccr0b : Z)
    (font : string -> Z -> Z) : State :=
  mkState BLUE_MODE false true 0 0 0 0 HIGH HIGH false 0 pwm0 tccr0b font.

(** A concrete board for running examples: all duty registers at 0, the
    timer register at its reset value with the core's prescaler bits,
    and a fixed-pitch font six pixels wide per character and size unit. *)
Definition classic_font (text : string) (textSize : Z) : Z :=
  6 * textSize * Z.of_nat (String.length text).

Definition board0 : State := power_on (fun _ => 0) 3 classic_font.

(* ===================================================================== *)
(** ** Observations on states and call lists *)
(* ===================================================================== *)

Definition run_state {A} (m : M A) (s : State) : State := state_of (m s) s.
Definition run_trace {A} (m : M A) (s : State) : list Event := trace_of (m s).

(** Commands sent to the audio device. *)
Definition is_audio_command (e : Event) : bool :=
  match e with AudioPlay _ | AudioVolume _ => true | _ => false end.

(** The tracks started, in order. *)
Fixpoint audio_plays (tr : list Event) : list Z :=
  match tr with
  | [] => []
  | AudioPlay n :: tr' => n :: audio_plays tr'
  | _ :: tr' => audio_plays tr'
  end.

Definition prints (text : string) (e : Event) : bool :=
  match e with DPrint t => String.eqb t text | _ => false end.

(** [togglePortalMode] is the only function that shows the
    mode-switching banner, and [shootPortal] (through [autoSwitchMode])
    the only one that shows the auto-switch banner: the banners count the
    accepted actions in a call list. *)
Definition toggles_in (tr : list Event) : nat :=
  List.length (filter (prints (str_at MODE_STRINGS 0)) tr).

Definition shoots_in (tr : list Event) : nat :=
  List.length (filter (prints (str_at MODE_STRINGS 3)) tr).

(** Frames pushed to the display. *)
Definition frames_in (tr : list Event) : nat :=
  List.length (filter (fun e => match e with DFlush => true | _ => false end) tr).

(** The duty register file after each [analogWrite] of a call list. *)
Fixpoint duty_history (tr : list Event) (f : Z -> Z) : list (Z -> Z) :=
  match tr with
  | [] => []
  | AnalogWrite pin v :: tr' =>
      write_duty f pin v :: duty_history tr' (write_duty f pin v)
  | _ :: tr' => duty_history tr' f
  end.

Definition led_pin (m : PortalMode) : Z :=
  match m with BLUE_MODE => BLUE_LED_PIN | RED_MODE => RED_LED_PIN end.

(** The LED invariant: the channel of the current mode is at dim-idle
    brightness and the other channel is off. *)
Definition idle_leds (s : State) : Prop :=
  pwm s (led_pin (currentMode s)) = DIM_BRIGHTNESS /\
  pwm s (led_pin (other_mode (currentMode s))) = 0.

(** Both channels at dim-idle brightness or above. *)
Definition both_lit (f : Z -> Z) : Prop :=
  DIM_BRIGHTNESS <= f BLUE_LED_PIN /\ DIM_BRIGHTNESS <= f RED_LED_PIN.

(** The firing cue of a mode. *)
Definition fire_cue (m : PortalMode) : AudioTrack :=
  match m with
  | BLUE_MODE => SOUND_BLUE_PORTAL
  | RED_MODE => SOUND_RED_PORTAL
  end.

(** The statements of [shootPortal] after the counter is incremented. *)
Definition shoot_sequence : M unit :=
  mode <- gets currentMode ;;
  let activePin := if mode_eqb mode BLUE_MODE then BLUE_LED_PIN
                   else RED_LED_PIN in
  let soundTrack := if mode_eqb mode BLUE_MODE then SOUND_BLUE_PORTAL
                    else SOUND_RED_PORTAL in
  playAudio soundTrack ;;
  performShootingEffect activePin ;;
  autoSwitchMode ;;
  modify (set_isShooting false) ;;
  updateMainDisplay.

(** The loop of [fadeTransition], before the two closing writes. *)
Definition fade_ramp (fromPin toPin : Z) : M unit :=
  for_loop loop_fuel 0 (fun step => step <=? DIM_BRIGHTNESS)
    (fun step => int_add step FADE_STEP)
    (fun step =>
       analogWrite fromPin (int_sub DIM_BRIGHTNESS step) ;;
       analogWrite toPin step ;;
       delay FADE_DELAY).

(** The values the loop variable of [fadeTransition] takes:
    0, 2, ..., 30. *)
Definition fade_steps : list Z :=
  map (fun k => FADE_STEP * Z.of_nat k) (seq 0 16).

(** The calls of one turn of the loop of [fadeTransition]. *)
Definition fade_turn (fromPin toPin step : Z) : list Event :=
  [ AnalogWrite fromPin (DIM_BRIGHTNESS - step); AnalogWrite toPin step;
    Delay FADE_DELAY ].

Definition fade_calls (fromPin toPin : Z) : list Event :=
  flat_map (fade_turn fromPin toPin) fade_steps
  ++ [ AnalogWrite fromPin 0; AnalogWrite toPin DIM_BRIGHTNESS ].

(** The duties of the blue and the red channel after each [analogWrite]
    of a call list, starting from duties [b] and [r]. *)
Fixpoint channel_history (tr : list Event) (b r : Z) : list (Z * Z) :=
  match tr with
  | [] => []
  | AnalogWrite pin v :: tr' =>
      let b' := if BLUE_LED_PIN =? pin then v else b in
      let r' := if RED_LED_PIN =? pin then v else r in
      (b', r') :: channel_history tr' b' r'
  | _ :: tr' => channel_history tr' b r
  end.

Definition dark_one (br : Z * Z) : bool :=
  negb ((DIM_BRIGHTNESS <=? fst br) && (DIM_BRIGHTNESS <=? snd br)).

(* --------------------------------------------------------------------- *)
(** *** The poller, case by case *)

(** [millis() - lastButtonPress > DEBOUNCE_DELAY] *)
Definition gate_open (s : State) : bool :=
  DEBOUNCE_DELAY <? ulong_sub (wrap_ulong (clock s)) (lastButtonPress s).

(** [lastButtonPress = millis()] *)
Definition stamp (s : State) : State :=
  set_lastButtonPress (wrap_ulong (clock s)) s.

(** The two assignments that close [handleButtons]. *)
Definition latch (p : Poll) (s : State) : State :=
  set_lastShootState (shoot_line p) (set_lastToggleState (toggle_line p) s).

Definition toggle_fires (p : Poll) (s : State) : bool :=
  gate_open s && (negb (toggle_line p) && lastToggleState s).

Definition after_toggle (p : Poll) (s : State) : State :=
  if toggle_fires p s then stamp (run_state togglePortalMode s) else s.

Definition shoot_fires (p : Poll) (s : State) : bool :=
  gate_open s &&
  (negb (shoot_line p) && lastShootState (after_toggle p s)
   && negb (isShooting (after_toggle p s))).

Definition after_shoot (p : Poll) (s : State) : State :=
  if shoot_fires p s then stamp (run_state shootPortal (after_toggle p s))
  else after_toggle p s.

(** The same poll with the shoot button released. *)
Definition without_shoot (p : Poll) : Poll :=
  mkPoll (slack p) (toggle_line p) HIGH.

Definition reads (p : Poll) : list Event :=
  [ DigitalRead TOGGLE_BUTTON_PIN (toggle_line p);
    DigitalRead SHOOT_BUTTON_PIN (shoot_line p) ].

Definition buttons_state (p : Poll) (s : State) : State :=
  latch p (after_shoot p s).

Definition buttons_trace (p : Poll) (s : State) : list Event :=
  reads p
  ++ (if toggle_fires p s then run_trace togglePortalMode s else [])
  ++ (if shoot_fires p s then run_trace shootPortal (after_toggle p s) else []).

(** [millis() - lastBlinkTime >= BLINK_INTERVAL] *)
Definition blink_due (s : State) : bool :=
  BLINK_INTERVAL <=? ulong_sub (wrap_ulong (clock s)) (lastBlinkTime s).

(** [millis() - lastOLEDUpdate >= OLED_UPDATE_INTERVAL] *)
Definition refresh_due (s : State) : bool :=
  OLED_UPDATE_INTERVAL <=? ulong_sub (wrap_ulong (clock s)) (lastOLEDUpdate s).

Definition onboard_state (s : State) : State :=
  if mode_eqb (currentMode s) BLUE_MODE then s
  else if blink_due s then
    set_lastBlinkTime (wrap_ulong (clock s))
      (set_onboardLEDState (negb (onboardLEDState s)) s)
  else s.

Definition onboard_trace (s : State) : list Event :=
  if mode_eqb (currentMode s) BLUE_MODE then [DigitalWrite ONBOARD_LED_PIN HIGH]
  else if blink_due s then
    [DigitalWrite ONBOARD_LED_PIN (negb (onboardLEDState s))]
  else [].

Definition periodic_state (s : State) : State :=
  if refresh_due s then set_lastOLEDUpdate (wrap_ulong (clock s)) s else s.

Definition periodic_trace (s : State) : list Event :=
  if refresh_due s then run_trace updateMainDisplay s else [].

Definition loop_state (p : Poll) (s : State) : State :=
  let s3 := periodic_state (onboard_state (buttons_state p s)) in
  set_clock (clock s3 + 10) s3.

Definition loop_trace (p : Poll) (s : State) : list Event :=
  buttons_trace p s
  ++ onboard_trace (buttons_state p s)
  ++ periodic_trace (onboard_state (buttons_state p s))
  ++ [Delay 10].

(** The state at the poll of a pass: [slack p] ticks have gone by. *)
Definition at_poll (p : Poll) (s : State) : State :=
  set_clock (clock s + slack p) s.

Definition pass_state (p : Poll) (s : State) : State :=
  loop_state p (at_poll p s).

Definition pass_trace (p : Poll) (s : State) : list Event :=
  loop_trace p (at_poll p s).

Fixpoint passes_state (ps : list Poll) (s : State) : State :=
  match ps with
  | [] => s
  | p :: ps' => passes_state ps' (pass_state p s)
  end.

Fixpoint passes_trace (ps : list Poll) (s : State) : list Event :=
  match ps with
  | [] => []
  | p :: ps' => pass_trace p s ++ passes_trace ps' (pass_state p s)
  end.

(** Ticks since the last accepted action, as the poller computes them. *)
Definition since_press (s : State) : Z :=
  ulong_sub (wrap_ulong (clock s)) (lastButtonPress s).

(** The polls [ps] all begin within the debounce window, [e] ticks
    having gone by since the last accepted action. *)
Fixpoint within_window (e : Z) (ps : list Poll) : Prop :=
  match ps with
  | [] => True
  | p :: ps' =>
      0 <= slack p /\ e + slack p <= DEBOUNCE_DELAY /\
      within_window (e + slack p + 10) ps'
  end.

(** [n] calls of [togglePortalMode] in a row. *)
Fixpoint toggle_times (n : nat) : M unit :=
  match n with
  | O => ret tt
  | S n' => togglePortalMode ;; toggle_times n'
  end.

(** [n] calls of [shootPortal] in a row. *)
Fixpoint shoot_times (n : nat) : M unit :=
  match n with
  | O => ret tt
  | S n' => shootPortal ;; shoot_times n'
  end.

(** The state in which [setup] leaves the example board when both
    collaborators answer. *)
Definition ready0 : State := run_state (setup (mkBoot true true)) board0.

(** The same when the audio module does not answer. *)
Definition ready0_silent : State := run_state (setup (mkBoot true false)) board0.

(* --------------------------------------------------------------------- *)
(** *** Running without sound *)

Definition mute (s : State) : State := set_audioEnabled false s.

(** The three driver calls that draw the audio glyph of the status
    screen. *)
Definition audio_glyph : list Event :=
  [ DSetTextSize 1; DSetCursor 85 10; DPrint (str_at DISPLAY_STRINGS 6) ].

(** [erasure full silent]: [silent] is [full] with every play command
    and every drawing of the audio glyph taken out, and nothing else
    changed. *)
Inductive erasure : list Event -> list Event -> Prop :=
| erasure_nil : erasure [] []
| erasure_keep e t t' : erasure t t' -> erasure (e :: t) (e :: t')
| erasure_play n t t' : erasure t t' -> erasure (AudioPlay n :: t) t'
| erasure_glyph t t' : erasure t t' -> erasure (audio_glyph ++ t) t'.

(** Two results that differ only by sound. *)
Definition silent_version {A} (r r' : Res A) : Prop :=
  match r, r' with
  | Done a s t, Done a' s' t' => a' = a /\ s' = mute s /\ erasure t t'
  | Hang s t, Hang s' t' => s' = mute s /\ erasure t t'
  | OutOfFuel, OutOfFuel => True
  | _, _ => False
  end.

(** [m'] run without sound does what [m] does, sound apart. *)
Definition silently {A} (m m' : M A) : Prop :=
  forall s, silent_version (m s) (m' (mute s)).


(* ===================================================================== *)
(** ** Accounting for time and for the duty registers *)
(* ===================================================================== *)

(** The ticks a call list spends in [delay]. *)
Fixpoint total_delay (tr : list Event) : Z :=
  match tr with
  | [] => 0
  | Delay ms :: tr' => ms + total_delay tr'
  | _ :: tr' => total_delay tr'
  end.

(** The duty register file once the [analogWrite]s of a call list are
    done. *)
Fixpoint duty_after (tr : list Event) (f : Z -> Z) : Z -> Z :=
  match tr with
  | [] => f
  | AnalogWrite pin v :: tr' => duty_after tr' (write_duty f pin v)
  | _ :: tr' => duty_after tr' f
  end.

(** [m] keeps the relation [I] between the state it starts from, the
    state it leaves and the calls it makes (whether it returns or
    hangs). *)
Definition keeps {A} (I : State -> State -> list Event -> Prop) (m : M A) :
    Prop :=
  forall s,
    match m s with
    | Done _ s' t => I s s' t
    | Hang s' t => I s s' t
    | OutOfFuel => True
    end.

(** The clock moves only by the delays made, and the duty registers only
    by the writes made. *)
Definition metered (s s' : State) (t : list Event) : Prop :=
  clock s' = clock s + total_delay t /\ pwm s' = duty_after t (pwm s).

(** Events other than a delay or a duty write. *)
Definition unmetered (e : Event) : bool :=
  match e with Delay _ | AnalogWrite _ _ => false | _ => true end.

(** The duties written by a call list, in order, with their pins. *)
Fixpoint duty_writes (tr : list Event) : list (Z * Z) :=
  match tr with
  | [] => []
  | AnalogWrite pin v :: tr' => (pin, v) :: duty_writes tr'
  | _ :: tr' => duty_writes tr'
  end.

Definition is_read (e : Event) : bool :=
  match e with DigitalRead _ _ => true | _ => false end.

(** One pulse of the shooting effect: the duties of the rising and of
    the falling ramp. *)
Definition pulse_up : list Z := map (fun k => 30 + 20 * Z.of_nat k) (seq 0 12).
Definition pulse_down : list Z := map (fun k => 255 - 20 * Z.of_nat k) (seq 0 12).

Definition pulse_calls (pin : Z) : list Event :=
  flat_map (fun v => [AnalogWrite pin v; Delay PULSE_DELAY])
    (pulse_up ++ pulse_down).

Definition effect_calls (pin : Z) : list Event :=
  List.concat (repeat (pulse_calls pin) 8)
  ++ [AnalogWrite pin MAX_BRIGHTNESS; Delay 100].

(** A duty write the board can carry out: one of the two LED channels,
    an 8-bit duty. *)
Definition sound_write (pv : Z * Z) : bool :=
  ((fst pv =? BLUE_LED_PIN) || (fst pv =? RED_LED_PIN))
  && (0 <=? snd pv) && (snd pv <=? 255).

(** The driver calls of one status frame, for a mode, an audio flag and
    a counter value. *)
Definition status_frame (mode : PortalMode) (enabled : bool) (fired : Z) :
    list Event :=
  [ DClear; DSetTextColor;
    DSetTextSize 1; DSetCursor 0 0; DPrint "PORTAL GUN";
    DSetTextSize 1; DSetCursor 85 0;
    DPrint (match mode with BLUE_MODE => "BLUE" | RED_MODE => "RED" end);
    DSetTextSize 1; DSetCursor 0 10; DPrint "Status: READY" ]
  ++ (if enabled then audio_glyph else [])
  ++ [ DSetTextSize 1; DSetCursor 0 20; DPrint "Fired: "; DPrintInt fired;
       DSetTextSize 1; DSetCursor 70 20; DPrint "PWR:";
       DSetCursor 100 20; DPrint "|"; DSetCursor 103 20; DPrint "|";
       DSetCursor 106 20; DPrint "|"; DSetCursor 109 20; DPrint "|";
       DSetTextSize 2; DSetCursor 110 0;
       DPrint (match mode with BLUE_MODE => "O" | RED_MODE => "@" end);
       DFlush ].

(** The cursor column [showCenteredText] computes for a text whose
    reported width is [w]. *)
Definition centered_column (w : Z) : Z :=
  wrap_int (wrap_uint (SCREEN_WIDTH - wrap_uint w) / 2).

Definition is_pin_mode (e : Event) : bool :=
  match e with PinMode _ _ => true | _ => false end.

(** The driver calls of one centred line of text at row [y], in size 1,
    with the font of state [s]. *)
Definition centered_line (s : State) (text : string) (y : Z) : list Event :=
  [ DSetTextSize 1; DGetTextBounds text;
    DSetCursor (centered_column (font_width s text 1)) y; DPrint text ].

(** The integers from [i] up to [n - 1]. *)
Definition upto (i n : Z) : list Z :=
  map (fun k => i + Z.of_nat k) (seq 0 (Z.to_nat (n - i))).

(** The driver calls of one power bar. *)
Definition power_bar (x y i : Z) : list Event :=
  [ DSetCursor (int_add x (int_mul i 3)) y; DPrint "|" ].

(** The levels written to the onboard LED, in order. *)
Definition onboard_writes (tr : list Event) : list bool :=
  flat_map (fun e => match e with
                     | DigitalWrite pin level =>
                         if pin =? ONBOARD_LED_PIN then [level] else []
                     | _ => []
                     end) tr.

(** How many actions the poll [p] accepts in state [s]. *)
Definition actions_fired (p : Poll) (s : State) : nat :=
  (if toggle_fires p s then 1 else 0) + (if shoot_fires p s then 1 else 0).

(** The pins configured so far, as inputs and as outputs; [None] once a
    pin has been used without having been configured for that use. *)
Definition PinConfig : Type := option (list Z * list Z).

Definition pin_step (c : PinConfig) (e : Event) : PinConfig :=
  match c with
  | None => None
  | Some (ins, outs) =>
      match e with
      | PinMode pin INPUT_PULLUP => Some (pin :: ins, outs)
      | PinMode pin OUTPUT => Some (ins, pin :: outs)
      | DigitalRead pin _ => if existsb (Z.eqb pin) ins then c else None
      | DigitalWrite pin _ | AnalogWrite pin _ =>
          if existsb (Z.eqb pin) outs then c else None
      | _ => c
      end
  end.

Definition pin_usage (tr : list Event) (c : PinConfig) : PinConfig :=
  fold_left pin_step tr c.

(** The pin configuration [setup] establishes. *)
Definition board_pins : PinConfig :=
  Some ([SHOOT_BUTTON_PIN; TOGGLE_BUTTON_PIN],
        [ONBOARD_LED_PIN; RED_LED_PIN; BLUE_LED_PIN]).

(** Whether a frame is being composed (cleared and not yet pushed);
    [None] once a call was made out of place. *)
Definition frame_step (st : option bool) (e : Event) : option bool :=
  match st with
  | None => None
  | Some composing =>
      match e with
      | DClear => if composing then None else Some true
      | DFlush => if composing then Some false else None
      | DSetTextColor | DSetTextSize _ | DGetTextBounds _ | DSetCursor _ _
      | DPrint _ | DPrintInt _ => if composing then st else None
      | _ => if composing then None else st
      end
  end.

Definition frame_usage (tr : list Event) (st : option bool) : option bool :=
  fold_left frame_step tr st.

(* ===================================================================== *)
(** * The sketch of version 3.0 (Complete Edition)

    The second sketch of the source file: the same device before its
    functions were regrouped. It has its own globals (a variable for
    each of three buttons, two animation variables), prints more to the
    serial port and drives the display with fixed cursor positions. The
    enumeration of modes, the machine arithmetic and the environment
    ([Poll], [Boot]) are those of version 3.1. *)
(* ===================================================================== *)

Module V30.

Definition SCREEN_WIDTH : Z := 128.
Definition SCREEN_HEIGHT : Z := 32.

Definition BLUE_BUTTON_PIN : Z := 8.
Definition RED_BUTTON_PIN : Z := 9.
Definition SHOOT_BUTTON_PIN : Z := 7.
Definition BLUE_LED_PIN : Z := 5.
Definition RED_LED_PIN : Z := 6.
Definition ONBOARD_LED_PIN : Z := 13.

Definition SOUND_POWER_UP : Z := 1.
Definition SOUND_BLUE_PORTAL : Z := 2.
Definition SOUND_RED_PORTAL : Z := 3.
Definition SOUND_MODE_SWITCH : Z := 4.
Definition SOUND_POWER_DOWN : Z := 5.

Definition DIM_BRIGHTNESS : Z := 30.
Definition MAX_BRIGHTNESS : Z := 255.
Definition FADE_SPEED : Z := 5.
Definition BLINK_INTERVAL : Z := 500.
Definition OLED_UPDATE_INTERVAL : Z := 200.

Record State : Type := mkState {
  (* globals of the sketch *)
  currentMode : PortalMode;
  isShooting : bool;
  lastButtonPress : Z;
  totalPortalsFired : Z;
  audioEnabled : bool;
  lastBlinkTime : Z;
  onboardLEDState : bool;
  lastOLEDUpdate : Z;
  animationFrame : Z;
  lastAnimationTime : Z;
  lastBlueState : bool;
  lastRedState : bool;
  lastShootState : bool;
  (* hardware *)
  clock : Z;
  pwm : Z -> Z;
  TCCR0B : Z
}.

Definition set_currentMode (v : PortalMode) (s : State) : State :=
  mkState v (isShooting s) (lastButtonPress s) (totalPortalsFired s)
    (audioEnabled s) (lastBlinkTime s) (onboardLEDState s) (lastOLEDUpdate s)
    (animationFrame s) (lastAnimationTime s) (lastBlueState s)
    (lastRedState s) (lastShootState s) (clock s) (pwm s) (TCCR0B s).

Definition set_isShooting (v : bool) (s : State) : State :=
  mkState (currentMode s) v (lastButtonPress s) (totalPortalsFired s)
    (audioEnabled s) (lastBlinkTime s) (onboardLEDState s) (lastOLEDUpdate s)
    (animationFrame s) (lastAnimationTime s) (lastBlueState s)
    (lastRedState s) (lastShootState s) (clock s) (pwm s) (TCCR0B s).

Definition set_lastButtonPress (v : Z) (s : State) : State :=
  mkState (currentMode s) (isShooting s) v (totalPortalsFired s)
    (audioEnabled s) (lastBlinkTime s) (onboardLEDState s) (lastOLEDUpdate s)
    (animationFrame s) (lastAnimationTime s) (lastBlueState s)
    (lastRedState s) (lastShootState s) (clock s) (pwm s) (TCCR0B s).

Definition set_totalPortalsFired (v : Z) (s : State) : State :=
  mkState (currentMode s) (isShooting s) (lastButtonPress s) v
    (audioEnabled s) (lastBlinkTime s) (onboardLEDState s) (lastOLEDUpdate s)
    (animationFrame s) (lastAnimationTime s) (lastBlueState s)
    (lastRedState s) (lastShootState s) (clock s) (pwm s) (TCCR0B s).

Definition set_audioEnabled (v : bool) (s : State) : State :=
  mkState (currentMode s) (isShooting s) (lastButtonPress s)
    (totalPortalsFired s) v (lastBlinkTime s) (onboardLEDState s)
    (lastOLEDUpdate s) (animationFrame s) (lastAnimationTime s)
    (lastBlueState s) (lastRedState s) (lastShootState s) (clock s) (pwm s)
    (TCCR0B s).

Definition set_lastBlinkTime (v : Z) (s : State) : State :=
  mkState (currentMode s) (isShooting s) (lastButtonPress s)
    (totalPortalsFired s) (audioEnabled s) v (onboardLEDState s)
    (lastOLEDUpdate s) (animationFrame s) (lastAnimationTime s)
    (lastBlueState s) (lastRedState s) (lastShootState s) (clock s) (pwm s)
    (TCCR0B s).

Definition set_onboardLEDState (v : bool) (s : State) : State :=
  mkState (currentMode s) (isShooting s) (lastButtonPress s)
    (totalPortalsFired s) (audioEnabled s) (lastBlinkTime s) v
    (lastOLEDUpdate s) (animationFrame s) (lastAnimationTime s)
    (lastBlueState s) (lastRedState s) (lastShootState s) (clock s) (pwm s)
    (TCCR0B s).

Definition set_lastOLEDUpdate (v : Z) (s : State) : State :=
  mkState (currentMode s) (isShooting s) (lastButtonPress s)
    (totalPortalsFired s) (audioEnabled s) (lastBlinkTime s)
    (onboardLEDState s) v (animationFrame s) (lastAnimationTime s)
    (lastBlueState s) (lastRedState s) (lastShootState s) (clock s) (pwm s)
    (TCCR0B s).

Definition set_lastBlueState (v : bool) (s : State) : State :=
  mkState (currentMode s) (isShooting s) (lastButtonPress s)
    (totalPortalsFired s) (audioEnabled s) (lastBlinkTime s)
    (onboardLEDState s) (lastOLEDUpdate s) (animationFrame s)
    (lastAnimationTime s) v (lastRedState s) (lastShootState s) (clock s)
    (pwm s) (TCCR0B s).

Definition set_lastShootState (v : bool) (s : State) : State :=
  mkState (currentMode s) (isShooting s) (lastButtonPress s)
    (totalPortalsFired s) (audioEnabled s) (lastBlinkTime s)
    (onboardLEDState s) (lastOLEDUpdate s) (animationFrame s)
    (lastAnimationTime s) (lastBlueState s) (lastRedState s) v (clock s)
    (pwm s) (TCCR0B s).

Definition set_clock (v : Z) (s : State) : State :=
  mkState (currentMode s) (isShooting s) (lastButtonPress s)
    (totalPortalsFired s) (audioEnabled s) (lastBlinkTime s)
    (onboardLEDState s) (lastOLEDUpdate s) (animationFrame s)
    (lastAnimationTime s) (lastBlueState s) (lastRedState s)
    (lastShootState s) v (pwm s) (TCCR0B s).

Definition set_pwm (v : Z -> Z) (s : State) : State :=
  mkState (currentMode s) (isShooting s) (lastButtonPress s)
    (totalPortalsFired s) (audioEnabled s) (lastBlinkTime s)
    (onboardLEDState s) (lastOLEDUpdate s) (animationFrame s)
    (lastAnimationTime s) (lastBlueState s) (lastRedState s)
    (lastShootState s) (clock s) v (TCCR0B s).

Definition set_TCCR0B (v : Z) (s : State) : State :=
  mkState (currentMode s) (isShooting s) (lastButtonPress s)
    (totalPortalsFired s) (audioEnabled s) (lastBlinkTime s)
    (onboardLEDState s) (lastOLEDUpdate s) (animationFrame s)
    (lastAnimationTime s) (lastBlueState s) (lastRedState s)
    (lastShootState s) (clock s) (pwm s) v.

(** Calls made to the Arduino core and to the two drivers. *)
Inductive Event : Type :=
| SerialBegin (baud : Z)
| SerialPrint (text : string)
| SerialPrintln (text : string)
| SerialPrintlnInt (n : Z)
| DisplayBegin (ok : bool)
| AudioSerialBegin (baud : Z)
| AudioBegin (ok : bool)
| AudioVolume (v : Z)
| AudioPlay (track : Z)
| PinMode (pin : Z) (dir : PinDir)
| DigitalRead (pin : Z) (level : bool)
| DigitalWrite (pin : Z) (level : bool)
| AnalogWrite (pin : Z) (duty : Z)
| Delay (ms : Z)
| DClear
| DSetTextColor
| DSetTextSize (n : Z)
| DSetCursor (x y : Z)
| DPrint (text : string)
| DPrintInt (n : Z)
| DPrintln (text : string)
| DDrawRect (x y w h : Z)
| DFillRect (x y w h : Z)
| DFlush.

(** The computation monad, as for version 3.1. *)
Inductive Res (A : Type) : Type :=
| Done (a : A) (s : State) (tr : list Event)
| Hang (s : State) (tr : list Event)
| OutOfFuel.
Arguments Done {A} a s tr.
Arguments Hang {A} s tr.
Arguments OutOfFuel {A}.

Definition M (A : Type) : Type := State -> Res A.

Definition ret {A} (a : A) : M A := fun s => Done a s [].

Definition preceded {A} (t : list Event) (r : Res A) : Res A :=
  match r with
  | Done a s t' => Done a s (t ++ t')
  | Hang s t' => Hang s (t ++ t')
  | OutOfFuel => OutOfFuel
  end.

Definition bind {A B} (m : M A) (k : A -> M B) : M B :=
  fun s =>
    match m s with
    | Done a s1 t1 => preceded t1 (k a s1)
    | Hang s1 t1 => Hang s1 t1
    | OutOfFuel => OutOfFuel
    end.

Declare Scope v30_scope.
Delimit Scope v30_scope with v30.
Notation "x <- m ;; k" := (bind m (fun x => k))
  (at level 61, m at next level, right associativity) : v30_scope.
Notation "m ;; k" := (bind m (fun _ => k))
  (at level 61, right associativity) : v30_scope.
Local Open Scope v30_scope.

Definition gets {A} (f : State -> A) : M A := fun s => Done (f s) s [].
Definition modify (f : State -> State) : M unit := fun s => Done tt (f s) [].
Definition emit (e : Event) : M unit := fun s => Done tt s [e].

Definition when (c : bool) (body : M unit) : M unit :=
  if c then body else ret tt.

Definition forever {A} : M A := fun s => Hang s [].

Fixpoint for_loop (fuel : nat) (i : Z) (cond : Z -> bool) (next : Z -> Z)
    (body : Z -> M unit) : M unit :=
  match fuel with
  | O => fun _ => OutOfFuel
  | S fuel' =>
      if cond i
      then body i ;; for_loop fuel' (next i) cond next body
      else ret tt
  end.

Definition state_of {A} (r : Res A) (dflt : State) : State :=
  match r with
  | Done _ s _ | Hang s _ => s
  | OutOfFuel => dflt
  end.

Definition trace_of {A} (r : Res A) : list Event :=
  match r with
  | Done _ _ tr | Hang _ tr => tr
  | OutOfFuel => []
  end.

Definition returns {A} (r : Res A) : bool :=
  match r with Done _ _ _ => true | _ => false end.

Definition run_state {A} (m : M A) (s : State) : State := state_of (m s) s.
Definition run_trace {A} (m : M A) (s : State) : list Event := trace_of (m s).

(** Arduino core *)

Definition millis : M Z := gets (fun s => wrap_ulong (clock s)).

Definition delay (ms : Z) : M unit :=
  fun s => Done tt (set_clock (clock s + ms) s) [Delay ms].

(** As for version 3.1, [pin] is a pin number in 0..255. *)
Definition analogWrite (pin v : Z) : M unit :=
  fun s => Done tt (set_pwm (write_duty (pwm s) pin v) s) [AnalogWrite pin v].

Definition digitalWrite (pin : Z) (level : bool) : M unit :=
  emit (DigitalWrite pin level).

Definition digitalRead (p : Poll) (pin : Z) : M bool :=
  fun s => Done (line_level p pin) s [DigitalRead pin (line_level p pin)].

Definition pinMode (pin : Z) (dir : PinDir) : M unit := emit (PinMode pin dir).

Definition display_begin (b : Boot) : M bool :=
  fun s => Done (display_ok b) s [DisplayBegin (display_ok b)].

Definition audio_begin (b : Boot) : M bool :=
  fun s => Done (audio_ok b) s [AudioBegin (audio_ok b)].

(** Audio functions *)

Definition playSound (trackNumber : Z) : M unit :=
  enabled <- gets audioEnabled ;;
  when (enabled && (1 <=? trackNumber) && (trackNumber <=? 5))
    (emit (SerialPrint "Playing sound track: ") ;;
     emit (SerialPrintlnInt trackNumber) ;;
     emit (AudioPlay trackNumber)).

Definition setVolume (volume : Z) : M unit :=
  enabled <- gets audioEnabled ;;
  when (enabled && (0 <=? volume) && (volume <=? 30))
    (emit (AudioVolume volume) ;;
     emit (SerialPrint "Volume set to: ") ;;
     emit (SerialPrintlnInt volume)).

(** OLED display functions *)

Definition displayStartupSequence : M unit :=
  emit DClear ;;
  emit (DSetTextSize 1) ;;
  emit DSetTextColor ;;
  emit (DSetCursor 10 0) ;;
  emit (DPrintln "PORTAL GUN v3.0") ;;
  emit (DSetCursor 25 16) ;;
  enabled <- gets audioEnabled ;;
  (if enabled then emit (DPrintln "AUDIO: READY")
   else emit (DPrintln "AUDIO: OFFLINE")) ;;
  emit DFlush ;;
  delay 2000 ;;
  emit DClear ;;
  emit (DSetCursor 20 8) ;;
  emit (DPrintln "INITIALIZING...") ;;
  emit DFlush ;;
  delay 800 ;;
  emit DClear ;;
  emit (DSetCursor 15 0) ;;
  emit (DPrintln "SYSTEMS ONLINE") ;;
  emit (DSetCursor 25 16) ;;
  emit (DPrintln "READY TO FIRE") ;;
  emit DFlush ;;
  delay 1500.

Definition updateOLEDDisplay : M unit :=
  shooting <- gets isShooting ;;
  if shooting then ret tt
  else
    emit DClear ;;
    emit (DSetTextSize 1) ;;
    emit DSetTextColor ;;
    emit (DSetCursor 0 0) ;;
    emit (DPrint "PORTAL GUN") ;;
    emit (DSetCursor 85 0) ;;
    mode <- gets currentMode ;;
    (if mode_eqb mode BLUE_MODE then emit (DPrint "BLUE")
     else emit (DPrint "RED")) ;;
    emit (DSetCursor 0 10) ;;
    emit (DPrint "Status: READY") ;;
    enabled <- gets audioEnabled ;;
    when enabled
      (emit (DSetCursor 85 10) ;;
       emit (DPrint "[♪]")) ;;
    emit (DSetCursor 0 20) ;;
    emit (DPrint "Fired: ") ;;
    fired <- gets totalPortalsFired ;;
    emit (DPrintInt fired) ;;
    emit (DSetCursor 70 20) ;;
    emit (DPrint "PWR:") ;;
    let powerBars := 4 in
    for_loop loop_fuel 0 (fun i => i <? powerBars) (fun i => int_add i 1)
      (fun i =>
         emit (DSetCursor (int_add 100 (int_mul i 3)) 20) ;;
         emit (DPrint "|")) ;;
    emit (DSetTextSize 2) ;;
    emit (DSetCursor 110 0) ;;
    mode' <- gets currentMode ;;
    (if mode_eqb mode' BLUE_MODE then emit (DPrint "O")
     else emit (DPrint "@")) ;;
    emit DFlush.

Definition displayModeSwitch (newMode : string) : M unit :=
  emit DClear ;;
  emit (DSetTextSize 1) ;;
  emit DSetTextColor ;;
  emit (DSetCursor 15 0) ;;
  emit (DPrintln "MODE SWITCHING") ;;
  emit (DSetCursor 0 16) ;;
  emit (DPrint ">> ") ;;
  emit (DPrint newMode) ;;
  emit (DPrint " <<") ;;
  emit DFlush ;;
  delay 1000.

Definition displayFiringAnimation : M unit :=
  mode <- gets currentMode ;;
  let currentPortal := if mode_eqb mode BLUE_MODE then "BLUE" else "RED" in
  emit DClear ;;
  emit (DSetTextSize 1) ;;
  emit DSetTextColor ;;
  emit (DSetCursor 25 0) ;;
  emit (DPrint "FIRING ") ;;
  emit (DPrint currentPortal) ;;
  emit (DDrawRect 4 16 120 8) ;;
  emit (DFillRect 6 18 116 4) ;;
  emit DFlush.

Definition displayAutoSwitch (newMode : string) : M unit :=
  emit DClear ;;
  emit (DSetTextSize 1) ;;
  emit DSetTextColor ;;
  emit (DSetCursor 20 0) ;;
  emit (DPrintln "AUTO-SWITCH!") ;;
  emit (DSetCursor 15 16) ;;
  emit (DPrint "Next: ") ;;
  emit (DPrint newMode) ;;
  emit (DPrint " PORTAL") ;;
  emit DFlush ;;
  delay 1500.

(** LED control *)

Definition fadeTransition (fromPin toPin : Z) : M unit :=
  for_loop loop_fuel 0 (fun step => step <=? DIM_BRIGHTNESS)
    (fun step => int_add step 2)
    (fun step =>
       analogWrite fromPin (int_sub DIM_BRIGHTNESS step) ;;
       analogWrite toPin step ;;
       delay 20) ;;
  analogWrite fromPin 0 ;;
  analogWrite toPin DIM_BRIGHTNESS.

Definition setIdleMode : M unit :=
  mode <- gets currentMode ;;
  if mode_eqb mode BLUE_MODE then
    analogWrite BLUE_LED_PIN DIM_BRIGHTNESS ;;
    analogWrite RED_LED_PIN 0 ;;
    digitalWrite ONBOARD_LED_PIN HIGH
  else
    analogWrite RED_LED_PIN DIM_BRIGHTNESS ;;
    analogWrite BLUE_LED_PIN 0.

Definition updateOnboardLED : M unit :=
  mode <- gets currentMode ;;
  if mode_eqb mode BLUE_MODE then
    digitalWrite ONBOARD_LED_PIN HIGH
  else
    now <- millis ;;
    lastBlink <- gets lastBlinkTime ;;
    when (BLINK_INTERVAL <=? ulong_sub now lastBlink)
      (modify (fun s => set_onboardLEDState (negb (onboardLEDState s)) s) ;;
       led <- gets onboardLEDState ;;
       digitalWrite ONBOARD_LED_PIN led ;;
       now' <- millis ;;
       modify (set_lastBlinkTime now')).

(** Mode switching and shooting *)

Definition switchToBlueMode : M unit :=
  mode <- gets currentMode ;;
  when (negb (mode_eqb mode BLUE_MODE))
    (emit (SerialPrintln "Switching to BLUE mode") ;;
     modify (set_currentMode BLUE_MODE) ;;
     playSound SOUND_MODE_SWITCH ;;
     digitalWrite ONBOARD_LED_PIN HIGH ;;
     displayModeSwitch "BLUE PORTAL" ;;
     fadeTransition RED_LED_PIN BLUE_LED_PIN ;;
     updateOLEDDisplay).

Definition switchToRedMode : M unit :=
  mode <- gets currentMode ;;
  when (negb (mode_eqb mode RED_MODE))
    (emit (SerialPrintln "Switching to RED mode") ;;
     modify (set_currentMode RED_MODE) ;;
     playSound SOUND_MODE_SWITCH ;;
     now <- millis ;;
     modify (set_lastBlinkTime now) ;;
     modify (set_onboardLEDState true) ;;
     digitalWrite ONBOARD_LED_PIN HIGH ;;
     displayModeSwitch "RED PORTAL" ;;
     fadeTransition BLUE_LED_PIN RED_LED_PIN ;;
     updateOLEDDisplay).

Definition shootPortal : M unit :=
  shooting <- gets isShooting ;;
  if shooting then ret tt
  else
    modify (set_isShooting true) ;;
    modify (fun s => set_totalPortalsFired (int_add (totalPortalsFired s) 1) s) ;;
    emit (SerialPrint "Shooting ") ;;
    mode <- gets currentMode ;;
    emit (SerialPrint (if mode_eqb mode BLUE_MODE then "BLUE" else "RED")) ;;
    emit (SerialPrintln " portal!") ;;
    mode1 <- gets currentMode ;;
    let activePin := if mode_eqb mode1 BLUE_MODE then BLUE_LED_PIN
                     else RED_LED_PIN in
    mode2 <- gets currentMode ;;
    (if mode_eqb mode2 BLUE_MODE then playSound SOUND_BLUE_PORTAL
     else playSound SOUND_RED_PORTAL) ;;
    for_loop loop_fuel 0 (fun pulse => pulse <? 8)
      (fun pulse => int_add pulse 1)
      (fun _ =>
         for_loop loop_fuel DIM_BRIGHTNESS
           (fun brightness => brightness <=? MAX_BRIGHTNESS)
           (fun brightness => int_add brightness 20)
           (fun brightness => analogWrite activePin brightness ;; delay 15) ;;
         for_loop loop_fuel MAX_BRIGHTNESS
           (fun brightness => DIM_BRIGHTNESS <=? brightness)
           (fun brightness => int_sub brightness 20)
           (fun brightness => analogWrite activePin brightness ;; delay 15)) ;;
    analogWrite activePin MAX_BRIGHTNESS ;;
    delay 100 ;;
    mode3 <- gets currentMode ;;
    (if mode_eqb mode3 BLUE_MODE then
       modify (set_currentMode RED_MODE) ;;
       emit (SerialPrintln "Auto-switched to RED mode") ;;
       now <- millis ;;
       modify (set_lastBlinkTime now) ;;
       modify (set_onboardLEDState true) ;;
       digitalWrite ONBOARD_LED_PIN HIGH ;;
       displayAutoSwitch "RED" ;;
       fadeTransition BLUE_LED_PIN RED_LED_PIN
     else
       modify (set_currentMode BLUE_MODE) ;;
       emit (SerialPrintln "Auto-switched to BLUE mode") ;;
       digitalWrite ONBOARD_LED_PIN HIGH ;;
       displayAutoSwitch "BLUE" ;;
       fadeTransition RED_LED_PIN BLUE_LED_PIN) ;;
    modify (set_isShooting false) ;;
    updateOLEDDisplay.

(** Power management and the optional light show *)

Definition enterSleepMode : M unit :=
  emit (SerialPrintln "Entering sleep mode...") ;;
  playSound SOUND_POWER_DOWN ;;
  delay 2000 ;;
  analogWrite BLUE_LED_PIN 0 ;;
  analogWrite RED_LED_PIN 0 ;;
  digitalWrite ONBOARD_LED_PIN LOW ;;
  emit DClear ;;
  emit (DSetTextSize 1) ;;
  emit DSetTextColor ;;
  emit (DSetCursor 25 8) ;;
  emit (DPrintln "SLEEP MODE") ;;
  emit (DSetCursor 15 20) ;;
  emit (DPrintln "Press any key...") ;;
  emit DFlush ;;
  delay 1000 ;;
  emit (SerialPrintln "Waking up...") ;;
  playSound SOUND_POWER_UP ;;
  delay 1000 ;;
  setIdleMode ;;
  updateOLEDDisplay.

Definition startupSequence : M unit :=
  emit (SerialPrintln "Portal Gun startup sequence...") ;;
  for_loop loop_fuel 0 (fun i => i <? 3) (fun i => int_add i 1)
    (fun _ =>
       analogWrite BLUE_LED_PIN MAX_BRIGHTNESS ;;
       delay 200 ;;
       analogWrite BLUE_LED_PIN 0 ;;
       analogWrite RED_LED_PIN MAX_BRIGHTNESS ;;
       delay 200 ;;
       analogWrite RED_LED_PIN 0) ;;
  setIdleMode.

(** [setup] and [loop] *)

Definition setup (b : Boot) : M unit :=
  emit (SerialBegin 9600) ;;
  emit (SerialPrintln "Portal Gun Complete Edition Starting...") ;;
  displayUp <- display_begin b ;;
  when (negb displayUp)
    (emit (SerialPrintln "OLED allocation failed!") ;;
     forever) ;;
  emit (SerialPrintln "OLED initialized successfully") ;;
  emit (AudioSerialBegin 9600) ;;
  emit (SerialPrintln "Initializing DFPlayer Mini...") ;;
  audioUp <- audio_begin b ;;
  (if negb audioUp then
     emit (SerialPrintln
             "DFPlayer Mini not detected! Check wiring and SD card.") ;;
     modify (set_audioEnabled false)
   else
     emit (SerialPrintln "DFPlayer Mini initialized successfully") ;;
     emit (AudioVolume 25) ;;
     delay 1000 ;;
     playSound SOUND_POWER_UP ;;
     modify (set_audioEnabled true)) ;;
  displayStartupSequence ;;
  pinMode BLUE_BUTTON_PIN INPUT_PULLUP ;;
  pinMode RED_BUTTON_PIN INPUT_PULLUP ;;
  pinMode SHOOT_BUTTON_PIN INPUT_PULLUP ;;
  pinMode BLUE_LED_PIN OUTPUT ;;
  pinMode RED_LED_PIN OUTPUT ;;
  pinMode ONBOARD_LED_PIN OUTPUT ;;
  (* TCCR0B = TCCR0B & B11111000 | B00000010 *)
  modify (fun s => set_TCCR0B (Z.lor (Z.land (TCCR0B s) 248) 2) s) ;;
  emit (SerialPrintln "PWM optimized for LED noodles on pins 5 & 6") ;;
  setIdleMode ;;
  updateOLEDDisplay ;;
  emit (SerialPrintln "Portal Gun Ready!") ;;
  emit (SerialPrintln "Current Mode: BLUE") ;;
  enabled <- gets audioEnabled ;;
  when enabled
    (delay 2000 ;;
     emit DClear ;;
     emit (DSetCursor 35 8) ;;
     emit (DPrint "O") ;;
     emit (DSetCursor 55 8) ;;
     emit (DPrint "[]") ;;
     emit (DSetCursor 75 8) ;;
     emit (DPrint "@") ;;
     emit DFlush ;;
     delay 1200).

Definition loop (p : Poll) : M unit :=
  blueLevel <- digitalRead p BLUE_BUTTON_PIN ;;
  let togglePressed := Bool.eqb blueLevel LOW in
  shootLevel <- digitalRead p SHOOT_BUTTON_PIN ;;
  let shootPressed := Bool.eqb shootLevel LOW in
  now <- millis ;;
  lastPress <- gets lastButtonPress ;;
  when (50 <? ulong_sub now lastPress)
    (lastBlue <- gets lastBlueState ;;
     when (togglePressed && Bool.eqb lastBlue HIGH)
       (mode <- gets currentMode ;;
        (if mode_eqb mode BLUE_MODE then switchToRedMode
         else switchToBlueMode) ;;
        t <- millis ;;
        modify (set_lastButtonPress t)) ;;
     lastShoot <- gets lastShootState ;;
     shooting <- gets isShooting ;;
     when (shootPressed && Bool.eqb lastShoot HIGH && negb shooting)
       (shootPortal ;;
        t <- millis ;;
        modify (set_lastButtonPress t))) ;;
  modify (set_lastBlueState (if togglePressed then LOW else HIGH)) ;;
  modify (set_lastShootState (if shootPressed then LOW else HIGH)) ;;
  updateOnboardLED ;;
  now' <- millis ;;
  lastUpdate <- gets lastOLEDUpdate ;;
  when (OLED_UPDATE_INTERVAL <=? ulong_sub now' lastUpdate)
    (updateOLEDDisplay ;;
     t <- millis ;;
     modify (set_lastOLEDUpdate t)) ;;
  delay 10.

(** One pass of the main loop, and a run of passes, as for version 3.1. *)
Definition pass (p : Poll) : M unit :=
  modify (fun s => set_clock (clock s + slack p) s) ;;
  loop p.

Fixpoint passes (ps : list Poll) : M unit :=
  match ps with
  | [] => ret tt
  | p :: ps' => pass p ;; passes ps'
  end.

Definition sketch (b : Boot) (ps : list Poll) : M unit :=
  setup b ;; passes ps.

(** The state at reset: the initializers of the globals. *)
Definition power_on (pwm0 : Z -> Z) (tccr0b : Z) : State :=
  mkState BLUE_MODE false 0 0 true 0 false 0 0 0 HIGH HIGH HIGH
    0 pwm0 tccr0b.

Definition board0 : State := power_on (fun _ => 0) 3.

End V30.

(* --------------------------------------------------------------------- *)
(** *** The two versions side by side *)

(** The calls that reach the pins, the clock and the audio module; the
    serial and display calls are left out. *)
Definition is_off_screen (e : Event) : bool :=
  match e with
  | PinMode _ _ | DigitalRead _ _ | DigitalWrite _ _ | AnalogWrite _ _
  | Delay _ | AudioVolume _ | AudioPlay _ => true
  | _ => false
  end.

Definition off_screen (tr : list Event) : list Event :=
  filter is_off_screen tr.

(** The same for a call of version 3.0, as a call of version 3.1. *)
Definition v30_call (e : V30.Event) : list Event :=
  match e with
  | V30.PinMode pin dir => [PinMode pin dir]
  | V30.DigitalRead pin level => [DigitalRead pin level]
  | V30.DigitalWrite pin level => [DigitalWrite pin level]
  | V30.AnalogWrite pin duty => [AnalogWrite pin duty]
  | V30.Delay ms => [Delay ms]
  | V30.AudioVolume v => [AudioVolume v]
  | V30.AudioPlay track => [AudioPlay track]
  | _ => []
  end.

Definition v30_off_screen (tr : list V30.Event) : list Event :=
  flat_map v30_call tr.

(** A state of version 3.0 as a state of version 3.1: the globals the
    two versions share keep their values, [lastBlueState] is the toggle
    button's variable, and the hardware is the same; [font] is the font
    of the display, which only version 3.1 asks about. *)
Definition as_v31 (font : string -> Z -> Z) (s : V30.State) : State :=
  mkState (V30.currentMode s) (V30.isShooting s) (V30.audioEnabled s)
    (V30.totalPortalsFired s) (V30.lastButtonPress s) (V30.lastBlinkTime s)
    (V30.lastOLEDUpdate s) (V30.lastBlueState s) (V30.lastShootState s)
    (V30.onboardLEDState s) (V30.clock s) (V30.pwm s) (V30.TCCR0B s) font.

(** Two results, one of each version, that end alike: both return the
    same value or both hang, in corresponding states, after the same
    off-screen calls. *)
Definition same_outcome {A} (font : string -> Z -> Z)
    (r30 : V30.Res A) (r : Res A) : Prop :=
  match r30, r with
  | V30.Done a s30 t30, Done a' s t =>
      a' = a /\ s = as_v31 font s30 /\ off_screen t = v30_off_screen t30
  | V30.Hang s30 t30, Hang s t =>
      s = as_v31 font s30 /\ off_screen t = v30_off_screen t30
  | V30.OutOfFuel, OutOfFuel => True
  | _, _ => False
  end.

(** [m], of version 3.1, does off screen what [m30], of version 3.0,
    does. *)
Definition agrees {A} (m30 : V30.M A) (m : M A) : Prop :=
  forall font s, same_outcome font (m30 s) (m (as_v31 font s)).

(** [m], of version 3.0, moves the clock only by the delays it makes and
    the duty registers only by the writes it makes. *)
Definition v30_metered {A} (m : V30.M A) : Prop :=
  forall s,
    match m s with
    | V30.Done _ s' t | V30.Hang s' t =>
        V30.clock s' = V30.clock s + total_delay (v30_off_screen t) /\
        V30.pwm s' = duty_after (v30_off_screen t) (V30.pwm s)
    | V30.OutOfFuel => True
    end.

(** The calls that set the LEDs idle for a mode. *)
Definition idle_calls (mode : PortalMode) : list Event :=
  match mode with
  | BLUE_MODE => [AnalogWrite 5 30; AnalogWrite 6 0; DigitalWrite 13 HIGH]
  | RED_MODE => [AnalogWrite 6 30; AnalogWrite 5 0]
  end.

(** The calls of the sleep function that reach the pins, the clock and
    the audio module. *)
Definition sleep_calls (mode : PortalMode) (enabled : bool) : list Event :=
  (if enabled then [AudioPlay 5] else [])
  ++ [ Delay 2000;
       AnalogWrite 5 0; AnalogWrite 6 0; DigitalWrite 13 LOW;
       Delay 1000 ]
  ++ (if enabled then [AudioPlay 1] else [])
  ++ [ Delay 1000 ]
  ++ idle_calls mode.

(** One round of the light show: a flash of the blue channel, then one
    of the red channel. *)
Definition flash_round : list Event :=
  [ AnalogWrite 5 255; Delay 200; AnalogWrite 5 0;
    AnalogWrite 6 255; Delay 200; AnalogWrite 6 0 ].

Definition says (text : string) (e : V30.Event) : bool :=
  match e with V30.DPrintln t => String.eqb t text | _ => false end.
(* ===================================================================== *)
(** ** Basic facts *)
(* ===================================================================== *)

Lemma unit_done (r : Res unit) (dflt : State) :
  returns r = true -> r = Done tt (state_of r dflt) (trace_of r).
Proof.
  destruct r as [[] s tr | s tr | ]; simpl; intros H;
    [reflexivity | discriminate | discriminate].
Qed.

Lemma preceded_nil {A} (r : Res A) : preceded [] r = r.
Proof. destruct r; reflexivity. Qed.

Lemma preceded_preceded {A} (t1 t2 : list Event) (r : Res A) :
  preceded t1 (preceded t2 r) = preceded (t1 ++ t2) r.
Proof. destruct r; simpl; rewrite ?app_assoc; reflexivity. Qed.

Lemma preceded_Done {A} (t t' : list Event) (a : A) (s : State) :
  preceded t (Done a s t') = Done a s (t ++ t').
Proof. reflexivity. Qed.

Lemma bind_Done {A B} (m : M A) (k : A -> M B) (s s1 : State) (a : A)
    (t1 : list Event) :
  m s = Done a s1 t1 -> bind m k s = preceded t1 (k a s1).
Proof. intros H. unfold bind. rewrite H. reflexivity. Qed.

Lemma bind_ret {A B} (a : A) (k : A -> M B) (s : State) :
  bind (ret a) k s = k a s.
Proof. unfold bind, ret. apply preceded_nil. Qed.

Lemma bind_gets {A B} (f : State -> A) (k : A -> M B) (s : State) :
  bind (gets f) k s = k (f s) s.
Proof. unfold bind, gets. apply preceded_nil. Qed.

Lemma bind_millis {B} (k : Z -> M B) (s : State) :
  bind millis k s = k (wrap_ulong (clock s)) s.
Proof. unfold millis. rewrite bind_gets. reflexivity. Qed.

Lemma bind_modify {B} (f : State -> State) (k : unit -> M B) (s : State) :
  bind (modify f) k s = k tt (f s).
Proof. unfold bind, modify. apply preceded_nil. Qed.

Lemma bind_emit {B} (e : Event) (k : unit -> M B) (s : State) :
  bind (emit e) k s = preceded [e] (k tt s).
Proof. reflexivity. Qed.

Lemma bind_delay {B} (ms : Z) (k : unit -> M B) (s : State) :
  bind (delay ms) k s = preceded [Delay ms] (k tt (set_clock (clock s + ms) s)).
Proof. reflexivity. Qed.

Lemma bind_digitalRead {B} (p : Poll) (pin : Z) (k : bool -> M B) (s : State) :
  bind (digitalRead p pin) k s
  = preceded [DigitalRead pin (line_level p pin)] (k (line_level p pin) s).
Proof. reflexivity. Qed.

Lemma bind_bind {A B C} (m : M A) (k : A -> M B) (h : B -> M C) (s : State) :
  bind (bind m k) h s = bind m (fun a => bind (k a) h) s.
Proof.
  unfold bind. destruct (m s) as [a s1 t1 | s1 t1 | ]; try reflexivity.
  destruct (k a s1) as [b s2 t2 | s2 t2 | ]; try reflexivity.
  simpl. destruct (h b s2); simpl; rewrite ?app_assoc; reflexivity.
Qed.

Lemma run_done (m : M unit) (s : State) :
  returns (m s) = true -> m s = Done tt (run_state m s) (run_trace m s).
Proof. apply unit_done. Qed.

Lemma other_mode_involutive (m : PortalMode) : other_mode (other_mode m) = m.
Proof. destruct m; reflexivity. Qed.

Lemma other_mode_differs (m : PortalMode) : other_mode m <> m.
Proof. destruct m; discriminate. Qed.

Lemma line_level_toggle (p : Poll) :
  line_level p TOGGLE_BUTTON_PIN = toggle_line p.
Proof. reflexivity. Qed.

Lemma line_level_shoot (p : Poll) :
  line_level p SHOOT_BUTTON_PIN = shoot_line p.
Proof. reflexivity. Qed.

(** The control flow of the functions below depends on the mode and on
    the two flags only: once these are fixed the functions compute. *)
Ltac fix_flags s :=
  destruct s as [mode shooting enabled fired lastPress lastBlink lastUpdate
                 lastToggle lastShoot led ticks duty tccr font];
  destruct mode, shooting, enabled.

Ltac by_running s := fix_flags s; vm_compute; repeat split; reflexivity.

(* --------------------------------------------------------------------- *)
(** *** togglePortalMode *)

Lemma togglePortalMode_returns (s : State) :
  returns (togglePortalMode s) = true.
Proof. by_running s. Qed.

Lemma togglePortalMode_globals (s : State) :
  let s' := run_state togglePortalMode s in
  currentMode s' = other_mode (currentMode s) /\
  isShooting s' = isShooting s /\
  audioEnabled s' = audioEnabled s /\
  totalPortalsFired s' = totalPortalsFired s /\
  lastButtonPress s' = lastButtonPress s /\
  lastOLEDUpdate s' = lastOLEDUpdate s /\
  lastToggleState s' = lastToggleState s /\
  lastShootState s' = lastShootState s.
Proof. by_running s. Qed.

Lemma togglePortalMode_leds (s : State) :
  let s' := run_state togglePortalMode s in
  pwm s' (led_pin (other_mode (currentMode s))) = DIM_BRIGHTNESS /\
  pwm s' (led_pin (currentMode s)) = 0.
Proof. by_running s. Qed.

Lemma togglePortalMode_calls (s : State) :
  let tr := run_trace togglePortalMode s in
  toggles_in tr = 1%nat /\ shoots_in tr = 0%nat /\
  audio_plays tr =
    (if audioEnabled s then [track_index SOUND_MODE_SWITCH] else []) /\
  frames_in tr = (if isShooting s then 1%nat else 2%nat).
Proof. by_running s. Qed.

(* --------------------------------------------------------------------- *)
(** *** shootPortal *)

Lemma shootPortal_returns (s : State) : returns (shootPortal s) = true.
Proof. by_running s. Qed.

Lemma shootPortal_globals (s : State) :
  let s' := run_state shootPortal s in
  currentMode s' = other_mode (currentMode s) /\
  isShooting s' = false /\
  audioEnabled s' = audioEnabled s /\
  lastButtonPress s' = lastButtonPress s /\
  lastOLEDUpdate s' = lastOLEDUpdate s /\
  lastToggleState s' = lastToggleState s /\
  lastShootState s' = lastShootState s.
Proof. by_running s. Qed.

Lemma shootPortal_unfold :
  shootPortal =
    (modify (set_isShooting true) ;;
     modify (fun s => set_totalPortalsFired (int_add (totalPortalsFired s) 1) s) ;;
     shoot_sequence).
Proof. reflexivity. Qed.

Lemma shoot_sequence_returns (s : State) : returns (shoot_sequence s) = true.
Proof. by_running s. Qed.

Lemma shoot_sequence_counter (s : State) :
  totalPortalsFired (run_state shoot_sequence s) = totalPortalsFired s.
Proof. by_running s. Qed.

Lemma shootPortal_counter (s : State) :
  totalPortalsFired (run_state shootPortal s)
  = int_add (totalPortalsFired s) 1.
Proof.
  unfold run_state at 1. rewrite shootPortal_unfold, !bind_modify.
  rewrite (run_done shoot_sequence _ (shoot_sequence_returns _)).
  simpl state_of. rewrite shoot_sequence_counter. reflexivity.
Qed.

Lemma shootPortal_leds (s : State) :
  let s' := run_state shootPortal s in
  pwm s' (led_pin (other_mode (currentMode s))) = DIM_BRIGHTNESS /\
  pwm s' (led_pin (currentMode s)) = 0.
Proof. by_running s. Qed.

Lemma shootPortal_calls (s : State) :
  let tr := run_trace shootPortal s in
  toggles_in tr = 0%nat /\ shoots_in tr = 1%nat /\
  audio_plays tr =
    (if audioEnabled s then [track_index (fire_cue (currentMode s))] else []) /\
  frames_in tr = 2%nat.
Proof. by_running s. Qed.

Lemma togglePortalMode_done (s : State) :
  togglePortalMode s
  = Done tt (run_state togglePortalMode s) (run_trace togglePortalMode s).
Proof. apply run_done, togglePortalMode_returns. Qed.

Lemma shootPortal_done (s : State) :
  shootPortal s = Done tt (run_state shootPortal s) (run_trace shootPortal s).
Proof. apply run_done, shootPortal_returns. Qed.

(* --------------------------------------------------------------------- *)
(** *** updateMainDisplay *)

Lemma updateMainDisplay_returns (s : State) :
  returns (updateMainDisplay s) = true.
Proof. by_running s. Qed.

Lemma updateMainDisplay_state (s : State) :
  run_state updateMainDisplay s = s.
Proof. by_running s. Qed.

Lemma updateMainDisplay_calls (s : State) :
  let tr := run_trace updateMainDisplay s in
  toggles_in tr = 0%nat /\ shoots_in tr = 0%nat /\ audio_plays tr = [] /\
  duty_history tr (pwm s) = [] /\
  frames_in tr = (if isShooting s then 0%nat else 1%nat).
Proof. by_running s. Qed.

(* ===================================================================== *)
(** ** The timed functions, case by case *)
(* ===================================================================== *)

Lemma when_true (body : M unit) : when true body = body.
Proof. reflexivity. Qed.

Lemma when_false (body : M unit) : when false body = ret tt.
Proof. reflexivity. Qed.

Lemma updateMainDisplay_done (s : State) :
  updateMainDisplay s = Done tt s (run_trace updateMainDisplay s).
Proof.
  rewrite (run_done _ _ (updateMainDisplay_returns s)).
  rewrite updateMainDisplay_state. reflexivity.
Qed.

(** Symbolic execution of a sequence of statements. *)
Ltac exec :=
  repeat first
    [ rewrite bind_bind
    | rewrite bind_ret
    | rewrite bind_gets
    | rewrite bind_millis
    | rewrite bind_modify
    | rewrite bind_digitalRead
    | rewrite bind_emit
    | rewrite bind_delay
    | rewrite when_true
    | rewrite when_false
    | rewrite (bind_Done _ _ _ _ _ _ (togglePortalMode_done _))
    | rewrite (bind_Done _ _ _ _ _ _ (shootPortal_done _))
    | rewrite (bind_Done _ _ _ _ _ _ (updateMainDisplay_done _))
    | rewrite preceded_preceded
    | rewrite preceded_Done
    | rewrite preceded_nil ].

Ltac flags := cbn [Bool.eqb andb negb HIGH LOW].

Lemma handleButtons_run (p : Poll) (s : State) :
  handleButtons p s = Done tt (buttons_state p s) (buttons_trace p s).
Proof.
  unfold handleButtons, buttons_state, buttons_trace, after_shoot, shoot_fires,
    after_toggle, toggle_fires, reads, stamp, latch.
  exec. rewrite line_level_toggle, line_level_shoot.
  change (DEBOUNCE_DELAY <? ulong_sub (wrap_ulong (clock s)) (lastButtonPress s))
    with (gate_open s).
  destruct (gate_open s); exec.
  - destruct (toggle_line p), (lastToggleState s); flags; exec.
    all: destruct (shoot_line p); flags; exec.
    all: try match goal with
         | |- context [lastShootState ?x] => destruct (lastShootState x)
         end; flags; exec.
    all: try match goal with
         | |- context [isShooting ?x] => destruct (isShooting x)
         end; flags; exec.
    all: unfold modify; cbn [preceded app];
      rewrite <- ?app_assoc, ?app_nil_r; cbn [app]; reflexivity.
  - destruct (toggle_line p), (shoot_line p); reflexivity.
Qed.

Lemma updateOnboardLED_run (s : State) :
  updateOnboardLED s = Done tt (onboard_state s) (onboard_trace s).
Proof.
  unfold updateOnboardLED, onboard_state, onboard_trace, digitalWrite.
  exec. destruct (mode_eqb (currentMode s) BLUE_MODE); [reflexivity|].
  exec.
  change (BLINK_INTERVAL <=? ulong_sub (wrap_ulong (clock s)) (lastBlinkTime s))
    with (blink_due s).
  destruct (blink_due s); exec; reflexivity.
Qed.

Lemma updateDisplayPeriodically_run (s : State) :
  updateDisplayPeriodically s = Done tt (periodic_state s) (periodic_trace s).
Proof.
  unfold updateDisplayPeriodically, periodic_state, periodic_trace.
  exec.
  change (OLED_UPDATE_INTERVAL <=? ulong_sub (wrap_ulong (clock s)) (lastOLEDUpdate s))
    with (refresh_due s).
  destruct (refresh_due s); exec; unfold modify; cbn [preceded];
    rewrite ?app_nil_r; reflexivity.
Qed.

Lemma loop_run (p : Poll) (s : State) :
  loop p s = Done tt (loop_state p s) (loop_trace p s).
Proof.
  unfold loop, loop_state, loop_trace.
  rewrite (bind_Done _ _ _ _ _ _ (handleButtons_run p s)).
  rewrite (bind_Done _ _ _ _ _ _ (updateOnboardLED_run _)).
  rewrite (bind_Done _ _ _ _ _ _ (updateDisplayPeriodically_run _)).
  unfold delay. cbn [preceded]. rewrite !app_assoc. reflexivity.
Qed.

Lemma pass_run (p : Poll) (s : State) :
  pass p s = Done tt (pass_state p s) (pass_trace p s).
Proof. unfold pass. rewrite bind_modify. apply loop_run. Qed.

Lemma passes_run (ps : list Poll) (s : State) :
  passes ps s = Done tt (passes_state ps s) (passes_trace ps s).
Proof.
  revert s. induction ps as [|p ps IH]; intros s; [reflexivity|].
  cbn [passes passes_state passes_trace].
  rewrite (bind_Done _ _ _ _ _ _ (pass_run p s)), IH. reflexivity.
Qed.

(* ===================================================================== *)
(** ** What one poll does to the globals *)
(* ===================================================================== *)

Lemma after_toggle_globals (p : Poll) (s : State) :
  let s' := after_toggle p s in
  currentMode s'
    = (if toggle_fires p s then other_mode (currentMode s) else currentMode s) /\
  isShooting s' = isShooting s /\
  audioEnabled s' = audioEnabled s /\
  totalPortalsFired s' = totalPortalsFired s /\
  lastToggleState s' = lastToggleState s /\
  lastShootState s' = lastShootState s.
Proof.
  unfold after_toggle. destruct (toggle_fires p s); [|repeat split].
  destruct (togglePortalMode_globals s) as (Hm & Hs & Ha & Hf & _ & _ & Ht & Hl).
  unfold stamp. cbn. auto 10.
Qed.

Lemma after_shoot_globals (p : Poll) (s : State) :
  let s' := after_shoot p s in
  currentMode s'
    = (if shoot_fires p s then other_mode (currentMode (after_toggle p s))
       else currentMode (after_toggle p s)) /\
  isShooting s' = (if shoot_fires p s then false else isShooting s) /\
  audioEnabled s' = audioEnabled s /\
  totalPortalsFired s'
    = (if shoot_fires p s then int_add (totalPortalsFired s) 1
       else totalPortalsFired s).
Proof.
  destruct (after_toggle_globals p s) as (Hm & Hs & Ha & Hf & Ht & Hl).
  unfold after_shoot. destruct (shoot_fires p s); [|auto].
  destruct (shootPortal_globals (after_toggle p s)) as (Hm' & Hs' & Ha' & _).
  pose proof (shootPortal_counter (after_toggle p s)) as Hc.
  unfold stamp. cbn. rewrite Hm', Hs', Ha', Hc, Ha, Hf. auto.
Qed.

(** While the shooting flag is set the poller starts no shoot. *)
Lemma shoot_fires_while_shooting (p : Poll) (s : State) :
  isShooting s = true -> shoot_fires p s = false.
Proof.
  intros H. unfold shoot_fires.
  destruct (after_toggle_globals p s) as (_ & Hs & _). rewrite Hs, H.
  cbn. rewrite !andb_false_r. reflexivity.
Qed.

Lemma toggles_in_app (t1 t2 : list Event) :
  toggles_in (t1 ++ t2) = (toggles_in t1 + toggles_in t2)%nat.
Proof. unfold toggles_in. rewrite filter_app, length_app. reflexivity. Qed.

Lemma shoots_in_app (t1 t2 : list Event) :
  shoots_in (t1 ++ t2) = (shoots_in t1 + shoots_in t2)%nat.
Proof. unfold shoots_in. rewrite filter_app, length_app. reflexivity. Qed.

Lemma audio_plays_app (t1 t2 : list Event) :
  audio_plays (t1 ++ t2) = audio_plays t1 ++ audio_plays t2.
Proof.
  induction t1 as [|e t1 IH]; [reflexivity|].
  destruct e; cbn; rewrite ?IH; reflexivity.
Qed.

Lemma buttons_trace_actions (p : Poll) (s : State) :
  toggles_in (buttons_trace p s) = (if toggle_fires p s then 1 else 0)%nat /\
  shoots_in (buttons_trace p s) = (if shoot_fires p s then 1 else 0)%nat.
Proof.
  unfold buttons_trace. rewrite !toggles_in_app, !shoots_in_app.
  destruct (togglePortalMode_calls s) as (T1 & T2 & _).
  destruct (shootPortal_calls (after_toggle p s)) as (S1 & S2 & _).
  destruct (toggle_fires p s), (shoot_fires p s);
    rewrite ?T1, ?T2, ?S1, ?S2; split; reflexivity.
Qed.

Lemma buttons_state_globals (p : Poll) (s : State) :
  let s' := buttons_state p s in
  currentMode s' = currentMode (after_shoot p s) /\
  isShooting s' = isShooting (after_shoot p s) /\
  audioEnabled s' = audioEnabled (after_shoot p s) /\
  totalPortalsFired s' = totalPortalsFired (after_shoot p s) /\
  lastToggleState s' = toggle_line p /\
  lastShootState s' = shoot_line p /\
  clock s' = clock (after_shoot p s) /\
  lastButtonPress s' = lastButtonPress (after_shoot p s) /\
  pwm s' = pwm (after_shoot p s).
Proof. cbn. repeat split. Qed.

(** A poll that finds the gate closed only records the line levels. *)
Lemma gate_closed_poll (p : Poll) (s : State) :
  gate_open s = false -> handleButtons p s = Done tt (latch p s) (reads p).
Proof.
  intros G. rewrite handleButtons_run.
  unfold buttons_state, buttons_trace, after_shoot, shoot_fires, after_toggle,
    toggle_fires.
  rewrite G. cbn [andb]. rewrite !app_nil_r. reflexivity.
Qed.

(* --------------------------------------------------------------------- *)
(** *** Results preceded by earlier calls *)

Lemma returns_preceded {A} (t : list Event) (r : Res A) :
  returns (preceded t r) = returns r.
Proof. destruct r; reflexivity. Qed.

Lemma state_of_preceded {A} (t : list Event) (r : Res A) (d : State) :
  state_of (preceded t r) d = state_of r d.
Proof. destruct r; reflexivity. Qed.

Lemma trace_of_preceded {A} (t : list Event) (r : Res A) :
  returns r = true -> trace_of (preceded t r) = t ++ trace_of r.
Proof. destruct r; simpl; intros H; try discriminate; reflexivity. Qed.

Lemma state_of_default {A} (r : Res A) (d d' : State) :
  returns r = true -> state_of r d = state_of r d'.
Proof. destruct r; simpl; intros H; try discriminate; reflexivity. Qed.

(* ===================================================================== *)
(** ** Toggling *)
(* ===================================================================== *)

Lemma toggle_times_returns (n : nat) (s : State) :
  returns (toggle_times n s) = true.
Proof.
  revert s. induction n as [|n IH]; intros s; [reflexivity|].
  cbn [toggle_times].
  rewrite (bind_Done _ _ _ _ _ _ (togglePortalMode_done s)), returns_preceded.
  apply IH.
Qed.

Lemma toggle_times_mode (n : nat) (s : State) :
  currentMode (run_state (toggle_times n) s)
  = Nat.iter n other_mode (currentMode s).
Proof.
  revert s. induction n as [|n IH]; intros s; [reflexivity|].
  rewrite Nat.iter_succ_r. unfold run_state. cbn [toggle_times].
  rewrite (bind_Done _ _ _ _ _ _ (togglePortalMode_done s)), state_of_preceded.
  rewrite (state_of_default _ s (run_state togglePortalMode s))
    by apply toggle_times_returns.
  fold (run_state (toggle_times n) (run_state togglePortalMode s)).
  rewrite IH. f_equal. apply togglePortalMode_globals.
Qed.

Lemma iter_other_mode (n : nat) (m : PortalMode) :
  Nat.iter n other_mode m = if Nat.even n then m else other_mode m.
Proof.
  induction n as [|n IH]; [reflexivity|].
  change (Nat.iter (S n) other_mode m) with (other_mode (Nat.iter n other_mode m)).
  rewrite IH, Nat.even_succ, <- Nat.negb_even.
  destruct (Nat.even n); cbn [negb]; [reflexivity|apply other_mode_involutive].
Qed.

(** C4. Toggling alternates the mode strictly: one call of
    [togglePortalMode] from mode [m] leaves the opposite of [m], two calls
    in a row restore [m], after [n] calls in a row the mode is [m] when
    [n] is even and the opposite of [m] when [n] is odd, and so no two
    consecutive toggles leave the same mode. Every such sequence of calls
    returns. *)
Theorem C4_toggle_alternates :
  forall (n : nat) (s : State),
    returns (toggle_times n s) = true /\
    currentMode (run_state togglePortalMode s) = other_mode (currentMode s) /\
    other_mode (currentMode s) <> currentMode s /\
    currentMode (run_state (toggle_times 2) s) = currentMode s /\
    currentMode (run_state (toggle_times n) s)
      = (if Nat.even n then currentMode s else other_mode (currentMode s)) /\
    currentMode (run_state (toggle_times (S n)) s)
      <> currentMode (run_state (toggle_times n) s) /\
    currentMode (run_state (toggle_times (S (S n))) s)
      = currentMode (run_state (toggle_times n) s).
Proof.
  intros n s. rewrite !toggle_times_mode, !iter_other_mode.
  split; [apply toggle_times_returns|].
  split; [apply togglePortalMode_globals|].
  split; [apply other_mode_differs|].
  split; [reflexivity|].
  split; [reflexivity|].
  change (Nat.even (S (S n))) with (Nat.even n).
  rewrite Nat.even_succ, <- Nat.negb_even.
  destruct (Nat.even n), (currentMode s); cbn; split;
    first [discriminate | reflexivity].
Qed.

(** An accepted toggle press, with no shoot in the same poll, flips the
    mode and leaves the counter alone. *)
Lemma accepted_toggle_flips (p : Poll) (s : State) :
  toggle_fires p s = true -> shoot_fires p s = false ->
  currentMode (buttons_state p s) = other_mode (currentMode s) /\
  totalPortalsFired (buttons_state p s) = totalPortalsFired s.
Proof.
  intros T S.
  destruct (buttons_state_globals p s) as (-> & _ & _ & -> & _).
  destruct (after_shoot_globals p s) as (-> & _ & _ & ->).
  destruct (after_toggle_globals p s) as (-> & _).
  rewrite T, S. split; reflexivity.
Qed.

(* ===================================================================== *)
(** ** Start-up *)
(* ===================================================================== *)

(** What the sketch has done by the time it finds the display missing. *)
Lemma setup_without_display (audio : bool) (s : State) :
  setup (mkBoot false audio) s
  = Hang s [ SerialBegin 9600;
             SerialPrintln "Portal Gun v3.1 - Right On Edition";
             DisplayBegin false;
             SerialPrintln "OLED initialization failed!" ].
Proof. reflexivity. Qed.

(** C8. If the display does not initialize, the sketch never gets past
    [setup]: whatever the audio module answers and whatever the buttons
    do afterwards, the execution hangs in [setup] after the two serial
    messages, with the globals as they were at reset; it makes no further
    call (no pin is configured, read or written, nothing is drawn or
    played) and [loop] is never run. *)
Theorem C8_display_failure_halts :
  forall (audio : bool) (ps : list Poll) (s : State),
    sketch (mkBoot false audio) ps s
    = Hang s [ SerialBegin 9600;
               SerialPrintln "Portal Gun v3.1 - Right On Edition";
               DisplayBegin false;
               SerialPrintln "OLED initialization failed!" ]
    /\ returns (setup (mkBoot false audio) s) = false
    /\ returns (sketch (mkBoot false audio) ps s) = false.
Proof.
  intros audio ps s. unfold sketch, bind.
  rewrite setup_without_display. repeat split.
Qed.

(* ===================================================================== *)
(** ** The shooting flag and the poller *)
(* ===================================================================== *)

Lemma after_toggle_without_shoot (p : Poll) (s : State) :
  after_toggle (without_shoot p) s = after_toggle p s.
Proof. reflexivity. Qed.

Lemma shoot_fires_without_shoot (p : Poll) (s : State) :
  shoot_fires (without_shoot p) s = false.
Proof. unfold shoot_fires. cbn. apply andb_false_r. Qed.

(** C5. While the shooting flag is set, a press of the shoot button is a
    no-op: the poller returns without starting a shoot sequence, the
    fired counter and the flag are as before, and the mode is what the
    same poll would have left had the shoot button not been pressed; when
    the poll accepts no toggle either, nothing at all happens beyond
    reading the two lines and recording their levels. *)
Theorem C5_second_shoot_is_noop :
  forall (p : Poll) (s : State),
    isShooting s = true -> shoot_line p = LOW ->
    handleButtons p s = Done tt (buttons_state p s) (buttons_trace p s) /\
    shoot_fires p s = false /\
    shoots_in (buttons_trace p s) = 0%nat /\
    totalPortalsFired (buttons_state p s) = totalPortalsFired s /\
    isShooting (buttons_state p s) = true /\
    currentMode (buttons_state p s)
      = currentMode (buttons_state (without_shoot p) s) /\
    (toggle_fires p s = false ->
       handleButtons p s = Done tt (latch p s) (reads p) /\
       currentMode (buttons_state p s) = currentMode s).
Proof.
  intros p s Hflag Hpress.
  pose proof (shoot_fires_while_shooting p s Hflag) as Hno.
  destruct (buttons_trace_actions p s) as (_ & Hshoots).
  destruct (buttons_state_globals p s) as (Hm & Hs & _ & Hf & _).
  destruct (after_shoot_globals p s) as (Hm' & Hs' & _ & Hf').
  rewrite Hno in *.
  split; [apply handleButtons_run|].
  split; [reflexivity|].
  split; [exact Hshoots|].
  split; [congruence|].
  split; [congruence|].
  split.
  - unfold buttons_state, after_shoot.
    rewrite Hno, shoot_fires_without_shoot, after_toggle_without_shoot.
    reflexivity.
  - intros Htog. split.
    + rewrite handleButtons_run.
      unfold buttons_state, buttons_trace, after_shoot, after_toggle.
      rewrite Hno, Htog, !app_nil_r. reflexivity.
    + rewrite Hm, Hm'. destruct (after_toggle_globals p s) as (-> & _).
      rewrite Htog. reflexivity.
Qed.

(** The theorem at work: the board is ready, the flag is set, the shoot
    button goes down. *)
Lemma C5_second_shoot_is_noop_witness :
  totalPortalsFired
    (buttons_state (mkPoll 0 HIGH LOW) (set_isShooting true ready0))
  = totalPortalsFired (set_isShooting true ready0).
Proof.
  refine (proj1 (proj2 (proj2 (proj2
    (C5_second_shoot_is_noop (mkPoll 0 HIGH LOW) (set_isShooting true ready0)
       _ _))))); reflexivity.
Defined.

(** The toggle branch of [handleButtons] does not test the shooting flag:
    called in a state with the flag set, the gate open and the toggle
    line falling, the function accepts the toggle. No run of the sketch
    calls it in such a state (see [flag_clear_at_every_poll]). *)
Lemma toggle_branch_is_unguarded :
  let s := set_isShooting true ready0 in
  let p := mkPoll 0 LOW HIGH in
  isShooting s = true /\
  gate_open s = true /\
  currentMode s = BLUE_MODE /\
  currentMode (run_state (handleButtons p) s) = RED_MODE /\
  toggles_in (run_trace (handleButtons p) s) = 1%nat.
Proof. vm_compute. repeat split. Qed.


(* ===================================================================== *)
(** ** What one pass of the main loop does *)
(* ===================================================================== *)

(** The two housekeeping functions change nothing but the blink state,
    their own timestamps, and (at the end of the pass) the clock. *)
Lemma onboard_state_frame (s : State) :
  let s' := onboard_state s in
  currentMode s' = currentMode s /\ isShooting s' = isShooting s /\
  audioEnabled s' = audioEnabled s /\
  totalPortalsFired s' = totalPortalsFired s /\
  lastToggleState s' = lastToggleState s /\
  lastShootState s' = lastShootState s /\
  clock s' = clock s /\ lastButtonPress s' = lastButtonPress s /\
  lastOLEDUpdate s' = lastOLEDUpdate s /\
  pwm s' = pwm s.
Proof.
  unfold onboard_state.
  destruct (mode_eqb (currentMode s) BLUE_MODE), (blink_due s);
    cbn; repeat split.
Qed.

Lemma periodic_state_frame (s : State) :
  let s' := periodic_state s in
  currentMode s' = currentMode s /\ isShooting s' = isShooting s /\
  audioEnabled s' = audioEnabled s /\
  totalPortalsFired s' = totalPortalsFired s /\
  lastToggleState s' = lastToggleState s /\
  lastShootState s' = lastShootState s /\
  clock s' = clock s /\ lastButtonPress s' = lastButtonPress s /\
  pwm s' = pwm s.
Proof.
  unfold periodic_state. destruct (refresh_due s); cbn; repeat split.
Qed.

Lemma onboard_trace_quiet (s : State) :
  toggles_in (onboard_trace s) = 0%nat /\ shoots_in (onboard_trace s) = 0%nat /\
  audio_plays (onboard_trace s) = [] /\
  duty_history (onboard_trace s) (pwm s) = [].
Proof.
  unfold onboard_trace.
  destruct (mode_eqb (currentMode s) BLUE_MODE), (blink_due s);
    repeat split.
Qed.

Lemma periodic_trace_quiet (s : State) :
  toggles_in (periodic_trace s) = 0%nat /\
  shoots_in (periodic_trace s) = 0%nat /\
  audio_plays (periodic_trace s) = [].
Proof.
  unfold periodic_trace. destruct (refresh_due s); [|repeat split].
  destruct (updateMainDisplay_calls s) as (H1 & H2 & H3 & _). auto.
Qed.

Lemma loop_state_globals (p : Poll) (s : State) :
  let s' := loop_state p s in
  currentMode s' = currentMode (buttons_state p s) /\
  isShooting s' = isShooting (buttons_state p s) /\
  audioEnabled s' = audioEnabled (buttons_state p s) /\
  totalPortalsFired s' = totalPortalsFired (buttons_state p s) /\
  lastToggleState s' = toggle_line p /\
  lastShootState s' = shoot_line p /\
  clock s' = clock (buttons_state p s) + 10 /\
  lastButtonPress s' = lastButtonPress (buttons_state p s) /\
  pwm s' = pwm (buttons_state p s).
Proof.
  unfold loop_state.
  set (s1 := buttons_state p s). set (s2 := onboard_state s1).
  destruct (periodic_state_frame s2) as (A1 & A2 & A3 & A4 & A5 & A6 & A7 & A8 & A9).
  destruct (onboard_state_frame s1)
    as (B1 & B2 & B3 & B4 & B5 & B6 & B7 & B8 & _ & B9).
  fold s2 in B1, B2, B3, B4, B5, B6, B7, B8, B9.
  cbn. rewrite A1, A2, A3, A4, A5, A6, A7, A8, A9.
  rewrite B1, B2, B3, B4, B5, B6, B7, B8, B9.
  repeat split.
Qed.

Lemma loop_trace_actions (p : Poll) (s : State) :
  toggles_in (loop_trace p s) = (if toggle_fires p s then 1 else 0)%nat /\
  shoots_in (loop_trace p s) = (if shoot_fires p s then 1 else 0)%nat.
Proof.
  unfold loop_trace. rewrite !toggles_in_app, !shoots_in_app.
  destruct (buttons_trace_actions p s) as (-> & ->).
  destruct (onboard_trace_quiet (buttons_state p s)) as (-> & -> & _).
  destruct (periodic_trace_quiet (onboard_state (buttons_state p s)))
    as (-> & -> & _).
  cbn. rewrite !Nat.add_0_r. split; reflexivity.
Qed.

Lemma pass_state_globals (p : Poll) (s : State) :
  let s' := pass_state p s in
  currentMode s' = currentMode (buttons_state p (at_poll p s)) /\
  isShooting s' = isShooting (buttons_state p (at_poll p s)) /\
  audioEnabled s' = audioEnabled (buttons_state p (at_poll p s)) /\
  totalPortalsFired s' = totalPortalsFired (buttons_state p (at_poll p s)) /\
  lastToggleState s' = toggle_line p /\
  lastShootState s' = shoot_line p /\
  clock s' = clock (buttons_state p (at_poll p s)) + 10 /\
  lastButtonPress s' = lastButtonPress (buttons_state p (at_poll p s)) /\
  pwm s' = pwm (buttons_state p (at_poll p s)).
Proof. apply loop_state_globals. Qed.

Lemma pass_trace_actions (p : Poll) (s : State) :
  toggles_in (pass_trace p s)
    = (if toggle_fires p (at_poll p s) then 1 else 0)%nat /\
  shoots_in (pass_trace p s)
    = (if shoot_fires p (at_poll p s) then 1 else 0)%nat.
Proof. apply loop_trace_actions. Qed.

(** A pass whose poll finds the gate closed leaves the globals alone. *)
Lemma quiet_pass (p : Poll) (s : State) :
  gate_open (at_poll p s) = false ->
  toggles_in (pass_trace p s) = 0%nat /\ shoots_in (pass_trace p s) = 0%nat /\
  currentMode (pass_state p s) = currentMode s /\
  totalPortalsFired (pass_state p s) = totalPortalsFired s /\
  isShooting (pass_state p s) = isShooting s /\
  clock (pass_state p s) = clock s + slack p + 10 /\
  lastButtonPress (pass_state p s) = lastButtonPress s /\
  pwm (pass_state p s) = pwm s.
Proof.
  intros G.
  destruct (pass_trace_actions p s) as (-> & ->).
  destruct (pass_state_globals p s) as (-> & -> & _ & -> & _ & _ & -> & -> & ->).
  unfold toggle_fires, shoot_fires, buttons_state, after_shoot, shoot_fires,
    after_toggle, toggle_fires.
  rewrite G. cbn. repeat split.
Qed.

(* ===================================================================== *)
(** ** Edges *)
(* ===================================================================== *)

Lemma toggle_needs_edge (p : Poll) (s : State) :
  toggle_fires p s = true ->
  gate_open s = true /\ toggle_line p = LOW /\ lastToggleState s = HIGH.
Proof.
  unfold toggle_fires.
  destruct (gate_open s), (toggle_line p), (lastToggleState s);
    cbn; intros H; try discriminate; repeat split.
Qed.

Lemma shoot_needs_edge (p : Poll) (s : State) :
  shoot_fires p s = true ->
  gate_open s = true /\ shoot_line p = LOW /\ lastShootState s = HIGH /\
  isShooting s = false.
Proof.
  unfold shoot_fires.
  destruct (after_toggle_globals p s) as (_ & -> & _ & _ & _ & ->).
  destruct (gate_open s), (shoot_line p), (lastShootState s), (isShooting s);
    cbn; intros H; try discriminate; repeat split.
Qed.

(** A line that was low at the previous poll and is still low produces no
    action, whatever the clock says and whatever the other button does. *)
Lemma held_toggle_is_ignored (ps : list Poll) (s : State) :
  lastToggleState s = LOW ->
  Forall (fun q => toggle_line q = LOW) ps ->
  toggles_in (passes_trace ps s) = 0%nat /\
  lastToggleState (passes_state ps s) = LOW.
Proof.
  revert s. induction ps as [|p ps IH]; intros s Hlast Hheld; [auto|].
  inversion Hheld as [|? ? Hp Hps]; subst.
  cbn [passes_trace passes_state]. rewrite toggles_in_app.
  destruct (pass_trace_actions p s) as (-> & _).
  destruct (pass_state_globals p s) as (_ & _ & _ & _ & Hl & _).
  destruct (IH (pass_state p s)) as (-> & ->); [congruence|assumption|].
  unfold toggle_fires. change (lastToggleState (at_poll p s)) with (lastToggleState s).
  rewrite Hlast, !andb_false_r. split; reflexivity.
Qed.

Lemma held_shoot_is_ignored (ps : list Poll) (s : State) :
  lastShootState s = LOW ->
  Forall (fun q => shoot_line q = LOW) ps ->
  shoots_in (passes_trace ps s) = 0%nat /\
  lastShootState (passes_state ps s) = LOW.
Proof.
  revert s. induction ps as [|p ps IH]; intros s Hlast Hheld; [auto|].
  inversion Hheld as [|? ? Hp Hps]; subst.
  cbn [passes_trace passes_state]. rewrite shoots_in_app.
  destruct (pass_trace_actions p s) as (_ & ->).
  destruct (pass_state_globals p s) as (_ & _ & _ & _ & _ & Hl & _).
  destruct (IH (pass_state p s)) as (-> & ->); [congruence|assumption|].
  destruct (shoot_fires p (at_poll p s)) eqn:F; [|split; reflexivity].
  apply shoot_needs_edge in F. destruct F as (_ & _ & F & _).
  change (lastShootState (at_poll p s)) with (lastShootState s) in F.
  rewrite Hlast in F. discriminate.
Qed.

(** C9. A press whose falling edge is seen while the debounce window is
    still running is dropped for good. The poll that sees it accepts
    nothing and records the line as low; since every poll records the
    level it read, however long the button is then held, whatever time
    goes by and whatever the other button does, no later pass accepts an
    action for it. An action needs the line recorded high by the previous
    poll, so the button must be released and pressed again. (Stated for
    both buttons.) *)
Theorem C9_missed_press_is_dropped :
  forall (p : Poll) (ps : list Poll) (s : State),
    gate_open (at_poll p s) = false ->
    (* the poll itself *)
    handleButtons p (at_poll p s)
      = Done tt (latch p (at_poll p s)) (reads p) /\
    lastToggleState (latch p (at_poll p s)) = toggle_line p /\
    lastShootState (latch p (at_poll p s)) = shoot_line p /\
    (* the passes that follow *)
    passes (p :: ps) s
      = Done tt (passes_state (p :: ps) s) (passes_trace (p :: ps) s) /\
    (toggle_line p = LOW -> Forall (fun q => toggle_line q = LOW) ps ->
       toggles_in (passes_trace (p :: ps) s) = 0%nat /\
       lastToggleState (passes_state (p :: ps) s) = LOW) /\
    (shoot_line p = LOW -> Forall (fun q => shoot_line q = LOW) ps ->
       shoots_in (passes_trace (p :: ps) s) = 0%nat /\
       lastShootState (passes_state (p :: ps) s) = LOW) /\
    (* an action needs a fresh edge *)
    (forall q s', toggle_fires q s' = true ->
       toggle_line q = LOW /\ lastToggleState s' = HIGH) /\
    (forall q s', shoot_fires q s' = true ->
       shoot_line q = LOW /\ lastShootState s' = HIGH) /\
    (forall q s', lastToggleState (pass_state q s') = toggle_line q /\
                  lastShootState (pass_state q s') = shoot_line q).
Proof.
  intros p ps s G.
  destruct (quiet_pass p s G) as (T0 & S0 & _).
  destruct (pass_state_globals p s) as (_ & _ & _ & _ & Lt & Ls & _).
  split; [apply gate_closed_poll, G|].
  split; [reflexivity|]. split; [reflexivity|].
  split; [apply passes_run|].
  split; [|split].
  - intros Hp Hps. cbn [passes_trace passes_state].
    rewrite toggles_in_app, T0.
    apply held_toggle_is_ignored; [congruence|assumption].
  - intros Hp Hps. cbn [passes_trace passes_state].
    rewrite shoots_in_app, S0.
    apply held_shoot_is_ignored; [congruence|assumption].
  - split; [|split].
    + intros q s' F. apply toggle_needs_edge in F. tauto.
    + intros q s' F. apply shoot_needs_edge in F. tauto.
    + intros q s'. destruct (pass_state_globals q s') as (_ & _ & _ & _ & A & B & _).
      auto.
Qed.

Lemma C9_missed_press_is_dropped_witness :
  let s := pass_state (mkPoll 0 HIGH LOW) ready0 in
  let p := mkPoll 0 LOW LOW in
  let ps := [mkPoll 100 LOW LOW; mkPoll 1000 LOW LOW] in
  gate_open (at_poll p s) = false /\
  toggles_in (passes_trace (p :: ps) s) = 0%nat /\
  shoots_in (passes_trace (p :: ps) s) = 0%nat.
Proof.
  intros s p ps.
  assert (G : gate_open (at_poll p s) = false) by (vm_compute; reflexivity).
  split; [exact G|].
  destruct (C9_missed_press_is_dropped p ps s G)
    as (_ & _ & _ & _ & Htoggle & Hshoot & _).
  split.
  - apply Htoggle; [reflexivity | repeat constructor].
  - apply Hshoot; [reflexivity | repeat constructor].
Defined.

(* ===================================================================== *)
(** ** The debounce window *)
(* ===================================================================== *)

Lemma since_press_alt (s : State) :
  since_press s = (clock s - lastButtonPress s) mod 4294967296.
Proof.
  unfold since_press, ulong_sub, wrap_ulong. apply Zminus_mod_idemp_l.
Qed.

Lemma since_press_range (s : State) : 0 <= since_press s < 4294967296.
Proof. rewrite since_press_alt. apply Z.mod_pos_bound. lia. Qed.

Lemma gate_open_since_press (s : State) :
  gate_open s = (DEBOUNCE_DELAY <? since_press s).
Proof. reflexivity. Qed.

(** [k] ticks later, nothing having been accepted meanwhile. *)
Lemma since_press_later (s s' : State) (k : Z) :
  clock s' = clock s + k -> lastButtonPress s' = lastButtonPress s ->
  0 <= k -> since_press s + k < 4294967296 ->
  since_press s' = since_press s + k.
Proof.
  intros Hc Hl Hk Hb. pose proof (since_press_range s) as Hr.
  rewrite (since_press_alt s'), Hc, Hl.
  replace (clock s + k - lastButtonPress s)
    with ((clock s - lastButtonPress s) + k) by lia.
  rewrite <- Zplus_mod_idemp_l, <- since_press_alt. apply Z.mod_small. lia.
Qed.

Lemma since_press_stamp (s : State) : since_press (stamp s) = 0.
Proof.
  unfold since_press, stamp, ulong_sub, wrap_ulong. cbn.
  rewrite Z.sub_diag. reflexivity.
Qed.

(** Once an action is accepted, the poller leaves with the timestamp
    equal to the clock reading. *)
Lemma accepted_action_stamps (p : Poll) (s : State) :
  toggle_fires p s = true \/ shoot_fires p s = true ->
  since_press (buttons_state p s) = 0.
Proof.
  intros H.
  assert (E : since_press (buttons_state p s) = since_press (after_shoot p s))
    by reflexivity.
  rewrite E. unfold after_shoot.
  destruct (shoot_fires p s); [apply since_press_stamp|].
  unfold after_toggle. destruct H as [H|H]; [|discriminate].
  rewrite H. apply since_press_stamp.
Qed.

(** Passes whose polls all fall within the debounce window accept
    nothing. *)
Lemma passes_within_window (ps : list Poll) (s : State) :
  within_window (since_press s) ps ->
  toggles_in (passes_trace ps s) = 0%nat /\
  shoots_in (passes_trace ps s) = 0%nat /\
  currentMode (passes_state ps s) = currentMode s /\
  totalPortalsFired (passes_state ps s) = totalPortalsFired s.
Proof.
  revert s. induction ps as [|p ps IH]; intros s W; [repeat split|].
  destruct W as (Hslack & Hin & W).
  pose proof (since_press_range s) as Hr.
  assert (E : since_press (at_poll p s) = since_press s + slack p).
  { apply since_press_later; [reflexivity|reflexivity|lia|].
    unfold DEBOUNCE_DELAY in Hin. lia. }
  assert (G : gate_open (at_poll p s) = false).
  { rewrite gate_open_since_press, E. apply Z.ltb_ge. exact Hin. }
  destruct (quiet_pass p s G) as (T & S & M & F & _ & C & L & _).
  assert (E' : since_press (pass_state p s) = since_press s + slack p + 10).
  { replace (since_press s + slack p + 10)
      with (since_press s + (slack p + 10)) by lia.
    apply since_press_later; [lia|assumption|lia|].
    unfold DEBOUNCE_DELAY in Hin. lia. }
  rewrite <- E' in W.
  destruct (IH (pass_state p s) W) as (T' & S' & M' & F').
  cbn [passes_trace passes_state].
  rewrite toggles_in_app, shoots_in_app, T, S, T', S', M', F', M, F.
  repeat split.
Qed.

(** C2, as first stated, fails: the gate is tested once per poll, before
    either button is looked at. On the ready board a poll that finds both
    lines low accepts the toggle, stamps the time, and then accepts the
    shoot although no time has gone by since the toggle was accepted. *)
Lemma C2_counterexample :
  let p := mkPoll 0 LOW LOW in
  toggles_in (run_trace (handleButtons p) ready0) = 1%nat /\
  shoots_in (run_trace (handleButtons p) ready0) = 1%nat /\
  since_press (after_toggle p ready0) = 0 /\
  gate_open (after_toggle p ready0) = false /\
  shoot_fires p ready0 = true /\
  currentMode (run_state (handleButtons p) ready0) = BLUE_MODE /\
  totalPortalsFired (run_state (handleButtons p) ready0) = 1.
Proof. vm_compute. repeat split. Qed.

(** C2, amended. The debounce gate works across polls, not within one:
    a poll that begins while no more than 50 ticks have gone by since the
    last accepted action accepts nothing on either button and only
    records the line levels; an accepted action leaves the timestamp
    equal to the clock, so the passes that follow within the window are
    all quiet and falling edges seen in different polls of one window
    yield at most one action. Within one poll the gate is tested once:
    a poll accepts at most one action per button, and a poll that passes
    the gate and sees a falling edge on both buttons accepts both, the
    toggle and then the shoot. *)
Theorem C2_debounce_gate :
  forall (p : Poll) (ps : list Poll) (s : State),
    handleButtons p s = Done tt (buttons_state p s) (buttons_trace p s) /\
    (gate_open s = false ->
       handleButtons p s = Done tt (latch p s) (reads p)) /\
    (toggles_in (buttons_trace p s) <= 1 /\
     shoots_in (buttons_trace p s) <= 1)%nat /\
    (toggle_fires p s = true \/ shoot_fires p s = true ->
       since_press (buttons_state p s) = 0 /\
       gate_open (buttons_state p s) = false) /\
    (within_window (since_press s) ps ->
       passes ps s = Done tt (passes_state ps s) (passes_trace ps s) /\
       toggles_in (passes_trace ps s) = 0%nat /\
       shoots_in (passes_trace ps s) = 0%nat /\
       currentMode (passes_state ps s) = currentMode s /\
       totalPortalsFired (passes_state ps s) = totalPortalsFired s) /\
    (gate_open s = true -> isShooting s = false ->
     toggle_line p = LOW -> lastToggleState s = HIGH ->
     shoot_line p = LOW -> lastShootState s = HIGH ->
       toggles_in (buttons_trace p s) = 1%nat /\
       shoots_in (buttons_trace p s) = 1%nat).
Proof.
  intros p ps s.
  destruct (buttons_trace_actions p s) as (HT & HS).
  split; [apply handleButtons_run|].
  split; [apply gate_closed_poll|].
  split.
  { rewrite HT, HS. destruct (toggle_fires p s), (shoot_fires p s); lia. }
  split.
  { intros H. pose proof (accepted_action_stamps p s H) as E.
    split; [exact E|]. rewrite gate_open_since_press, E. reflexivity. }
  split.
  { intros W. split; [apply passes_run|]. apply passes_within_window, W. }
  intros G Hflag Ht Hlt Hs Hls.
  rewrite HT, HS. unfold shoot_fires.
  destruct (after_toggle_globals p s) as (_ & -> & _ & _ & _ & ->).
  unfold toggle_fires. rewrite G, Hflag, Ht, Hlt, Hs, Hls. split; reflexivity.
Qed.

Lemma C2_debounce_gate_witness :
  let s := pass_state (mkPoll 0 LOW HIGH) ready0 in
  let ps := [mkPoll 5 HIGH LOW; mkPoll 5 HIGH HIGH; mkPoll 0 LOW LOW] in
  handleButtons (mkPoll 0 HIGH LOW) s
    = Done tt (latch (mkPoll 0 HIGH LOW) s) (reads (mkPoll 0 HIGH LOW)) /\
  since_press (buttons_state (mkPoll 0 LOW HIGH) ready0) = 0 /\
  (within_window (since_press s) ps /\
   toggles_in (passes_trace ps s) = 0%nat /\
   shoots_in (passes_trace ps s) = 0%nat) /\
  (toggles_in (buttons_trace (mkPoll 0 LOW LOW) ready0) = 1%nat /\
   shoots_in (buttons_trace (mkPoll 0 LOW LOW) ready0) = 1%nat).
Proof.
  intros s ps.
  assert (W : within_window (since_press s) ps)
    by (vm_compute; repeat split; discriminate).
  destruct (C2_debounce_gate (mkPoll 0 HIGH LOW) ps s)
    as (_ & Hclosed & _ & _ & Hquiet & _).
  destruct (C2_debounce_gate (mkPoll 0 LOW HIGH) [] ready0)
    as (_ & _ & _ & Hstamp & _).
  destruct (C2_debounce_gate (mkPoll 0 LOW LOW) [] ready0)
    as (_ & _ & _ & _ & _ & Hboth).
  split; [apply Hclosed; vm_compute; reflexivity|].
  split; [apply Hstamp; left; vm_compute; reflexivity|].
  split.
  - destruct (Hquiet W) as (_ & T & S & _). auto.
  - apply Hboth; vm_compute; reflexivity.
Defined.

(* ===================================================================== *)
(** ** Shooting *)
(* ===================================================================== *)

Lemma int_add_in_range (a b : Z) :
  INT_MIN <= a + b <= INT_MAX -> int_add a b = a + b.
Proof.
  unfold int_add, wrap_int, INT_MIN, INT_MAX. intros H.
  rewrite Z.mod_small; lia.
Qed.

Lemma shootPortal_idle (s : State) : idle_leds (run_state shootPortal s).
Proof.
  destruct (shootPortal_globals s) as (Hm & _).
  destruct (shootPortal_leds s) as (H1 & H2).
  unfold idle_leds. rewrite Hm, other_mode_involutive. split; assumption.
Qed.

Lemma togglePortalMode_idle (s : State) :
  idle_leds (run_state togglePortalMode s).
Proof.
  destruct (togglePortalMode_globals s) as (Hm & _).
  destruct (togglePortalMode_leds s) as (H1 & H2).
  unfold idle_leds. rewrite Hm, other_mode_involutive. split; assumption.
Qed.

Lemma int_add_wrap (x : Z) : int_add (wrap_int x) 1 = wrap_int (x + 1).
Proof.
  unfold int_add, wrap_int.
  replace ((x + 32768) mod 65536 - 32768 + 1 + 32768)
    with ((x + 32768) mod 65536 + 1) by lia.
  rewrite Zplus_mod_idemp_l. f_equal. f_equal. lia.
Qed.

(** After [n] more shots the counter has advanced by [n], as a 16-bit
    [int]. *)
Lemma shoot_times_counter (n : nat) (s : State) (x : Z) :
  totalPortalsFired s = wrap_int x ->
  returns (shoot_times n s) = true /\
  totalPortalsFired (run_state (shoot_times n) s) = wrap_int (x + Z.of_nat n).
Proof.
  revert s x. induction n as [|n IH]; intros s x Hx.
  - split; [reflexivity|]. rewrite Z.add_0_r. exact Hx.
  - unfold run_state. cbn [shoot_times].
    rewrite (bind_Done _ _ _ _ _ _ (shootPortal_done s)).
    rewrite returns_preceded, state_of_preceded.
    destruct (IH (run_state shootPortal s) (x + 1)) as (R & C).
    { rewrite shootPortal_counter, Hx. apply int_add_wrap. }
    split; [exact R|].
    rewrite (state_of_default _ s (run_state shootPortal s)) by exact R.
    fold (run_state (shoot_times n) (run_state shootPortal s)).
    rewrite C. f_equal. lia.
Qed.

(** The counter does reach the largest [int]: 32767 shots from reset. *)
Lemma counter_reaches_int_max (s : State) :
  totalPortalsFired s = 0 ->
  totalPortalsFired (run_state (shoot_times (Z.to_nat INT_MAX)) s) = INT_MAX.
Proof.
  intros H.
  destruct (shoot_times_counter (Z.to_nat INT_MAX) s 0 H) as (_ & ->).
  rewrite Z2Nat.id by (unfold INT_MAX; lia). reflexivity.
Qed.

(** C1, as first stated, fails in two corners. When the audio module did
    not answer at start-up an accepted shoot plays no cue at all; and at
    the largest [int] the counter does not go up by one but wraps to the
    smallest. *)
Lemma C1_counterexample :
  let p := mkPoll 0 HIGH LOW in
  (shoots_in (run_trace (handleButtons p) ready0_silent) = 1%nat /\
   audio_plays (run_trace (handleButtons p) ready0_silent) = []) /\
  (let s := set_totalPortalsFired INT_MAX ready0 in
   shoots_in (run_trace (handleButtons p) s) = 1%nat /\
   totalPortalsFired s = 32767 /\
   totalPortalsFired (run_state (handleButtons p) s) = -32768).
Proof. vm_compute. repeat split. Qed.

(** C1, amended. For every starting mode [m] a shoot returns, having
    asked for the firing cue of [m] (track 2 for BLUE, track 3 for RED),
    which is played exactly when audio is enabled; the fired counter is
    incremented once as a 16-bit [int], that is by exactly 1 unless it
    held 32767; the mode ends flipped to the opposite of [m], with the
    shooting flag clear and the LEDs idle for the new mode. A shoot press
    accepted by the poller does just this and stamps the time. The
    scenario of the specification holds with audio enabled: from BLUE
    with 0 fired, a toggle gives RED and 0, a shoot plays the red-fire cue
    and gives BLUE and 1, a toggle gives RED and 1. *)
Theorem C1_shoot_cue_counter_flip :
  forall (s : State),
    shootPortal s = Done tt (run_state shootPortal s) (run_trace shootPortal s) /\
    audio_plays (run_trace shootPortal s)
      = (if audioEnabled s then [track_index (fire_cue (currentMode s))]
         else []) /\
    track_index (fire_cue BLUE_MODE) = 2 /\
    track_index (fire_cue RED_MODE) = 3 /\
    totalPortalsFired (run_state shootPortal s)
      = int_add (totalPortalsFired s) 1 /\
    (INT_MIN <= totalPortalsFired s < INT_MAX ->
       totalPortalsFired (run_state shootPortal s) = totalPortalsFired s + 1) /\
    currentMode (run_state shootPortal s) = other_mode (currentMode s) /\
    isShooting (run_state shootPortal s) = false /\
    idle_leds (run_state shootPortal s) /\
    (forall p, toggle_fires p s = false -> shoot_fires p s = true ->
       handleButtons p s
       = Done tt (latch p (stamp (run_state shootPortal s)))
           (reads p ++ run_trace shootPortal s)) /\
    (currentMode s = BLUE_MODE -> totalPortalsFired s = 0 ->
     audioEnabled s = true ->
       let s1 := run_state togglePortalMode s in
       let s2 := run_state shootPortal s1 in
       let s3 := run_state togglePortalMode s2 in
       (currentMode s1, totalPortalsFired s1) = (RED_MODE, 0) /\
       audio_plays (run_trace shootPortal s1) = [track_index SOUND_RED_PORTAL] /\
       (currentMode s2, totalPortalsFired s2) = (BLUE_MODE, 1) /\
       (currentMode s3, totalPortalsFired s3) = (RED_MODE, 1)).
Proof.
  intros s.
  destruct (shootPortal_globals s) as (Hm & Hs & _).
  destruct (shootPortal_calls s) as (_ & _ & Ha & _).
  pose proof (shootPortal_counter s) as Hc.
  split; [apply shootPortal_done|].
  split; [exact Ha|].
  split; [reflexivity|]. split; [reflexivity|].
  split; [exact Hc|].
  split.
  { intros R. rewrite Hc. apply int_add_in_range.
    unfold INT_MIN, INT_MAX in *. lia. }
  split; [exact Hm|]. split; [exact Hs|].
  split; [apply shootPortal_idle|].
  split.
  { intros p T S. rewrite handleButtons_run.
    unfold buttons_state, buttons_trace, after_shoot.
    assert (E : after_toggle p s = s) by (unfold after_toggle; rewrite T; reflexivity).
    rewrite S, T, E. reflexivity. }
  intros Hblue Hzero Haudio s1 s2 s3.
  destruct (togglePortalMode_globals s) as (Tm & _ & Ta & Tf & _).
  fold s1 in Tm, Ta, Tf.
  destruct (shootPortal_globals s1) as (Sm & _ & Sa & _).
  destruct (shootPortal_calls s1) as (_ & _ & Sp & _).
  pose proof (shootPortal_counter s1) as Sc. fold s2 in Sm, Sa, Sc.
  destruct (togglePortalMode_globals s2) as (Um & _ & _ & Uf & _).
  fold s3 in Um, Uf.
  rewrite Um, Uf, Sp, Sm, Sc, Tm, Tf, Ta, Hblue, Hzero, Haudio.
  repeat split.
Qed.

(** The theorem at work on the ready board, and the scenario of the
    specification played through the poller: toggle press, release, shoot
    press, release, toggle press. *)
Lemma C1_shoot_cue_counter_flip_witness :
  (let s1 := run_state togglePortalMode ready0 in
   let s2 := run_state shootPortal s1 in
   let s3 := run_state togglePortalMode s2 in
   (currentMode s1, totalPortalsFired s1) = (RED_MODE, 0) /\
   audio_plays (run_trace shootPortal s1) = [track_index SOUND_RED_PORTAL] /\
   (currentMode s2, totalPortalsFired s2) = (BLUE_MODE, 1) /\
   (currentMode s3, totalPortalsFired s3) = (RED_MODE, 1)) /\
  totalPortalsFired (run_state shootPortal ready0) = totalPortalsFired ready0 + 1 /\
  handleButtons (mkPoll 0 HIGH LOW) ready0
  = Done tt (latch (mkPoll 0 HIGH LOW) (stamp (run_state shootPortal ready0)))
      (reads (mkPoll 0 HIGH LOW) ++ run_trace shootPortal ready0).
Proof.
  destruct (C1_shoot_cue_counter_flip ready0)
    as (_ & _ & _ & _ & _ & Hone & _ & _ & _ & Hpoll & Hscenario).
  split; [|split].
  - apply Hscenario; reflexivity.
  - apply Hone. vm_compute. split; [discriminate | reflexivity].
  - apply Hpoll; vm_compute; reflexivity.
Defined.

Example scenario_through_the_poller :
  let polls := [ mkPoll 0 LOW HIGH; mkPoll 100 HIGH HIGH; mkPoll 100 HIGH LOW;
                 mkPoll 100 HIGH HIGH; mkPoll 100 LOW HIGH ] in
  let at_ k := passes_state (firstn k polls) ready0 in
  returns (passes polls ready0) = true /\
  map (fun k => (currentMode (at_ k), totalPortalsFired (at_ k)))
    [0; 1; 3; 5]%nat
  = [ (BLUE_MODE, 0); (RED_MODE, 0); (BLUE_MODE, 1); (RED_MODE, 1) ] /\
  audio_plays (passes_trace polls ready0)
  = [ track_index SOUND_MODE_SWITCH; track_index SOUND_RED_PORTAL;
      track_index SOUND_MODE_SWITCH ].
Proof. vm_compute. repeat split. Qed.

(* ===================================================================== *)
(** ** The two PWM channels *)
(* ===================================================================== *)

Lemma fadeTransition_unfold (fromPin toPin : Z) :
  fadeTransition fromPin toPin
  = (fade_ramp fromPin toPin ;;
     analogWrite fromPin 0 ;;
     analogWrite toPin DIM_BRIGHTNESS).
Proof. unfold fadeTransition, fade_ramp. reflexivity. Qed.

Lemma fade_ramp_returns (fromPin toPin : Z) (s : State) :
  returns (fade_ramp fromPin toPin s) = true.
Proof. vm_compute. reflexivity. Qed.

Lemma fade_steps_values :
  fade_steps = [0; 2; 4; 6; 8; 10; 12; 14; 16; 18; 20; 22; 24; 26; 28; 30].
Proof. reflexivity. Qed.

Lemma fadeTransition_calls (fromPin toPin : Z) (s : State) :
  run_trace (fadeTransition fromPin toPin) s = fade_calls fromPin toPin.
Proof. vm_compute. reflexivity. Qed.

Lemma fadeTransition_returns (fromPin toPin : Z) (s : State) :
  returns (fadeTransition fromPin toPin s) = true.
Proof. vm_compute. reflexivity. Qed.

Lemma fadeTransition_ends (fromPin toPin : Z) (s : State) :
  fromPin <> toPin ->
  pwm (run_state (fadeTransition fromPin toPin) s) fromPin = 0 /\
  pwm (run_state (fadeTransition fromPin toPin) s) toPin = DIM_BRIGHTNESS.
Proof.
  intros Hne. unfold run_state at 1 2. rewrite fadeTransition_unfold.
  rewrite (bind_Done _ _ _ _ _ _ (run_done _ _ (fade_ramp_returns fromPin toPin s))).
  rewrite state_of_preceded.
  set (s1 := run_state (fade_ramp fromPin toPin) s).
  change (pwm (state_of ((analogWrite fromPin 0 ;; analogWrite toPin DIM_BRIGHTNESS) s1) s))
    with (write_duty (write_duty (pwm s1) fromPin 0) toPin DIM_BRIGHTNESS).
  unfold write_duty.
  rewrite !Z.eqb_refl. apply Z.eqb_neq in Hne. rewrite Hne. split; reflexivity.
Qed.

Lemma fadeTransition_mode (fromPin toPin : Z) (s : State) :
  currentMode (run_state (fadeTransition fromPin toPin) s) = currentMode s.
Proof. vm_compute. reflexivity. Qed.

(** The fade the sketch runs after flipping the mode: from the channel
    of the other mode to the channel of the current one. *)
Lemma fadeTransition_idle (s : State) :
  idle_leds
    (run_state (fadeTransition (led_pin (other_mode (currentMode s)))
                  (led_pin (currentMode s))) s).
Proof.
  unfold idle_leds. rewrite fadeTransition_mode.
  assert (Hne : led_pin (other_mode (currentMode s)) <> led_pin (currentMode s))
    by (destruct (currentMode s); discriminate).
  destruct (fadeTransition_ends _ _ s Hne) as (H0 & H1). auto.
Qed.

Lemma setIdleMode_idle (s : State) :
  returns (setIdleMode s) = true /\ idle_leds (run_state setIdleMode s).
Proof.
  unfold idle_leds.
  destruct s as [mode shooting enabled fired lastPress lastBlink lastUpdate
                 lastToggle lastShoot led ticks duty tccr font].
  destruct mode; vm_compute; repeat split.
Qed.

Lemma idle_not_both (s : State) : idle_leds s -> ~ both_lit (pwm s).
Proof.
  unfold idle_leds, both_lit. intros (H1 & H2) (B & R).
  destruct (currentMode s); cbn in H1, H2; unfold DIM_BRIGHTNESS in *; lia.
Qed.

Lemma duty_history_channels (tr : list Event) (f : Z -> Z) :
  map (fun g => (g BLUE_LED_PIN, g RED_LED_PIN)) (duty_history tr f)
  = channel_history tr (f BLUE_LED_PIN) (f RED_LED_PIN).
Proof.
  revert f. induction tr as [|e tr IH]; intros f; [reflexivity|].
  destruct e; cbn [duty_history channel_history map]; try apply IH.
  rewrite IH. reflexivity.
Qed.

Lemma dark_history (tr : list Event) (f : Z -> Z) :
  forallb dark_one (channel_history tr (f BLUE_LED_PIN) (f RED_LED_PIN)) = true ->
  Forall (fun g => ~ both_lit g) (duty_history tr f).
Proof.
  rewrite <- duty_history_channels, forallb_forall. intros H.
  apply Forall_forall. intros g Hg (B & R).
  specialize (H _ (in_map _ _ _ Hg)). unfold dark_one in H. cbn in H.
  apply Z.leb_le in B, R. rewrite B, R in H. discriminate.
Qed.

Lemma togglePortalMode_dark (s : State) :
  forallb dark_one
    (channel_history (run_trace togglePortalMode s)
       (if mode_eqb (currentMode s) BLUE_MODE then DIM_BRIGHTNESS else 0)
       (if mode_eqb (currentMode s) BLUE_MODE then 0 else DIM_BRIGHTNESS))
  = true.
Proof. by_running s. Qed.

Lemma shootPortal_dark (s : State) :
  forallb dark_one
    (channel_history (run_trace shootPortal s)
       (if mode_eqb (currentMode s) BLUE_MODE then DIM_BRIGHTNESS else 0)
       (if mode_eqb (currentMode s) BLUE_MODE then 0 else DIM_BRIGHTNESS))
  = true.
Proof. by_running s. Qed.

Lemma idle_channels (s : State) :
  idle_leds s ->
  pwm s BLUE_LED_PIN
    = (if mode_eqb (currentMode s) BLUE_MODE then DIM_BRIGHTNESS else 0) /\
  pwm s RED_LED_PIN
    = (if mode_eqb (currentMode s) BLUE_MODE then 0 else DIM_BRIGHTNESS).
Proof.
  unfold idle_leds. destruct (currentMode s); cbn; intros (H1 & H2); auto.
Qed.

Lemma fade_turn_duties (fromPin toPin step : Z) (f : Z -> Z) :
  fromPin <> toPin ->
  let g := write_duty (write_duty f fromPin (DIM_BRIGHTNESS - step)) toPin step in
  duty_history (fade_turn fromPin toPin step) f
    = [write_duty f fromPin (DIM_BRIGHTNESS - step); g] /\
  g fromPin = DIM_BRIGHTNESS - step /\ g toPin = step /\
  g fromPin + g toPin = DIM_BRIGHTNESS.
Proof.
  intros Hne g. apply Z.eqb_neq in Hne.
  assert (Hf : g fromPin = DIM_BRIGHTNESS - step).
  { unfold g, write_duty. rewrite Hne, Z.eqb_refl. reflexivity. }
  assert (Ht : g toPin = step).
  { unfold g, write_duty. rewrite Z.eqb_refl. reflexivity. }
  repeat split; [exact Hf | exact Ht | lia].
Qed.

Lemma fade_never_both (fromPin toPin : Z) (f : Z -> Z) :
  fromPin <> toPin -> f toPin < DIM_BRIGHTNESS ->
  Forall (fun g => ~ (DIM_BRIGHTNESS <= g fromPin /\ DIM_BRIGHTNESS <= g toPin))
    (duty_history (fade_calls fromPin toPin) f).
Proof.
  intros Hne Hoff.
  assert (Hft : (fromPin =? toPin) = false) by (apply Z.eqb_neq; exact Hne).
  assert (Htf : (toPin =? fromPin) = false)
    by (apply Z.eqb_neq; intros E; apply Hne; symmetry; exact E).
  unfold fade_calls. rewrite fade_steps_values.
  cbn [flat_map fade_turn app duty_history].
  unfold DIM_BRIGHTNESS in *.
  repeat (apply Forall_cons; [
    unfold write_duty; rewrite ?Z.eqb_refl, ?Hft, ?Htf;
    cbn; lia |]).
  apply Forall_nil.
Qed.

(** C10. During [fadeTransition(from, to)] the loop variable takes the
    values 0, 2, ..., 30 and each turn writes [DIM_BRIGHTNESS - step] to
    the from channel and [step] to the to channel, so after every turn
    the two duties sum to exactly [DIM_BRIGHTNESS]; the function then
    writes 0 and [DIM_BRIGHTNESS]. With two distinct channels and the to
    channel below dim-idle brightness on entry (it is off at every call
    the sketch makes), at no point of the fade, not even between the two
    writes of a turn, are both channels at dim-idle brightness or
    above. *)
Theorem C10_fade_is_a_crossfade :
  forall (fromPin toPin : Z) (s : State),
    fadeTransition fromPin toPin s
      = Done tt (run_state (fadeTransition fromPin toPin) s)
          (flat_map (fade_turn fromPin toPin) fade_steps
           ++ [AnalogWrite fromPin 0; AnalogWrite toPin DIM_BRIGHTNESS]) /\
    fade_steps = [0; 2; 4; 6; 8; 10; 12; 14; 16; 18; 20; 22; 24; 26; 28; 30] /\
    (fromPin <> toPin ->
       forall step f,
         let g := write_duty (write_duty f fromPin (DIM_BRIGHTNESS - step))
                    toPin step in
         duty_history (fade_turn fromPin toPin step) f
           = [write_duty f fromPin (DIM_BRIGHTNESS - step); g] /\
         g fromPin = DIM_BRIGHTNESS - step /\ g toPin = step /\
         g fromPin + g toPin = DIM_BRIGHTNESS) /\
    (fromPin <> toPin -> pwm s toPin < DIM_BRIGHTNESS ->
       Forall (fun g => ~ (DIM_BRIGHTNESS <= g fromPin /\
                           DIM_BRIGHTNESS <= g toPin))
         (duty_history (run_trace (fadeTransition fromPin toPin) s) (pwm s))).
Proof.
  intros fromPin toPin s.
  split.
  { rewrite (run_done _ _ (fadeTransition_returns fromPin toPin s)).
    rewrite fadeTransition_calls. reflexivity. }
  split; [apply fade_steps_values|].
  split.
  { intros Hne step f. apply fade_turn_duties, Hne. }
  intros Hne Hoff. rewrite fadeTransition_calls.
  apply fade_never_both; assumption.
Qed.

Lemma C10_fade_is_a_crossfade_witness :
  (let g := write_duty (write_duty (pwm ready0) BLUE_LED_PIN (DIM_BRIGHTNESS - 4))
              RED_LED_PIN 4 in
   g BLUE_LED_PIN + g RED_LED_PIN = DIM_BRIGHTNESS) /\
  Forall (fun g => ~ (DIM_BRIGHTNESS <= g BLUE_LED_PIN /\
                      DIM_BRIGHTNESS <= g RED_LED_PIN))
    (duty_history (run_trace (fadeTransition BLUE_LED_PIN RED_LED_PIN) ready0)
       (pwm ready0)).
Proof.
  destruct (C10_fade_is_a_crossfade BLUE_LED_PIN RED_LED_PIN ready0)
    as (_ & _ & Hturn & Hnever).
  split.
  - apply (Hturn ltac:(discriminate) 4 (pwm ready0)).
  - apply Hnever; [discriminate | vm_compute; reflexivity].
Defined.

Lemma idle_leds_same (s s' : State) :
  pwm s' = pwm s -> currentMode s' = currentMode s ->
  idle_leds s -> idle_leds s'.
Proof. unfold idle_leds. intros -> ->. auto. Qed.

Lemma buttons_state_idle (p : Poll) (s : State) :
  idle_leds s -> idle_leds (buttons_state p s).
Proof.
  intros H. unfold buttons_state, after_shoot, after_toggle.
  destruct (shoot_fires p s).
  - eapply idle_leds_same; [| |apply shootPortal_idle]; reflexivity.
  - destruct (toggle_fires p s).
    + eapply idle_leds_same; [| |apply togglePortalMode_idle]; reflexivity.
    + eapply idle_leds_same; [| |exact H]; reflexivity.
Qed.

Lemma pass_state_idle (p : Poll) (s : State) :
  idle_leds s -> idle_leds (pass_state p s).
Proof.
  intros H.
  destruct (pass_state_globals p s) as (Hm & _ & _ & _ & _ & _ & _ & _ & Hp).
  eapply idle_leds_same; [exact Hp | exact Hm |].
  apply buttons_state_idle.
  eapply idle_leds_same; [| |exact H]; reflexivity.
Qed.

Lemma passes_state_idle (ps : list Poll) (s : State) :
  idle_leds s -> idle_leds (passes_state ps s).
Proof.
  revert s. induction ps as [|p ps IH]; intros s H; [exact H|].
  cbn [passes_state]. apply IH, pass_state_idle, H.
Qed.

Lemma setup_returns (audio : bool) (s : State) :
  returns (setup (mkBoot true audio) s) = true.
Proof. destruct audio; by_running s. Qed.

Lemma setup_idle (audio : bool) (s : State) :
  idle_leds (run_state (setup (mkBoot true audio)) s).
Proof. unfold idle_leds. destruct audio; by_running s. Qed.

(** C6. After initialization ([setIdleMode], and so after [setup]) and
    after every completed operation ([fadeTransition] between two
    distinct channels, [togglePortalMode], [shootPortal], and every pass
    of the main loop) exactly one colour is active: the channel of the
    current mode is at dim-idle brightness (30) and the other channel is
    at 0; every [fadeTransition(from, to)] ends with the from channel at 0
    and the to channel at 30. So the two channels are never both at idle
    brightness between operations; and from an idle state they are not
    both at idle brightness or above at any point of a toggle or of a
    shoot either. All these operations return. *)
Theorem C6_one_channel_idle :
  forall (s : State) (ps : list Poll) (audio : bool) (fromPin toPin : Z),
    (returns (setIdleMode s) = true /\ idle_leds (run_state setIdleMode s)) /\
    (returns (setup (mkBoot true audio) s) = true /\
     idle_leds (run_state (setup (mkBoot true audio)) s)) /\
    (fromPin <> toPin ->
       returns (fadeTransition fromPin toPin s) = true /\
       pwm (run_state (fadeTransition fromPin toPin) s) fromPin = 0 /\
       pwm (run_state (fadeTransition fromPin toPin) s) toPin = DIM_BRIGHTNESS) /\
    idle_leds
      (run_state (fadeTransition (led_pin (other_mode (currentMode s)))
                    (led_pin (currentMode s))) s) /\
    (returns (togglePortalMode s) = true /\
     idle_leds (run_state togglePortalMode s)) /\
    (returns (shootPortal s) = true /\ idle_leds (run_state shootPortal s)) /\
    (idle_leds s ->
       ~ both_lit (pwm s) /\
       passes ps s = Done tt (passes_state ps s) (passes_trace ps s) /\
       idle_leds (passes_state ps s) /\
       Forall (fun g => ~ both_lit g)
         (duty_history (run_trace togglePortalMode s) (pwm s)) /\
       Forall (fun g => ~ both_lit g)
         (duty_history (run_trace shootPortal s) (pwm s))).
Proof.
  intros s ps audio fromPin toPin.
  split; [apply setIdleMode_idle|].
  split; [split; [apply setup_returns | apply setup_idle]|].
  split.
  { intros Hne. split; [apply fadeTransition_returns|].
    apply fadeTransition_ends, Hne. }
  split; [apply fadeTransition_idle|].
  split; [split; [apply togglePortalMode_returns | apply togglePortalMode_idle]|].
  split; [split; [apply shootPortal_returns | apply shootPortal_idle]|].
  intros Hidle. destruct (idle_channels s Hidle) as (Hb & Hr).
  split; [apply idle_not_both, Hidle|].
  split; [apply passes_run|].
  split; [apply passes_state_idle, Hidle|].
  split; apply dark_history; rewrite Hb, Hr;
    [apply togglePortalMode_dark | apply shootPortal_dark].
Qed.

Lemma C6_one_channel_idle_witness :
  idle_leds ready0 /\
  idle_leds (passes_state [mkPoll 0 LOW HIGH; mkPoll 100 HIGH LOW] ready0) /\
  pwm (run_state (fadeTransition RED_LED_PIN BLUE_LED_PIN) ready0) RED_LED_PIN = 0.
Proof.
  assert (I : idle_leds ready0) by (vm_compute; split; reflexivity).
  destruct (C6_one_channel_idle ready0
              [mkPoll 0 LOW HIGH; mkPoll 100 HIGH LOW] true
              RED_LED_PIN BLUE_LED_PIN)
    as (_ & _ & Hfade & _ & _ & _ & Hidle).
  split; [exact I|]. split.
  - apply (Hidle I).
  - apply Hfade. discriminate.
Defined.

(* ===================================================================== *)
(** ** Running without sound *)
(* ===================================================================== *)

Lemma erasure_refl (t : list Event) : erasure t t.
Proof. induction t; constructor; assumption. Qed.

Lemma erasure_app (a a' b b' : list Event) :
  erasure a a' -> erasure b b' -> erasure (a ++ b) (a' ++ b').
Proof.
  intros Ha Hb. induction Ha; cbn [app].
  - exact Hb.
  - constructor. assumption.
  - constructor. assumption.
  - rewrite <- app_assoc. constructor. assumption.
Qed.

(** Erasure goes through the sequencing of calls. *)
Lemma silent_version_preceded {A} (t t' : list Event) (r r' : Res A) :
  erasure t t' -> silent_version r r' ->
  silent_version (preceded t r) (preceded t' r').
Proof.
  intros Ht. destruct r, r'; cbn; try tauto.
  - intros (? & ? & ?). auto using erasure_app.
  - intros (? & ?). auto using erasure_app.
Qed.

Lemma silently_bind {A B} (m m' : M A) (k k' : A -> M B) :
  silently m m' -> (forall a, silently (k a) (k' a)) ->
  silently (bind m k) (bind m' k').
Proof.
  intros Hm Hk s. specialize (Hm s). unfold bind.
  destruct (m s) as [a s1 t1| s1 t1|], (m' (mute s)) as [a' s1' t1'| s1' t1'|];
    cbn in Hm; try contradiction; try exact Hm.
  destruct Hm as (-> & -> & Ht).
  apply silent_version_preceded; [exact Ht | apply Hk].
Qed.

Lemma silently_ret {A} (a : A) : silently (ret a) (ret a).
Proof. intros s. cbn. auto using erasure_nil. Qed.

Lemma silently_emit (e : Event) : silently (emit e) (emit e).
Proof. intros s. cbn. auto using erasure_refl. Qed.

Lemma silently_gets {A} (f : State -> A) :
  (forall s, f (mute s) = f s) -> silently (gets f) (gets f).
Proof. intros H s. cbn. auto using erasure_nil. Qed.

Lemma silently_modify (g : State -> State) :
  (forall s, g (mute s) = mute (g s)) -> silently (modify g) (modify g).
Proof. intros H s. cbn. auto using erasure_nil. Qed.

Lemma silently_millis : silently millis millis.
Proof. apply silently_gets. reflexivity. Qed.

Lemma silently_delay (ms : Z) : silently (delay ms) (delay ms).
Proof. intros s. cbn. auto using erasure_refl. Qed.

Lemma silently_analogWrite (pin v : Z) :
  silently (analogWrite pin v) (analogWrite pin v).
Proof. intros s. cbn. auto using erasure_refl. Qed.

Lemma silently_digitalWrite (pin : Z) (level : bool) :
  silently (digitalWrite pin level) (digitalWrite pin level).
Proof. apply silently_emit. Qed.

Lemma silently_digitalRead (p : Poll) (pin : Z) :
  silently (digitalRead p pin) (digitalRead p pin).
Proof. intros s. cbn. auto using erasure_refl. Qed.

Lemma silently_getTextBounds (text : string) (size : Z) :
  silently (getTextBounds text size) (getTextBounds text size).
Proof. intros s. cbn. auto using erasure_refl. Qed.

Lemma silently_when (c : bool) (body body' : M unit) :
  silently body body' -> silently (when c body) (when c body').
Proof. destruct c; [auto | intros _; apply silently_ret]. Qed.

Lemma silently_for_loop (fuel : nat) (i : Z) (cond : Z -> bool)
    (next : Z -> Z) (body body' : Z -> M unit) :
  (forall j, silently (body j) (body' j)) ->
  silently (for_loop fuel i cond next body) (for_loop fuel i cond next body').
Proof.
  intros Hb. revert i. induction fuel as [|fuel IH]; intros i.
  - intros s. exact I.
  - cbn [for_loop]. destruct (cond i); [|apply silently_ret].
    apply silently_bind; [apply Hb | intros _; apply IH].
Qed.

(** The two places where the sketch looks at [audioEnabled] after
    start-up. *)
Lemma silently_playAudio (track : AudioTrack) :
  silently (playAudio track) (playAudio track).
Proof.
  intros s. unfold playAudio. rewrite !bind_gets.
  change (audioEnabled (mute s)) with false. cbn [andb when].
  destruct (audioEnabled s && (1 <=? track_index track)
            && (track_index track <=? 5)); cbn;
    repeat split; repeat constructor.
Qed.

Lemma silently_audio_glyph (rest rest' : M unit) :
  silently rest rest' ->
  silently
    (enabled <- gets audioEnabled ;;
     when enabled (showTextAt (str_at DISPLAY_STRINGS 6) 85 10 1) ;; rest)
    (enabled <- gets audioEnabled ;;
     when enabled (showTextAt (str_at DISPLAY_STRINGS 6) 85 10 1) ;; rest').
Proof.
  intros H s. rewrite !bind_gets.
  change (audioEnabled (mute s)) with false. rewrite when_false, bind_ret.
  destruct (audioEnabled s).
  - rewrite when_true. unfold showTextAt. exec.
    rewrite <- (preceded_nil (rest' (mute s))).
    apply silent_version_preceded; [|apply H].
    exact (erasure_glyph [] [] erasure_nil).
  - rewrite when_false, bind_ret. apply H.
Qed.

(** Stepping through the statements of a function, both runs side by
    side. *)
Ltac side_step :=
  lazymatch goal with
  | |- silently (bind (gets audioEnabled) _) _ => apply silently_audio_glyph
  | |- silently (bind _ _) _ => apply silently_bind; [|intros ?]
  | |- silently (ret _) _ => apply silently_ret
  | |- silently (emit _) _ => apply silently_emit
  | |- silently millis _ => apply silently_millis
  | |- silently (delay _) _ => apply silently_delay
  | |- silently (analogWrite _ _) _ => apply silently_analogWrite
  | |- silently (digitalWrite _ _) _ => apply silently_digitalWrite
  | |- silently (digitalRead _ _) _ => apply silently_digitalRead
  | |- silently (getTextBounds _ _) _ => apply silently_getTextBounds
  | |- silently (playAudio _) _ => apply silently_playAudio
  | |- silently (when _ _) _ => apply silently_when
  | |- silently (for_loop _ _ _ _ _) _ => apply silently_for_loop; intros ?
  | |- silently (gets _) _ => apply silently_gets; intros ?; reflexivity
  | |- silently (modify _) _ => apply silently_modify; intros ?; reflexivity
  | |- silently (if ?c then _ else _) _ => destruct c
  | |- silently (match ?o with Some _ => _ | None => _ end) _ => destruct o
  | |- silently (let _ := _ in _) _ => cbv zeta
  | |- silently ?m ?m => solve [auto]
  end.

Ltac side_by_side := repeat side_step.

Lemma silently_showTextAt (text : string) (x y size : Z) :
  silently (showTextAt text x y size) (showTextAt text x y size).
Proof. unfold showTextAt. side_by_side. Qed.

Lemma silently_showCenteredText (text : string) (y size : Z) :
  silently (showCenteredText text y size) (showCenteredText text y size).
Proof. unfold showCenteredText. side_by_side. Qed.

Lemma silently_displayMessage (l1 : string) (l2 : option string) (ms : Z) :
  silently (displayMessage l1 l2 ms) (displayMessage l1 l2 ms).
Proof.
  pose proof silently_showCenteredText.
  unfold displayMessage. side_by_side.
Qed.

Lemma silently_drawPowerBars (x y count : Z) :
  silently (drawPowerBars x y count) (drawPowerBars x y count).
Proof. unfold drawPowerBars. side_by_side. Qed.

Lemma silently_fadeTransition (fromPin toPin : Z) :
  silently (fadeTransition fromPin toPin) (fadeTransition fromPin toPin).
Proof. unfold fadeTransition. side_by_side. Qed.

Lemma silently_performShootingEffect (pin : Z) :
  silently (performShootingEffect pin) (performShootingEffect pin).
Proof. unfold performShootingEffect. side_by_side. Qed.

Lemma silently_updateMainDisplay :
  silently updateMainDisplay updateMainDisplay.
Proof.
  pose proof silently_showTextAt. pose proof silently_drawPowerBars.
  unfold updateMainDisplay. side_by_side.
Qed.

Lemma silently_autoSwitchMode : silently autoSwitchMode autoSwitchMode.
Proof.
  pose proof silently_displayMessage. pose proof silently_fadeTransition.
  unfold autoSwitchMode. side_by_side.
Qed.

Lemma silently_shootPortal : silently shootPortal shootPortal.
Proof.
  pose proof silently_performShootingEffect. pose proof silently_autoSwitchMode.
  pose proof silently_updateMainDisplay.
  unfold shootPortal. side_by_side.
Qed.

Lemma silently_togglePortalMode : silently togglePortalMode togglePortalMode.
Proof.
  pose proof silently_displayMessage. pose proof silently_fadeTransition.
  pose proof silently_updateMainDisplay.
  unfold togglePortalMode. side_by_side.
Qed.

Lemma silently_handleButtons (p : Poll) :
  silently (handleButtons p) (handleButtons p).
Proof.
  pose proof silently_togglePortalMode. pose proof silently_shootPortal.
  unfold handleButtons. side_by_side.
Qed.

Lemma silently_updateOnboardLED : silently updateOnboardLED updateOnboardLED.
Proof. unfold updateOnboardLED. side_by_side. Qed.

Lemma silently_updateDisplayPeriodically :
  silently updateDisplayPeriodically updateDisplayPeriodically.
Proof.
  pose proof silently_updateMainDisplay.
  unfold updateDisplayPeriodically. side_by_side.
Qed.

Lemma silently_loop (p : Poll) : silently (loop p) (loop p).
Proof.
  pose proof silently_handleButtons. pose proof silently_updateOnboardLED.
  pose proof silently_updateDisplayPeriodically.
  unfold loop. side_by_side.
Qed.

Lemma silently_pass (p : Poll) : silently (pass p) (pass p).
Proof. pose proof silently_loop. unfold pass. side_by_side. Qed.

Lemma silently_passes (ps : list Poll) : silently (passes ps) (passes ps).
Proof.
  induction ps as [|p ps IH]; cbn [passes]; [apply silently_ret|].
  apply silently_bind; [apply silently_pass | intros _; exact IH].
Qed.

Lemma passes_silently (ps : list Poll) (s : State) :
  passes_state ps (mute s) = mute (passes_state ps s) /\
  erasure (passes_trace ps s) (passes_trace ps (mute s)).
Proof.
  pose proof (silently_passes ps s) as H.
  rewrite !passes_run in H. destruct H as (_ & H1 & H2). auto.
Qed.

Lemma erasure_filter (keep : Event -> bool) (t t' : list Event) :
  (forall n, keep (AudioPlay n) = false) ->
  filter keep audio_glyph = [] ->
  erasure t t' -> filter keep t' = filter keep t.
Proof.
  intros Hplay Hglyph H. induction H.
  - reflexivity.
  - cbn [filter]. rewrite IHerasure. reflexivity.
  - cbn [filter]. rewrite Hplay. exact IHerasure.
  - rewrite filter_app, Hglyph. exact IHerasure.
Qed.

Lemma erasure_counts (t t' : list Event) :
  erasure t t' ->
  frames_in t' = frames_in t /\ toggles_in t' = toggles_in t /\
  shoots_in t' = shoots_in t.
Proof.
  intros H. unfold frames_in, toggles_in, shoots_in.
  repeat split; f_equal; apply erasure_filter; trivial.
Qed.

Lemma mute_of_silent (s : State) :
  audioEnabled s = false -> mute (set_audioEnabled true s) = s.
Proof. destruct s. cbn. intros ->. reflexivity. Qed.

Lemma playAudio_disabled (track : AudioTrack) (s : State) :
  audioEnabled s = false -> playAudio track s = Done tt s [].
Proof.
  intros H. unfold playAudio. rewrite bind_gets, H. reflexivity.
Qed.

(** [audioEnabled] is written by [setup] only. *)
Lemma passes_state_audio (ps : list Poll) (s : State) :
  audioEnabled (passes_state ps s) = audioEnabled s.
Proof.
  revert s. induction ps as [|p ps IH]; intros s; [reflexivity|].
  cbn [passes_state]. rewrite IH.
  destruct (pass_state_globals p s) as (_ & _ & -> & _).
  destruct (buttons_state_globals p (at_poll p s)) as (_ & _ & -> & _).
  destruct (after_shoot_globals p (at_poll p s)) as (_ & _ & -> & _).
  reflexivity.
Qed.

Lemma buttons_trace_plays (p : Poll) (s : State) :
  audioEnabled s = false -> audio_plays (buttons_trace p s) = [].
Proof.
  intros H. unfold buttons_trace. rewrite !audio_plays_app.
  destruct (togglePortalMode_calls s) as (_ & _ & T & _).
  destruct (shootPortal_calls (after_toggle p s)) as (_ & _ & S & _).
  destruct (after_toggle_globals p s) as (_ & _ & A & _).
  rewrite A, H in S. rewrite H in T.
  destruct (toggle_fires p s), (shoot_fires p s); rewrite ?T, ?S; reflexivity.
Qed.

Lemma pass_trace_plays (p : Poll) (s : State) :
  audioEnabled s = false -> audio_plays (pass_trace p s) = [].
Proof.
  intros H. unfold pass_trace, loop_trace. rewrite !audio_plays_app.
  rewrite buttons_trace_plays by exact H.
  destruct (onboard_trace_quiet (buttons_state p (at_poll p s))) as (_ & _ & -> & _).
  destruct (periodic_trace_quiet (onboard_state (buttons_state p (at_poll p s))))
    as (_ & _ & ->).
  reflexivity.
Qed.

Lemma passes_trace_plays (ps : list Poll) (s : State) :
  audioEnabled s = false -> audio_plays (passes_trace ps s) = [].
Proof.
  revert s. induction ps as [|p ps IH]; intros s H; [reflexivity|].
  cbn [passes_trace]. rewrite audio_plays_app, pass_trace_plays by exact H.
  apply IH. change (audioEnabled (passes_state [p] s) = false).
  rewrite passes_state_audio. exact H.
Qed.

Lemma setup_without_audio (s : State) :
  let boot := mkBoot true false in
  returns (setup boot s) = true /\
  audioEnabled (run_state (setup boot) s) = false /\
  filter is_audio_command (run_trace (setup boot) s) = [] /\
  (frames_in (run_trace (setup boot) s)
   = if isShooting s then 3 else 4)%nat.
Proof. by_running s. Qed.

(** A run without sound, set against the run with sound from the same
    state. *)
Lemma silent_run_against_audible :
  forall (s : State) (ps : list Poll) (track : AudioTrack),
    let boot := mkBoot true false in
    let s1 := run_state (setup boot) s in
    let audible := set_audioEnabled true s1 in
    setup boot s = Done tt s1 (run_trace (setup boot) s) /\
    audioEnabled s1 = false /\
    filter is_audio_command (run_trace (setup boot) s) = [] /\
    sketch boot ps s
      = Done tt (passes_state ps s1)
          (run_trace (setup boot) s ++ passes_trace ps s1) /\
    audioEnabled (passes_state ps s1) = false /\
    audio_plays (passes_trace ps s1) = [] /\
    playAudio track (passes_state ps s1) = Done tt (passes_state ps s1) [] /\
    passes_state ps s1 = mute (passes_state ps audible) /\
    erasure (passes_trace ps audible) (passes_trace ps s1) /\
    frames_in (passes_trace ps s1) = frames_in (passes_trace ps audible) /\
    toggles_in (passes_trace ps s1) = toggles_in (passes_trace ps audible) /\
    shoots_in (passes_trace ps s1) = shoots_in (passes_trace ps audible) /\
    currentMode (passes_state ps s1) = currentMode (passes_state ps audible) /\
    totalPortalsFired (passes_state ps s1)
      = totalPortalsFired (passes_state ps audible) /\
    pwm (passes_state ps s1) = pwm (passes_state ps audible).
Proof.
  intros s ps track boot s1 audible.
  destruct (setup_without_audio s) as (R & A & C & _).
  fold boot in R, A, C. fold s1 in A.
  assert (D : setup boot s = Done tt s1 (run_trace (setup boot) s))
    by (apply run_done, R).
  assert (A' : audioEnabled (passes_state ps s1) = false)
    by (rewrite passes_state_audio; exact A).
  destruct (passes_silently ps audible) as (E1 & E2).
  unfold audible in E1, E2 at 2. rewrite (mute_of_silent s1 A) in E1, E2.
  fold audible in E1.
  split; [exact D|]. split; [exact A|]. split; [exact C|].
  split.
  { unfold sketch. rewrite (bind_Done _ _ _ _ _ _ D), passes_run. reflexivity. }
  split; [exact A'|].
  split; [apply passes_trace_plays, A|].
  split; [apply playAudio_disabled, A'|].
  split; [exact E1|]. split; [exact E2|].
  destruct (erasure_counts _ _ E2) as (-> & -> & ->).
  rewrite E1. repeat split.
Qed.

(* ===================================================================== *)
(** ** The sketch as a whole *)
(* ===================================================================== *)

(** No loop of the model is ever cut short: the sketch either hangs in
    [setup] (display missing) or completes every pass asked of it. *)
Lemma sketch_total (b : Boot) (ps : list Poll) (s : State) :
  sketch b ps s <> OutOfFuel.
Proof.
  destruct b as [[|] audio]; unfold sketch.
  - rewrite (bind_Done _ _ _ _ _ _ (run_done _ _ (setup_returns audio s))).
    rewrite passes_run. discriminate.
  - unfold bind. rewrite setup_without_display. discriminate.
Qed.



(** Sanity checks of the machine arithmetic and of the constant tables. *)
Example wrap_int_examples :
  wrap_int 32767 = 32767 /\ wrap_int 32768 = -32768 /\ wrap_int (-32769) = 32767.
Proof. repeat split. Qed.

Example ulong_sub_wraps : ulong_sub 5 4294967290 = 11.
Proof. reflexivity. Qed.

Example timer_register_after_setup : TCCR0B ready0 = 2.
Proof. reflexivity. Qed.

Example ready_board :
  (currentMode ready0, isShooting ready0, audioEnabled ready0,
   totalPortalsFired ready0, pwm ready0 BLUE_LED_PIN, pwm ready0 RED_LED_PIN,
   clock ready0)
  = (BLUE_MODE, false, true, 0, 30, 0, 8500).
Proof. vm_compute. reflexivity. Qed.

(* ===================================================================== *)
(** ** Relations kept by every statement *)
(* ===================================================================== *)

Section Keeping.

Variable I : State -> State -> list Event -> Prop.
Hypothesis I_stay : forall s, I s s [].
Hypothesis I_then :
  forall s s1 s2 t1 t2, I s s1 t1 -> I s1 s2 t2 -> I s s2 (t1 ++ t2).

Lemma keeps_ret {A} (a : A) : keeps I (ret a).
Proof. intros s. apply I_stay. Qed.

Lemma keeps_gets {A} (f : State -> A) : keeps I (gets f).
Proof. intros s. apply I_stay. Qed.

Lemma keeps_bind {A B} (m : M A) (k : A -> M B) :
  keeps I m -> (forall a, keeps I (k a)) -> keeps I (bind m k).
Proof.
  intros Hm Hk s. specialize (Hm s). unfold bind.
  destruct (m s) as [a s1 t1 | s1 t1 |]; [|exact Hm|exact Logic.I].
  specialize (Hk a s1). destruct (k a s1) as [b s2 t2 | s2 t2 |];
    cbn; eauto.
Qed.

Lemma keeps_when (c : bool) (body : M unit) :
  keeps I body -> keeps I (when c body).
Proof. destruct c; [auto | intros _; apply keeps_ret]. Qed.

Lemma keeps_for_loop (fuel : nat) (i : Z) (cond : Z -> bool) (next : Z -> Z)
    (body : Z -> M unit) :
  (forall j, keeps I (body j)) -> keeps I (for_loop fuel i cond next body).
Proof.
  intros Hb. revert i. induction fuel as [|fuel IH]; intros i.
  - intros s. exact Logic.I.
  - cbn [for_loop]. destruct (cond i); [|apply keeps_ret].
    apply keeps_bind; [apply Hb | intros _; apply IH].
Qed.

Lemma keeps_forever {A} : keeps I (@forever A).
Proof. intros s. apply I_stay. Qed.

End Keeping.

Lemma total_delay_app (t1 t2 : list Event) :
  total_delay (t1 ++ t2) = total_delay t1 + total_delay t2.
Proof.
  induction t1 as [|e t1 IH]; [reflexivity|].
  destruct e; cbn [app total_delay]; rewrite ?IH; lia.
Qed.

Lemma duty_after_app (t1 t2 : list Event) (f : Z -> Z) :
  duty_after (t1 ++ t2) f = duty_after t2 (duty_after t1 f).
Proof.
  revert f. induction t1 as [|e t1 IH]; intros f; [reflexivity|].
  destruct e; cbn [app duty_after]; apply IH.
Qed.

Lemma metered_stay (s : State) : metered s s [].
Proof. split; [cbn; lia | reflexivity]. Qed.

Lemma metered_then (s s1 s2 : State) (t1 t2 : list Event) :
  metered s s1 t1 -> metered s1 s2 t2 -> metered s s2 (t1 ++ t2).
Proof.
  intros (C1 & P1) (C2 & P2). split.
  - rewrite total_delay_app. lia.
  - rewrite duty_after_app, <- P1. exact P2.
Qed.

Lemma metered_emit (e : Event) : unmetered e = true -> keeps metered (emit e).
Proof.
  intros H s. cbn. destruct e; try discriminate; split; cbn; first [lia | reflexivity].
Qed.

Lemma metered_modify (g : State -> State) :
  (forall s, clock (g s) = clock s /\ pwm (g s) = pwm s) ->
  keeps metered (modify g).
Proof.
  intros H s. destruct (H s) as (Hc & Hp). split; cbn; [lia | exact Hp].
Qed.

Lemma metered_delay (ms : Z) : keeps metered (delay ms).
Proof. intros s. split; cbn; [lia | reflexivity]. Qed.

Lemma metered_analogWrite (pin v : Z) : keeps metered (analogWrite pin v).
Proof. intros s. split; cbn; [lia | reflexivity]. Qed.

Lemma metered_digitalRead (p : Poll) (pin : Z) :
  keeps metered (digitalRead p pin).
Proof. intros s. split; cbn; [lia | reflexivity]. Qed.

Lemma metered_getTextBounds (text : string) (size : Z) :
  keeps metered (getTextBounds text size).
Proof. intros s. split; cbn; [lia | reflexivity]. Qed.

Lemma metered_begin (b : Boot) :
  keeps metered (display_begin b) /\ keeps metered (audio_begin b).
Proof. split; intros s; split; cbn; first [lia | reflexivity]. Qed.

(** Stepping through the statements of a function. *)
Ltac meter_step :=
  lazymatch goal with
  | |- keeps metered (bind _ _) =>
      apply (keeps_bind metered metered_then); [|intros ?]
  | |- keeps metered (ret _) => apply (keeps_ret metered metered_stay)
  | |- keeps metered (gets _) => apply (keeps_gets metered metered_stay)
  | |- keeps metered millis => apply (keeps_gets metered metered_stay)
  | |- keeps metered forever => apply (keeps_forever metered metered_stay)
  | |- keeps metered (emit _) => apply metered_emit; reflexivity
  | |- keeps metered (pinMode _ _) => apply metered_emit; reflexivity
  | |- keeps metered (digitalWrite _ _) => apply metered_emit; reflexivity
  | |- keeps metered (delay _) => apply metered_delay
  | |- keeps metered (analogWrite _ _) => apply metered_analogWrite
  | |- keeps metered (digitalRead _ _) => apply metered_digitalRead
  | |- keeps metered (getTextBounds _ _) => apply metered_getTextBounds
  | |- keeps metered (display_begin _) => apply metered_begin
  | |- keeps metered (audio_begin _) => apply metered_begin
  | |- keeps metered (when _ _) => apply (keeps_when metered metered_stay)
  | |- keeps metered (for_loop _ _ _ _ _) =>
      apply (keeps_for_loop metered metered_stay metered_then); intros ?
  | |- keeps metered (modify _) =>
      apply metered_modify; intros ?; split; reflexivity
  | |- keeps metered (if ?c then _ else _) => destruct c
  | |- keeps metered (match ?o with Some _ => _ | None => _ end) => destruct o
  | |- keeps metered (let _ := _ in _) => cbv zeta
  | |- keeps metered _ => solve [auto]
  end.

Ltac meter := repeat meter_step.

Lemma metered_showTextAt (text : string) (x y size : Z) :
  keeps metered (showTextAt text x y size).
Proof. unfold showTextAt. meter. Qed.

Lemma metered_showCenteredText (text : string) (y size : Z) :
  keeps metered (showCenteredText text y size).
Proof. unfold showCenteredText. meter. Qed.

Lemma metered_displayMessage (l1 : string) (l2 : option string) (ms : Z) :
  keeps metered (displayMessage l1 l2 ms).
Proof. pose proof metered_showCenteredText. unfold displayMessage. meter. Qed.

Lemma metered_drawPowerBars (x y count : Z) :
  keeps metered (drawPowerBars x y count).
Proof. unfold drawPowerBars. meter. Qed.

Lemma metered_playAudio (track : AudioTrack) : keeps metered (playAudio track).
Proof. unfold playAudio. meter. Qed.

Lemma metered_fadeTransition (fromPin toPin : Z) :
  keeps metered (fadeTransition fromPin toPin).
Proof. unfold fadeTransition. meter. Qed.

Lemma metered_setIdleMode : keeps metered setIdleMode.
Proof. unfold setIdleMode. meter. Qed.

Lemma metered_updateOnboardLED : keeps metered updateOnboardLED.
Proof. unfold updateOnboardLED. meter. Qed.

Lemma metered_performShootingEffect (pin : Z) :
  keeps metered (performShootingEffect pin).
Proof. unfold performShootingEffect. meter. Qed.

Lemma metered_runStartupSequence : keeps metered runStartupSequence.
Proof.
  pose proof metered_displayMessage. pose proof metered_showTextAt.
  unfold runStartupSequence. meter.
Qed.

Lemma metered_updateMainDisplay : keeps metered updateMainDisplay.
Proof.
  pose proof metered_showTextAt. pose proof metered_drawPowerBars.
  unfold updateMainDisplay. meter.
Qed.

Lemma metered_updateDisplayPeriodically :
  keeps metered updateDisplayPeriodically.
Proof.
  pose proof metered_updateMainDisplay. unfold updateDisplayPeriodically. meter.
Qed.

Lemma metered_autoSwitchMode : keeps metered autoSwitchMode.
Proof.
  pose proof metered_displayMessage. pose proof metered_fadeTransition.
  unfold autoSwitchMode. meter.
Qed.

Lemma metered_shootPortal : keeps metered shootPortal.
Proof.
  pose proof metered_playAudio. pose proof metered_performShootingEffect.
  pose proof metered_autoSwitchMode. pose proof metered_updateMainDisplay.
  unfold shootPortal. meter.
Qed.

Lemma metered_togglePortalMode : keeps metered togglePortalMode.
Proof.
  pose proof metered_playAudio. pose proof metered_displayMessage.
  pose proof metered_fadeTransition. pose proof metered_updateMainDisplay.
  unfold togglePortalMode. meter.
Qed.

Lemma metered_handleButtons (p : Poll) : keeps metered (handleButtons p).
Proof.
  pose proof metered_togglePortalMode. pose proof metered_shootPortal.
  unfold handleButtons. meter.
Qed.

Lemma metered_loop (p : Poll) : keeps metered (loop p).
Proof.
  pose proof metered_handleButtons. pose proof metered_updateOnboardLED.
  pose proof metered_updateDisplayPeriodically.
  unfold loop. meter.
Qed.

Lemma metered_setup (b : Boot) : keeps metered (setup b).
Proof.
  pose proof metered_playAudio. pose proof metered_runStartupSequence.
  pose proof metered_setIdleMode. pose proof metered_updateMainDisplay.
  unfold setup. meter.
Qed.

(** What [keeps metered] says of a function that returns. *)
Lemma metered_run (m : M unit) (s : State) :
  keeps metered m -> returns (m s) = true ->
  clock (run_state m s) = clock s + total_delay (run_trace m s) /\
  pwm (run_state m s) = duty_after (run_trace m s) (pwm s).
Proof.
  intros K R. specialize (K s). unfold run_state, run_trace.
  destruct (m s); try discriminate. exact K.
Qed.

(* ===================================================================== *)
(** ** How long the operations block *)
(* ===================================================================== *)

Lemma togglePortalMode_delays (s : State) :
  total_delay (run_trace togglePortalMode s) = 1320 /\
  filter is_read (run_trace togglePortalMode s) = [].
Proof. by_running s. Qed.

Lemma shootPortal_delays (s : State) :
  total_delay (run_trace shootPortal s) = 4800 /\
  filter is_read (run_trace shootPortal s) = [].
Proof. by_running s. Qed.

Lemma updateMainDisplay_delays (s : State) :
  total_delay (run_trace updateMainDisplay s) = 0.
Proof. by_running s. Qed.

Lemma togglePortalMode_clock (s : State) :
  clock (run_state togglePortalMode s) = clock s + 1320.
Proof.
  destruct (metered_run _ s metered_togglePortalMode (togglePortalMode_returns s))
    as (-> & _).
  destruct (togglePortalMode_delays s) as (-> & _). reflexivity.
Qed.

Lemma shootPortal_clock (s : State) :
  clock (run_state shootPortal s) = clock s + 4800.
Proof.
  destruct (metered_run _ s metered_shootPortal (shootPortal_returns s))
    as (-> & _).
  destruct (shootPortal_delays s) as (-> & _). reflexivity.
Qed.

(** X1. Both operations block the main loop for a fixed time, whatever
    the state: a toggle for 1320 ticks (1000 of banner, 16 fade steps of
    20) and a shoot for 4800 ticks (8 pulses of 24 steps of 15, 100 of
    flash, 1500 of banner, 320 of fade); meanwhile no button line is
    read. *)
Theorem X1_blocking_times :
  forall (s : State),
    clock (run_state togglePortalMode s) = clock s + 1320 /\
    clock (run_state shootPortal s) = clock s + 4800 /\
    filter is_read (run_trace togglePortalMode s) = [] /\
    filter is_read (run_trace shootPortal s) = [].
Proof.
  intros s.
  split; [apply togglePortalMode_clock|].
  split; [apply shootPortal_clock|].
  split; [apply togglePortalMode_delays | apply shootPortal_delays].
Qed.

Lemma after_toggle_clock (p : Poll) (s : State) :
  clock (after_toggle p s)
  = clock s + (if toggle_fires p s then 1320 else 0).
Proof.
  unfold after_toggle. destruct (toggle_fires p s); [|lia].
  unfold stamp. cbn. apply togglePortalMode_clock.
Qed.

Lemma after_shoot_clock (p : Poll) (s : State) :
  clock (after_shoot p s)
  = clock s + (if toggle_fires p s then 1320 else 0)
    + (if shoot_fires p s then 4800 else 0).
Proof.
  unfold after_shoot. destruct (shoot_fires p s).
  - unfold stamp. cbn. rewrite shootPortal_clock, after_toggle_clock. reflexivity.
  - rewrite after_toggle_clock. lia.
Qed.

Lemma after_shoot_stamp (p : Poll) (s : State) :
  lastButtonPress (after_shoot p s)
  = (if toggle_fires p s || shoot_fires p s
     then wrap_ulong (clock (after_shoot p s)) else lastButtonPress s).
Proof.
  unfold after_shoot. destruct (shoot_fires p s).
  - rewrite orb_true_r. reflexivity.
  - rewrite orb_false_r. unfold after_toggle.
    destruct (toggle_fires p s); reflexivity.
Qed.

(** The clock and the stamp after one pass. *)
Lemma pass_clock :
  forall (p : Poll) (s : State),
    let s0 := at_poll p s in
    clock (pass_state p s)
    = clock s + slack p + 10
      + (if toggle_fires p s0 then 1320 else 0)
      + (if shoot_fires p s0 then 4800 else 0) /\
    lastButtonPress (pass_state p s)
    = (if toggle_fires p s0 || shoot_fires p s0
       then wrap_ulong (clock s + slack p
                        + (if toggle_fires p s0 then 1320 else 0)
                        + (if shoot_fires p s0 then 4800 else 0))
       else lastButtonPress s).
Proof.
  intros p s s0.
  destruct (pass_state_globals p s) as (_ & _ & _ & _ & _ & _ & -> & -> & _).
  destruct (buttons_state_globals p s0) as (_ & _ & _ & _ & _ & _ & Hc & Hl & _).
  fold s0. rewrite Hc, Hl, after_shoot_stamp, after_shoot_clock.
  change (clock s0) with (clock s + slack p).
  change (lastButtonPress s0) with (lastButtonPress s).
  split; [lia | reflexivity].
Qed.

(** X2. The length of one pass of the main loop: the 10 ticks of its
    closing delay, plus 1320 if the poll accepts a toggle, plus 4800 if
    it accepts a shoot. An accepted action is stamped when its animation
    ends, not when the button went down: [lastButtonPress] then holds the
    clock reading at the end of the last accepted action of the poll. *)
Theorem X2_pass_duration :
  forall (p : Poll) (s : State),
    let s0 := at_poll p s in
    let s' := run_state (pass p) s in
    pass p s = Done tt (pass_state p s) (pass_trace p s) /\
    clock s'
    = clock s + slack p + 10
      + (if toggle_fires p s0 then 1320 else 0)
      + (if shoot_fires p s0 then 4800 else 0) /\
    lastButtonPress s'
    = (if toggle_fires p s0 || shoot_fires p s0
       then wrap_ulong (clock s' - 10) else lastButtonPress s).
Proof.
  intros p s s0 s'. split; [apply pass_run|].
  destruct (pass_clock p s) as (C & L). fold s0 in C, L.
  assert (E : s' = pass_state p s)
    by (unfold s', run_state; rewrite pass_run; reflexivity).
  rewrite E, C, L. split; [reflexivity|].
  destruct (toggle_fires p s0 || shoot_fires p s0); [f_equal; lia | reflexivity].
Qed.

(* ===================================================================== *)
(** ** The shooting effect *)
(* ===================================================================== *)

Lemma performShootingEffect_calls (pin : Z) (s : State) :
  returns (performShootingEffect pin s) = true /\
  run_trace (performShootingEffect pin) s = effect_calls pin.
Proof. vm_compute. split; reflexivity. Qed.

Lemma effect_calls_summary (pin : Z) :
  total_delay (effect_calls pin) = 2980 /\
  map fst (duty_writes (effect_calls pin)) = repeat pin 193 /\
  forallb (fun v => (DIM_BRIGHTNESS <=? v) && (v <=? MAX_BRIGHTNESS))
    (map snd (duty_writes (effect_calls pin))) = true.
Proof. vm_compute. repeat split. Qed.

(** Writes to one pin leave the other pins alone. *)
Lemma duty_after_other_pin (tr : list Event) (f : Z -> Z) (pin q : Z) :
  Forall (fun pv => fst pv = pin) (duty_writes tr) -> q <> pin ->
  duty_after tr f q = f q.
Proof.
  revert f. induction tr as [|e tr IH]; intros f Hall Hq; [reflexivity|].
  destruct e; cbn [duty_after duty_writes] in *; try (apply IH; assumption).
  apply Forall_cons_iff in Hall. destruct Hall as (Hpin & Hrest).
  cbn in Hpin. rewrite IH by assumption. unfold write_duty. rewrite Hpin.
  apply Z.eqb_neq in Hq. rewrite Hq. reflexivity.
Qed.

Lemma Forall_fst_of_map {B} (l : list (Z * B)) (pin : Z) (n : nat) :
  map fst l = repeat pin n -> Forall (fun pv => fst pv = pin) l.
Proof.
  revert n. induction l as [|x l IH]; intros n H; [constructor|].
  destruct n as [|n]; [discriminate|]. cbn in H.
  injection H as Hx Hl. constructor; [exact Hx | eapply IH; exact Hl].
Qed.

(** X3. The shooting effect on a pin is eight identical pulses followed
    by a flash: each pulse ramps the duty up 30, 50, ..., 250 and down
    255, 235, ..., 35 (so the rising ramp stops short of full brightness
    and the falling ramp short of dim brightness), one step every 15
    ticks; then the pin is set to 255 and held for 100 ticks. It takes
    2980 ticks, writes only that pin, never a duty outside 30..255, and
    leaves the pin at 255 and every other pin as it was. The pin is a
    pin number as [analogWrite] takes it, an 8-bit unsigned value: the
    statement is for [pin] in 0..255 (the sketch passes 5 or 6). *)
Theorem X3_shooting_effect :
  forall (pin : Z) (s : State),
    0 <= pin <= 255 ->
    performShootingEffect pin s
      = Done tt (run_state (performShootingEffect pin) s) (effect_calls pin) /\
    pulse_up = [30; 50; 70; 90; 110; 130; 150; 170; 190; 210; 230; 250] /\
    pulse_down = [255; 235; 215; 195; 175; 155; 135; 115; 95; 75; 55; 35] /\
    clock (run_state (performShootingEffect pin) s) = clock s + 2980 /\
    pwm (run_state (performShootingEffect pin) s) pin = MAX_BRIGHTNESS /\
    (forall q, q <> pin ->
       pwm (run_state (performShootingEffect pin) s) q = pwm s q) /\
    Forall (fun pv => fst pv = pin /\
                      DIM_BRIGHTNESS <= snd pv <= MAX_BRIGHTNESS)
      (duty_writes (effect_calls pin)).
Proof.
  intros pin s _.
  destruct (performShootingEffect_calls pin s) as (R & T).
  destruct (metered_run _ s (metered_performShootingEffect pin) R) as (C & P).
  destruct (effect_calls_summary pin) as (D & Hpins & Hvals).
  rewrite T in C, P.
  split; [rewrite (run_done _ _ R), T; reflexivity|].
  split; [reflexivity|]. split; [reflexivity|].
  split; [rewrite C, D; reflexivity|].
  split.
  { rewrite P. unfold effect_calls. rewrite duty_after_app. cbn.
    unfold write_duty. rewrite Z.eqb_refl. reflexivity. }
  split.
  { intros q Hq. rewrite P.
    apply duty_after_other_pin with (pin := pin); [|exact Hq].
    eapply Forall_fst_of_map, Hpins. }
  apply Forall_forall. intros pv Hin.
  split.
  - pose proof (Forall_fst_of_map _ _ _ Hpins) as F.
    rewrite Forall_forall in F. apply F, Hin.
  - rewrite forallb_forall in Hvals.
    specialize (Hvals (snd pv) (in_map snd _ _ Hin)).
    apply andb_prop in Hvals. destruct Hvals as (A & B).
    apply Z.leb_le in A, B. auto.
Qed.

Lemma X3_shooting_effect_witness :
  0 <= BLUE_LED_PIN <= 255 /\
  RED_LED_PIN <> BLUE_LED_PIN /\
  pwm (run_state (performShootingEffect BLUE_LED_PIN) ready0) BLUE_LED_PIN
  = MAX_BRIGHTNESS /\
  pwm (run_state (performShootingEffect BLUE_LED_PIN) ready0) RED_LED_PIN
  = pwm ready0 RED_LED_PIN.
Proof.
  assert (B : 0 <= BLUE_LED_PIN <= 255) by (unfold BLUE_LED_PIN; lia).
  assert (N : RED_LED_PIN <> BLUE_LED_PIN) by (vm_compute; discriminate).
  split; [exact B|]. split; [exact N|].
  destruct (X3_shooting_effect BLUE_LED_PIN ready0 B)
    as (_ & _ & _ & _ & P & H & _).
  split; [exact P | apply H, N].
Defined.

(* ===================================================================== *)
(** ** What a run adds up to *)
(* ===================================================================== *)

Lemma pass_counter (p : Poll) (s : State) :
  totalPortalsFired (pass_state p s)
  = (if shoot_fires p (at_poll p s) then int_add (totalPortalsFired s) 1
     else totalPortalsFired s).
Proof.
  destruct (pass_state_globals p s) as (_ & _ & _ & -> & _).
  destruct (buttons_state_globals p (at_poll p s)) as (_ & _ & _ & -> & _).
  destruct (after_shoot_globals p (at_poll p s)) as (_ & _ & _ & ->).
  reflexivity.
Qed.

Lemma pass_mode (p : Poll) (s : State) :
  currentMode (pass_state p s)
  = (if xorb (toggle_fires p (at_poll p s)) (shoot_fires p (at_poll p s))
     then other_mode (currentMode s) else currentMode s).
Proof.
  destruct (pass_state_globals p s) as (-> & _).
  destruct (buttons_state_globals p (at_poll p s)) as (-> & _).
  destruct (after_shoot_globals p (at_poll p s)) as (-> & _).
  destruct (after_toggle_globals p (at_poll p s)) as (-> & _).
  change (currentMode (at_poll p s)) with (currentMode s).
  destruct (toggle_fires p (at_poll p s)), (shoot_fires p (at_poll p s));
    cbn [xorb]; rewrite ?other_mode_involutive; reflexivity.
Qed.

(** The counter over a run. *)
Lemma passes_counter :
  forall (ps : list Poll) (s : State) (x : Z),
    totalPortalsFired s = wrap_int x ->
    totalPortalsFired (passes_state ps s)
    = wrap_int (x + Z.of_nat (shoots_in (passes_trace ps s))).
Proof.
  induction ps as [|p ps IH]; intros s x Hx.
  - cbn. rewrite Z.add_0_r. exact Hx.
  - cbn [passes_state passes_trace]. rewrite shoots_in_app.
    destruct (pass_trace_actions p s) as (_ & ->).
    pose proof (pass_counter p s) as Hc.
    destruct (shoot_fires p (at_poll p s)).
    + rewrite (IH (pass_state p s) (x + 1)).
      * f_equal. lia.
      * rewrite Hc, Hx. apply int_add_wrap.
    + rewrite (IH (pass_state p s) x) by congruence. f_equal.
Qed.

(** X4. The fired counter counts the accepted shoots, as a 16-bit [int]:
    after any number of passes it has advanced by the number of shoots
    accepted in them (and by nothing else: toggles, refreshes and blinks
    leave it alone). *)
Theorem X4_counter_counts_shoots :
  forall (ps : list Poll) (s : State) (x : Z),
    totalPortalsFired s = wrap_int x ->
    passes ps s = Done tt (passes_state ps s) (passes_trace ps s) /\
    totalPortalsFired (run_state (passes ps) s)
    = wrap_int (x + Z.of_nat (shoots_in (run_trace (passes ps) s))).
Proof.
  intros ps s x Hx. split; [apply passes_run|].
  unfold run_state, run_trace. rewrite passes_run. cbn [state_of trace_of].
  apply passes_counter, Hx.
Qed.

Lemma X4_counter_counts_shoots_witness :
  let ps := [mkPoll 0 HIGH LOW; mkPoll 100 HIGH HIGH; mkPoll 100 LOW LOW] in
  totalPortalsFired ready0 = wrap_int 0 /\
  totalPortalsFired (run_state (passes ps) ready0)
  = wrap_int (0 + Z.of_nat (shoots_in (run_trace (passes ps) ready0))).
Proof.
  intros ps. split; [reflexivity|].
  apply (X4_counter_counts_shoots ps ready0 0). reflexivity.
Defined.

(** The mode over a run. *)
Lemma passes_mode :
  forall (ps : list Poll) (s : State),
    currentMode (passes_state ps s)
    = (if Nat.even (toggles_in (passes_trace ps s)
                    + shoots_in (passes_trace ps s))
       then currentMode s else other_mode (currentMode s)).
Proof.
  induction ps as [|p ps IH]; intros s; [reflexivity|].
  cbn [passes_state passes_trace]. rewrite toggles_in_app, shoots_in_app.
  destruct (pass_trace_actions p s) as (-> & ->).
  rewrite IH, pass_mode.
  set (n := (toggles_in _ + shoots_in _)%nat).
  replace ((if toggle_fires p (at_poll p s) then 1 else 0) + toggles_in (passes_trace ps (pass_state p s)) +
           ((if shoot_fires p (at_poll p s) then 1 else 0) + shoots_in (passes_trace ps (pass_state p s))))%nat
    with ((if toggle_fires p (at_poll p s) then 1 else 0)
          + (if shoot_fires p (at_poll p s) then 1 else 0) + n)%nat
    by (unfold n; lia).
  destruct (toggle_fires p (at_poll p s)), (shoot_fires p (at_poll p s));
    cbn [xorb Nat.add].
  all: try change (Nat.even (S (S n))) with (Nat.even n).
  all: rewrite ?Nat.even_succ, <- ?Nat.negb_even.
  all: destruct (Nat.even n), (currentMode s); reflexivity.
Qed.

(** X5. The mode after a run is decided by the parity of the accepted
    actions: toggles and shoots each flip it once, nothing else changes
    it. *)
Theorem X5_mode_follows_parity :
  forall (ps : list Poll) (s : State),
    let tr := run_trace (passes ps) s in
    passes ps s = Done tt (passes_state ps s) (passes_trace ps s) /\
    currentMode (run_state (passes ps) s)
    = (if Nat.even (toggles_in tr + shoots_in tr)
       then currentMode s else other_mode (currentMode s)).
Proof.
  intros ps s tr. split; [apply passes_run|].
  unfold tr, run_state, run_trace. rewrite passes_run. cbn [state_of trace_of].
  apply passes_mode.
Qed.

(** A press that finds the gate open, then held. *)
Lemma press_acted_on_once :
  forall (p : Poll) (ps : list Poll) (s : State),
    gate_open (at_poll p s) = true ->
    (toggle_line p = LOW -> lastToggleState s = HIGH ->
     Forall (fun q => toggle_line q = LOW) ps ->
       toggles_in (passes_trace (p :: ps) s) = 1%nat) /\
    (shoot_line p = LOW -> lastShootState s = HIGH -> isShooting s = false ->
     Forall (fun q => shoot_line q = LOW) ps ->
       shoots_in (passes_trace (p :: ps) s) = 1%nat).
Proof.
  intros p ps s G.
  destruct (pass_state_globals p s) as (_ & _ & _ & _ & Lt & Ls & _).
  split.
  - intros Hp Hl Hheld. cbn [passes_trace]. rewrite toggles_in_app.
    destruct (pass_trace_actions p s) as (-> & _).
    destruct (held_toggle_is_ignored ps (pass_state p s)) as (-> & _);
      [congruence | assumption |].
    unfold toggle_fires.
    change (lastToggleState (at_poll p s)) with (lastToggleState s).
    rewrite G, Hp, Hl. reflexivity.
  - intros Hp Hl Hflag Hheld. cbn [passes_trace]. rewrite shoots_in_app.
    destruct (pass_trace_actions p s) as (_ & ->).
    destruct (held_shoot_is_ignored ps (pass_state p s)) as (-> & _);
      [congruence | assumption |].
    unfold shoot_fires.
    destruct (after_toggle_globals p (at_poll p s)) as (_ & -> & _ & _ & _ & ->).
    change (lastShootState (at_poll p s)) with (lastShootState s).
    change (isShooting (at_poll p s)) with (isShooting s).
    rewrite G, Hp, Hl, Hflag. reflexivity.
Qed.

(** X6. A press is acted on exactly once. If the gate is open when the
    line is first found low (having been high at the poll before), that
    pass accepts one action, and however long the button is then held no
    later pass accepts another for it. *)
Theorem X6_one_action_per_press :
  forall (p : Poll) (ps : list Poll) (s : State),
    gate_open (at_poll p s) = true ->
    let tr := run_trace (passes (p :: ps)) s in
    passes (p :: ps) s
      = Done tt (passes_state (p :: ps) s) (passes_trace (p :: ps) s) /\
    (toggle_line p = LOW -> lastToggleState s = HIGH ->
     Forall (fun q => toggle_line q = LOW) ps ->
       toggles_in tr = 1%nat) /\
    (shoot_line p = LOW -> lastShootState s = HIGH -> isShooting s = false ->
     Forall (fun q => shoot_line q = LOW) ps ->
       shoots_in tr = 1%nat).
Proof.
  intros p ps s G tr. split; [apply passes_run|].
  unfold tr, run_trace. rewrite passes_run. cbn [trace_of].
  apply press_acted_on_once, G.
Qed.

Lemma X6_one_action_per_press_witness :
  let p := mkPoll 0 LOW LOW in
  let ps := [mkPoll 0 LOW LOW; mkPoll 500 LOW LOW; mkPoll 9000 LOW LOW] in
  toggles_in (run_trace (passes (p :: ps)) ready0) = 1%nat /\
  shoots_in (run_trace (passes (p :: ps)) ready0) = 1%nat.
Proof.
  intros p ps.
  assert (G : gate_open (at_poll p ready0) = true) by (vm_compute; reflexivity).
  destruct (X6_one_action_per_press p ps ready0 G) as (_ & Ht & Hs).
  split.
  - apply Ht; [reflexivity | reflexivity | repeat constructor].
  - apply Hs; [reflexivity | reflexivity | reflexivity | repeat constructor].
Defined.

(* ===================================================================== *)
(** ** The three timers *)
(* ===================================================================== *)

Lemma ulong_elapsed (c k : Z) :
  0 <= k < 4294967296 -> ulong_sub (wrap_ulong (c + k)) (wrap_ulong c) = k.
Proof.
  intros H. unfold ulong_sub, wrap_ulong.
  rewrite Zminus_mod_idemp_l, Zminus_mod_idemp_r.
  replace (c + k - c) with k by lia. apply Z.mod_small. exact H.
Qed.

(** X7. The timers are immune to the rollover of the 32-bit tick counter.
    [k] ticks after a timestamp was taken, whatever the clock read then
    and for every [k] below 2^32: the debounce gate is open exactly when
    [k > 50], and until then [handleButtons] only reads and records the
    lines; in RED mode [updateOnboardLED] inverts the LED exactly when
    [k >= 500] and does nothing before; [updateDisplayPeriodically]
    restarts its timer exactly when [k >= 200]. *)
Theorem X7_timers_survive_rollover :
  forall (p : Poll) (s : State) (k : Z),
    0 <= k < 4294967296 ->
    let s1 := set_clock (clock s + k) (stamp s) in
    let s2 := set_clock (clock s + k)
                (set_lastBlinkTime (wrap_ulong (clock s)) s) in
    let s3 := set_clock (clock s + k)
                (set_lastOLEDUpdate (wrap_ulong (clock s)) s) in
    gate_open s1 = (DEBOUNCE_DELAY <? k) /\
    (k <= DEBOUNCE_DELAY ->
       handleButtons p s1 = Done tt (latch p s1) (reads p)) /\
    blink_due s2 = (BLINK_INTERVAL <=? k) /\
    (currentMode s = RED_MODE ->
       run_trace updateOnboardLED s2
       = (if BLINK_INTERVAL <=? k
          then [DigitalWrite ONBOARD_LED_PIN (negb (onboardLEDState s))]
          else [])) /\
    refresh_due s3 = (OLED_UPDATE_INTERVAL <=? k) /\
    lastOLEDUpdate (run_state updateDisplayPeriodically s3)
    = (if OLED_UPDATE_INTERVAL <=? k then wrap_ulong (clock s + k)
       else wrap_ulong (clock s)).
Proof.
  intros p s k Hk s1 s2 s3.
  assert (G : gate_open s1 = (DEBOUNCE_DELAY <? k)).
  { unfold gate_open, s1, stamp. cbn. rewrite ulong_elapsed by exact Hk.
    reflexivity. }
  assert (B : blink_due s2 = (BLINK_INTERVAL <=? k)).
  { unfold blink_due, s2. cbn. rewrite ulong_elapsed by exact Hk.
    reflexivity. }
  assert (R : refresh_due s3 = (OLED_UPDATE_INTERVAL <=? k)).
  { unfold refresh_due, s3. cbn. rewrite ulong_elapsed by exact Hk.
    reflexivity. }
  split; [exact G|]. split.
  { intros Hle. apply gate_closed_poll. rewrite G. apply Z.ltb_ge. exact Hle. }
  split; [exact B|]. split.
  { intros Hm. unfold run_trace. rewrite updateOnboardLED_run.
    cbn [trace_of]. unfold onboard_trace. rewrite B.
    change (currentMode s2) with (currentMode s). rewrite Hm.
    reflexivity. }
  split; [exact R|].
  unfold run_state. rewrite updateDisplayPeriodically_run.
  cbn [state_of]. unfold periodic_state. rewrite R.
  destruct (OLED_UPDATE_INTERVAL <=? k); reflexivity.
Qed.

Lemma X7_timers_survive_rollover_witness :
  let s := set_clock 4294967290 ready0 in
  gate_open (set_clock (clock s + 51) (stamp s)) = true /\
  wrap_ulong (clock s + 51) = 45.
Proof.
  intros s. split; [|reflexivity].
  destruct (X7_timers_survive_rollover (mkPoll 0 HIGH HIGH) s 51) as (-> & _); [lia | reflexivity].
Defined.

(* ===================================================================== *)
(** ** What a run sends to the audio module and to the LEDs *)
(* ===================================================================== *)

Lemma buttons_trace_cues (p : Poll) (s : State) :
  audioEnabled s = true ->
  audio_plays (buttons_trace p s)
  = (if toggle_fires p s then [track_index SOUND_MODE_SWITCH] else [])
    ++ (if shoot_fires p s
        then [track_index (fire_cue (currentMode (after_toggle p s)))]
        else []).
Proof.
  intros H. unfold buttons_trace. rewrite !audio_plays_app.
  destruct (togglePortalMode_calls s) as (_ & _ & T & _).
  destruct (shootPortal_calls (after_toggle p s)) as (_ & _ & S & _).
  destruct (after_toggle_globals p s) as (_ & _ & A & _).
  rewrite A, H in S. rewrite H in T.
  destruct (toggle_fires p s), (shoot_fires p s); rewrite ?T, ?S; reflexivity.
Qed.

Lemma pass_trace_cues (p : Poll) (s : State) :
  audioEnabled s = true ->
  audio_plays (pass_trace p s)
  = (if toggle_fires p (at_poll p s) then [track_index SOUND_MODE_SWITCH]
     else [])
    ++ (if shoot_fires p (at_poll p s)
        then [track_index
                (fire_cue (currentMode (after_toggle p (at_poll p s))))]
        else []).
Proof.
  intros H. unfold pass_trace, loop_trace. rewrite !audio_plays_app.
  rewrite buttons_trace_cues by exact H.
  destruct (onboard_trace_quiet (buttons_state p (at_poll p s))) as (_ & _ & -> & _).
  destruct (periodic_trace_quiet (onboard_state (buttons_state p (at_poll p s))))
    as (_ & _ & ->).
  rewrite !app_nil_r. reflexivity.
Qed.

(** The cues of a run. *)
Lemma passes_cues :
  forall (ps : list Poll) (s : State),
    audioEnabled s = true ->
    List.length (audio_plays (passes_trace ps s))
      = (toggles_in (passes_trace ps s) + shoots_in (passes_trace ps s))%nat /\
    count_occ Z.eq_dec (audio_plays (passes_trace ps s))
      (track_index SOUND_MODE_SWITCH)
      = toggles_in (passes_trace ps s) /\
    Forall (fun n => 2 <= n <= 4) (audio_plays (passes_trace ps s)).
Proof.
  induction ps as [|p ps IH]; intros s H; [repeat split; constructor|].
  cbn [passes_trace].
  rewrite audio_plays_app, toggles_in_app, shoots_in_app, length_app,
    count_occ_app.
  assert (H' : audioEnabled (pass_state p s) = true).
  { change (audioEnabled (passes_state [p] s) = true).
    rewrite passes_state_audio. exact H. }
  destruct (IH (pass_state p s) H') as (L & C & F). rewrite L, C.
  destruct (pass_trace_actions p s) as (-> & ->).
  rewrite pass_trace_cues by exact H.
  split; [|split].
  - destruct (toggle_fires p (at_poll p s)), (shoot_fires p (at_poll p s));
      cbn; lia.
  - destruct (toggle_fires p (at_poll p s)), (shoot_fires p (at_poll p s));
      destruct (currentMode (after_toggle p (at_poll p s))); reflexivity.
  - apply Forall_app. split; [|exact F].
    destruct (toggle_fires p (at_poll p s)), (shoot_fires p (at_poll p s));
      destruct (currentMode (after_toggle p (at_poll p s)));
      repeat constructor; cbn; lia.
Qed.

(** X8. With audio enabled every accepted action is heard exactly once
    and nothing else is: over any run the tracks started are one
    mode-switch cue (track 4) per accepted toggle and one firing cue
    (track 2 or 3) per accepted shoot; the power-up and power-down tracks
    are never started by the main loop. *)
Theorem X8_one_cue_per_action :
  forall (ps : list Poll) (s : State),
    audioEnabled s = true ->
    let tr := run_trace (passes ps) s in
    passes ps s = Done tt (passes_state ps s) (passes_trace ps s) /\
    List.length (audio_plays tr) = (toggles_in tr + shoots_in tr)%nat /\
    count_occ Z.eq_dec (audio_plays tr) (track_index SOUND_MODE_SWITCH)
      = toggles_in tr /\
    Forall (fun n => 2 <= n <= 4) (audio_plays tr).
Proof.
  intros ps s H tr. split; [apply passes_run|].
  unfold tr, run_trace. rewrite passes_run. cbn [trace_of].
  apply passes_cues, H.
Qed.

Lemma X8_one_cue_per_action_witness :
  let ps := [mkPoll 0 LOW LOW; mkPoll 100 HIGH HIGH; mkPoll 100 HIGH LOW] in
  List.length (audio_plays (run_trace (passes ps) ready0)) = 3%nat.
Proof.
  intros ps.
  destruct (X8_one_cue_per_action ps ready0) as (_ & -> & _);
    [reflexivity | vm_compute; reflexivity].
Defined.

Lemma duty_writes_app (t1 t2 : list Event) :
  duty_writes (t1 ++ t2) = duty_writes t1 ++ duty_writes t2.
Proof.
  induction t1 as [|e t1 IH]; [reflexivity|].
  destruct e; cbn [app duty_writes]; rewrite ?IH; reflexivity.
Qed.

Lemma togglePortalMode_writes (s : State) :
  forallb sound_write (duty_writes (run_trace togglePortalMode s)) = true.
Proof. by_running s. Qed.

Lemma shootPortal_writes (s : State) :
  forallb sound_write (duty_writes (run_trace shootPortal s)) = true.
Proof. by_running s. Qed.

Lemma updateMainDisplay_writes (s : State) :
  duty_writes (run_trace updateMainDisplay s) = [].
Proof. by_running s. Qed.

Lemma setup_writes (b : Boot) (s : State) :
  forallb sound_write (duty_writes (trace_of (setup b s))) = true.
Proof. destruct b as [[|] [|]]; by_running s. Qed.

Lemma onboard_trace_writes (s : State) : duty_writes (onboard_trace s) = [].
Proof.
  unfold onboard_trace.
  destruct (mode_eqb (currentMode s) BLUE_MODE), (blink_due s); reflexivity.
Qed.

Lemma periodic_trace_writes (s : State) : duty_writes (periodic_trace s) = [].
Proof.
  unfold periodic_trace.
  destruct (refresh_due s); [apply updateMainDisplay_writes | reflexivity].
Qed.

Lemma pass_trace_writes (p : Poll) (s : State) :
  forallb sound_write (duty_writes (pass_trace p s)) = true.
Proof.
  unfold pass_trace, loop_trace, buttons_trace.
  rewrite !duty_writes_app, onboard_trace_writes, periodic_trace_writes.
  rewrite !forallb_app.
  set (s0 := at_poll p s).
  repeat (apply andb_true_intro; split); try reflexivity.
  - destruct (toggle_fires p s0); [apply togglePortalMode_writes | reflexivity].
  - destruct (shoot_fires p s0); [apply shootPortal_writes | reflexivity].
Qed.

Lemma passes_trace_writes (ps : list Poll) (s : State) :
  forallb sound_write (duty_writes (passes_trace ps s)) = true.
Proof.
  revert s. induction ps as [|p ps IH]; intros s; [reflexivity|].
  cbn [passes_trace]. rewrite duty_writes_app, forallb_app, pass_trace_writes.
  apply IH.
Qed.

(** X9. Whatever the collaborators answer and whatever the buttons do,
    the sketch writes PWM duties to the two LED channels only (pins 5 and
    6), and every duty it writes is within 0..255. *)
Theorem X9_duty_writes_are_sound :
  forall (b : Boot) (ps : list Poll) (s : State),
    Forall (fun pv => (fst pv = BLUE_LED_PIN \/ fst pv = RED_LED_PIN) /\
                      0 <= snd pv <= 255)
      (duty_writes (trace_of (sketch b ps s))).
Proof.
  intros b ps s.
  assert (H : forallb sound_write (duty_writes (trace_of (sketch b ps s))) = true).
  { unfold sketch, bind. pose proof (setup_writes b s) as Hs.
    destruct (setup b s) as [[] s1 t1 | s1 t1 |]; cbn [trace_of] in *.
    - rewrite passes_run. cbn [preceded trace_of].
      rewrite duty_writes_app, forallb_app, Hs. apply passes_trace_writes.
    - exact Hs.
    - reflexivity. }
  rewrite forallb_forall in H. apply Forall_forall. intros pv Hin.
  specialize (H pv Hin). unfold sound_write in H.
  apply andb_prop in H. destruct H as (H & Hhi).
  apply andb_prop in H. destruct H as (Hpin & Hlo).
  apply Z.leb_le in Hlo, Hhi. apply orb_prop in Hpin.
  split; [|lia].
  destruct Hpin as [E|E]; apply Z.eqb_eq in E; auto.
Qed.

(* ===================================================================== *)
(** ** Housekeeping: the onboard LED and the status frame *)
(* ===================================================================== *)

(** X10. The onboard LED. In BLUE mode every call drives it high and
    leaves the blink state alone. In RED mode a call does nothing until
    500 ticks have gone by since the last blink; then it inverts the
    blink state, drives the pin to the new level and restarts the timer,
    so that no call made less than 500 ticks later does anything: the LED
    changes at most once every 500 ticks. *)
Theorem X10_onboard_led :
  forall (s : State),
    updateOnboardLED s = Done tt (onboard_state s) (onboard_trace s) /\
    (currentMode s = BLUE_MODE ->
       onboard_state s = s /\
       onboard_trace s = [DigitalWrite ONBOARD_LED_PIN HIGH]) /\
    (currentMode s = RED_MODE -> blink_due s = false ->
       onboard_state s = s /\ onboard_trace s = []) /\
    (currentMode s = RED_MODE -> blink_due s = true ->
       onboardLEDState (onboard_state s) = negb (onboardLEDState s) /\
       onboard_trace s
         = [DigitalWrite ONBOARD_LED_PIN (negb (onboardLEDState s))] /\
       forall k, 0 <= k < BLINK_INTERVAL ->
         updateOnboardLED (set_clock (clock s + k) (onboard_state s))
         = Done tt (set_clock (clock s + k) (onboard_state s)) []).
Proof.
  intros s. split; [apply updateOnboardLED_run|].
  unfold onboard_state, onboard_trace.
  split; [intros ->; split; reflexivity|].
  split; [intros -> ->; split; reflexivity|].
  intros Hm Hd. rewrite Hm, Hd. cbn [mode_eqb].
  split; [reflexivity|]. split; [reflexivity|].
  intros k Hk. rewrite updateOnboardLED_run.
  unfold onboard_state, onboard_trace. cbn [currentMode set_clock set_lastBlinkTime set_onboardLEDState].
  rewrite Hm. cbn [mode_eqb].
  assert (E : blink_due
            (set_clock (clock s + k)
               (set_lastBlinkTime (wrap_ulong (clock s))
                  (set_onboardLEDState (negb (onboardLEDState s)) s))) = false).
  { unfold blink_due. cbn. rewrite ulong_elapsed.
    - apply Z.leb_gt. lia.
    - unfold BLINK_INTERVAL in Hk. lia. }
  rewrite E. reflexivity.
Qed.

Lemma X10_onboard_led_witness :
  let s := set_clock 10000 (set_currentMode RED_MODE ready0) in
  onboardLEDState (onboard_state s) = negb (onboardLEDState s) /\
  updateOnboardLED (set_clock (clock s + 499) (onboard_state s))
  = Done tt (set_clock (clock s + 499) (onboard_state s)) [].
Proof.
  intros s.
  destruct (X10_onboard_led s) as (_ & _ & _ & H).
  destruct H as (H1 & _ & H3); [reflexivity | vm_compute; reflexivity |].
  split; [exact H1 | apply H3; unfold BLINK_INTERVAL; lia].
Defined.

Lemma updateMainDisplay_frame (s : State) :
  run_trace updateMainDisplay s
  = (if isShooting s then []
     else status_frame (currentMode s) (audioEnabled s) (totalPortalsFired s)).
Proof. by_running s. Qed.

(** X11. The periodic refresh. A call does nothing until 200 ticks have
    gone by since the last refresh; then it restarts the timer and pushes
    one status frame, or none at all while the shooting flag is set (the
    refresh is skipped, not postponed, since the timer is restarted
    anyway); no call made less than 200 ticks later does anything. *)
Theorem X11_display_refresh_rate :
  forall (s : State),
    updateDisplayPeriodically s
      = Done tt (periodic_state s) (periodic_trace s) /\
    (refresh_due s = false -> periodic_state s = s /\ periodic_trace s = []) /\
    (refresh_due s = true ->
       periodic_state s = set_lastOLEDUpdate (wrap_ulong (clock s)) s /\
       periodic_trace s
         = (if isShooting s then []
            else status_frame (currentMode s) (audioEnabled s)
                   (totalPortalsFired s)) /\
       forall k, 0 <= k < OLED_UPDATE_INTERVAL ->
         updateDisplayPeriodically (set_clock (clock s + k) (periodic_state s))
         = Done tt (set_clock (clock s + k) (periodic_state s)) []).
Proof.
  intros s. split; [apply updateDisplayPeriodically_run|].
  unfold periodic_state, periodic_trace.
  split; [intros ->; split; reflexivity|].
  intros Hd. rewrite Hd.
  split; [reflexivity|]. split; [apply updateMainDisplay_frame|].
  intros k Hk. rewrite updateDisplayPeriodically_run.
  unfold periodic_state, periodic_trace.
  assert (E : refresh_due
            (set_clock (clock s + k)
               (set_lastOLEDUpdate (wrap_ulong (clock s)) s)) = false).
  { unfold refresh_due. cbn. rewrite ulong_elapsed.
    - apply Z.leb_gt. lia.
    - unfold OLED_UPDATE_INTERVAL in Hk. lia. }
  rewrite E. reflexivity.
Qed.

Lemma X11_display_refresh_rate_witness :
  periodic_state ready0 = set_lastOLEDUpdate (wrap_ulong (clock ready0)) ready0 /\
  updateDisplayPeriodically (set_clock (clock ready0 + 199) (periodic_state ready0))
  = Done tt (set_clock (clock ready0 + 199) (periodic_state ready0)) [].
Proof.
  destruct (X11_display_refresh_rate ready0) as (_ & _ & H).
  destruct H as (H1 & _ & H3); [vm_compute; reflexivity|].
  split; [exact H1 | apply H3; unfold OLED_UPDATE_INTERVAL; lia].
Defined.

(** X12. The status frame. While the shooting flag is set
    [updateMainDisplay] makes no call at all. Otherwise it draws exactly
    one frame and changes no variable: the title, the label of the
    current mode ("BLUE" or "RED") and its symbol ("O" or "@") in double
    size, the status line with the audio glyph exactly when audio is
    enabled, the fired counter after "Fired: ", and four power bars three
    pixels apart from column 100. *)
Theorem X12_status_frame :
  forall (s : State),
    updateMainDisplay s
    = Done tt s
        (if isShooting s then []
         else status_frame (currentMode s) (audioEnabled s)
                (totalPortalsFired s)).
Proof.
  intros s. rewrite updateMainDisplay_done, updateMainDisplay_frame.
  reflexivity.
Qed.

(* ===================================================================== *)
(** ** Messages *)
(* ===================================================================== *)

Lemma centered_column_fits (w : Z) :
  0 <= w <= SCREEN_WIDTH ->
  centered_column w = (SCREEN_WIDTH - w) / 2 /\
  0 <= centered_column w /\
  centered_column w + w <= SCREEN_WIDTH /\
  0 <= (SCREEN_WIDTH - (centered_column w + w)) - centered_column w <= 1.
Proof.
  unfold centered_column, wrap_int, wrap_uint, SCREEN_WIDTH. intros H.
  rewrite (Z.mod_small w) by lia.
  rewrite (Z.mod_small (128 - w)) by lia.
  assert (B : 0 <= (128 - w) / 2 <= 64).
  { split; [apply Z.div_pos; lia | apply Z.div_le_upper_bound; lia]. }
  rewrite (Z.mod_small ((128 - w) / 2 + 32768)) by lia.
  pose proof (Z.div_mod (128 - w) 2 ltac:(lia)) as D.
  pose proof (Z.mod_pos_bound (128 - w) 2 ltac:(lia)) as M.
  repeat split; lia.
Qed.

Lemma centered_column_too_wide (w : Z) :
  SCREEN_WIDTH < w < 65536 ->
  centered_column w = (65664 - w) / 2 /\ 64 <= centered_column w <= 32767.
Proof.
  unfold centered_column, wrap_int, wrap_uint, SCREEN_WIDTH. intros H.
  rewrite (Z.mod_small w) by lia.
  replace ((128 - w) mod 65536) with (65664 - w).
  2:{ apply Z.mod_unique with (q := -1); lia. }
  assert (B : 64 <= (65664 - w) / 2 <= 32767).
  { split; [apply Z.div_le_lower_bound; lia|].
    assert ((65664 - w) / 2 < 32768) by (apply Z.div_lt_upper_bound; lia).
    lia. }
  rewrite (Z.mod_small ((65664 - w) / 2 + 32768)) by lia.
  split; lia.
Qed.

Lemma centered_column_range (w : Z) : 0 <= centered_column w <= 32767.
Proof.
  unfold centered_column, wrap_int, wrap_uint, SCREEN_WIDTH.
  pose proof (Z.mod_pos_bound (128 - w mod 65536) 65536 ltac:(lia)) as M.
  assert (B : 0 <= ((128 - w mod 65536) mod 65536) / 2 <= 32767).
  { split; [apply Z.div_pos; lia|].
    assert (((128 - w mod 65536) mod 65536) / 2 < 32768)
      by (apply Z.div_lt_upper_bound; lia).
    lia. }
  rewrite (Z.mod_small (_ / 2 + 32768)) by lia. lia.
Qed.

Lemma showCenteredText_run (text : string) (y : Z) (s : State) :
  showCenteredText text y 1 s = Done tt s (centered_line s text y).
Proof. reflexivity. Qed.

Lemma displayMessage_run (l1 : string) (l2 : option string) (ms : Z)
    (s : State) :
  displayMessage l1 l2 ms s
  = Done tt (if 0 <? ms then set_clock (clock s + ms) s else s)
      ([DClear; DSetTextColor]
       ++ match l2 with
          | None => centered_line s l1 12
          | Some l => centered_line s l1 4 ++ centered_line s l 20
          end
       ++ [DFlush]
       ++ (if 0 <? ms then [Delay ms] else [])).
Proof. unfold displayMessage. destruct l2; destruct (0 <? ms); reflexivity. Qed.

(** X13. A message is one frame of one or two centred lines. With one
    line the text goes to row 12, with two to rows 4 and 20; the frame is
    then held for [delayMs] ticks, and not at all when [delayMs] is zero
    or negative. A line whose reported width [w] fits the 128 columns
    starts at column [(128 - w) / 2], so the two margins differ by at
    most one pixel. A wider line is not centred: the subtraction is done
    on 16-bit unsigned operands, so the column is never negative and the
    text starts at column [(65664 - w) / 2], which is 64 or more. *)
Theorem X13_messages_are_centered :
  forall (l1 : string) (l2 : option string) (ms w : Z) (s : State),
    displayMessage l1 l2 ms s
    = Done tt (if 0 <? ms then set_clock (clock s + ms) s else s)
        ([DClear; DSetTextColor]
         ++ match l2 with
            | None => centered_line s l1 12
            | Some l => centered_line s l1 4 ++ centered_line s l 20
            end
         ++ [DFlush]
         ++ (if 0 <? ms then [Delay ms] else [])) /\
    0 <= centered_column w <= 32767 /\
    (0 <= w <= SCREEN_WIDTH ->
       centered_column w = (SCREEN_WIDTH - w) / 2 /\
       0 <= centered_column w /\
       centered_column w + w <= SCREEN_WIDTH /\
       0 <= (SCREEN_WIDTH - (centered_column w + w)) - centered_column w <= 1) /\
    (SCREEN_WIDTH < w < 65536 ->
       centered_column w = (65664 - w) / 2 /\ 64 <= centered_column w).
Proof.
  intros l1 l2 ms w s.
  split; [apply displayMessage_run|].
  split; [apply centered_column_range|].
  split; [apply centered_column_fits|].
  intros H. destruct (centered_column_too_wide w H) as (E & B).
  split; [exact E | lia].
Qed.

Lemma X13_messages_are_centered_witness :
  centered_column 90 = 19 /\ centered_column 150 = 32757.
Proof.
  destruct (X13_messages_are_centered "" None 0 90 ready0) as (_ & _ & Hfit & _).
  destruct (X13_messages_are_centered "" None 0 150 ready0) as (_ & _ & _ & Hwide).
  split.
  - destruct Hfit as (-> & _); [unfold SCREEN_WIDTH; lia | reflexivity].
  - destruct Hwide as (-> & _); [unfold SCREEN_WIDTH; lia | reflexivity].
Defined.

Lemma upto_cons (i n : Z) : i < n -> upto i n = i :: upto (i + 1) n.
Proof.
  intros H. unfold upto.
  replace (n - i) with (Z.succ (n - (i + 1))) by lia.
  rewrite Z2Nat.inj_succ by lia. cbn [seq map].
  rewrite Z.add_0_r. f_equal.
  rewrite <- seq_shift, map_map. apply map_ext. intros k. lia.
Qed.

Lemma upto_nil (i n : Z) : n <= i -> upto i n = [].
Proof.
  intros H. unfold upto.
  replace (Z.to_nat (n - i)) with 0%nat by lia. reflexivity.
Qed.

Lemma power_bars_loop (x y count : Z) (fuel : nat) (i : Z) (s : State) :
  0 <= i <= count -> count <= INT_MAX -> (Z.to_nat (count - i) < fuel)%nat ->
  for_loop fuel i (fun i => i <? count) (fun i => int_add i 1)
    (fun i => emit (DSetCursor (int_add x (int_mul i 3)) y) ;; emit (DPrint "|"))
    s
  = Done tt s (flat_map (power_bar x y) (upto i count)).
Proof.
  revert i. induction fuel as [|fuel IH]; intros i Hi Hmax Hfuel; [lia|].
  cbn [for_loop]. destruct (i <? count) eqn:E.
  - apply Z.ltb_lt in E.
    rewrite (bind_Done _ _ s s tt (power_bar x y i)) by reflexivity.
    rewrite int_add_in_range by (unfold INT_MIN, INT_MAX in *; lia).
    rewrite IH by lia. rewrite (upto_cons i count E). reflexivity.
  - apply Z.ltb_ge in E. rewrite upto_nil by lia. reflexivity.
Qed.

(** X14. [drawPowerBars(x, y, count)] draws nothing when [count] is zero
    or negative, and otherwise [count] bars, the [i]-th (from 0) at
    column [x + 3 i] of row [y] (in [int] arithmetic); it changes no
    variable. (Shown for every [count] below 512.) *)
Theorem X14_power_bars :
  forall (x y count : Z) (s : State),
    (count <= 0 -> drawPowerBars x y count s = Done tt s []) /\
    (0 <= count < 512 ->
       drawPowerBars x y count s
       = Done tt s (flat_map (power_bar x y) (upto 0 count)) /\
       List.length (upto 0 count) = Z.to_nat count) /\
    (forall i, 0 <= 3 * i <= INT_MAX -> INT_MIN <= x + 3 * i <= INT_MAX ->
       power_bar x y i = [DSetCursor (x + 3 * i) y; DPrint "|"]).
Proof.
  intros x y count s. split; [|split].
  - intros H. unfold drawPowerBars, loop_fuel. cbn [for_loop].
    replace (0 <? count) with false by (symmetry; apply Z.ltb_ge; exact H).
    reflexivity.
  - intros H. split.
    + unfold drawPowerBars. apply power_bars_loop.
      * lia.
      * unfold INT_MAX. lia.
      * unfold loop_fuel. lia.
    + unfold upto. rewrite length_map, length_seq. f_equal. lia.
  - intros i H1 H2. unfold power_bar.
    assert (E : int_mul i 3 = 3 * i).
    { unfold int_mul, wrap_int. unfold INT_MAX in H1.
      rewrite Z.mod_small by lia. lia. }
    rewrite E, int_add_in_range by exact H2. reflexivity.
Qed.

Lemma X14_power_bars_witness :
  drawPowerBars 100 20 4 ready0
  = Done tt ready0
      [ DSetCursor 100 20; DPrint "|"; DSetCursor 103 20; DPrint "|";
        DSetCursor 106 20; DPrint "|"; DSetCursor 109 20; DPrint "|" ] /\
  drawPowerBars 100 20 (-3) ready0 = Done tt ready0 [].
Proof.
  destruct (X14_power_bars 100 20 4 ready0) as (_ & H & _).
  destruct (X14_power_bars 100 20 (-3) ready0) as (H0 & _).
  split.
  - destruct H as (-> & _); [lia | reflexivity].
  - apply H0. lia.
Defined.

(* ===================================================================== *)
(** ** Start-up, when the display answers *)
(* ===================================================================== *)

Lemma prescaler_bits (t : Z) :
  Z.land (Z.lor (Z.land t 248) 2) 7 = 2 /\
  Z.land (Z.lor (Z.land t 248) 2) 248 = Z.land t 248.
Proof.
  rewrite !Z.land_lor_distr_l, <- !Z.land_assoc.
  change (Z.land 248 7) with 0. change (Z.land 248 248) with 248.
  change (Z.land 2 7) with 2. change (Z.land 2 248) with 0.
  rewrite Z.land_0_r, Z.lor_0_r. split; reflexivity.
Qed.

Lemma setup_register (audio : bool) (s : State) :
  TCCR0B (run_state (setup (mkBoot true audio)) s)
  = Z.lor (Z.land (TCCR0B s) 248) 2.
Proof. destruct audio; by_running s. Qed.

Lemma setup_calls (audio : bool) (s : State) :
  let tr := run_trace (setup (mkBoot true audio)) s in
  filter is_pin_mode tr
    = [ PinMode TOGGLE_BUTTON_PIN INPUT_PULLUP;
        PinMode SHOOT_BUTTON_PIN INPUT_PULLUP;
        PinMode BLUE_LED_PIN OUTPUT; PinMode RED_LED_PIN OUTPUT;
        PinMode ONBOARD_LED_PIN OUTPUT ] /\
  filter is_audio_command tr
    = (if audio
       then AudioVolume AUDIO_VOLUME
            :: (if audioEnabled s then [AudioPlay (track_index SOUND_POWER_UP)]
                else [])
       else []) /\
  total_delay tr
    = (if audio then 1000 else 0) + 4300
      + (if audioEnabled s && audio then 3200 else 0) /\
  filter is_read tr = [].
Proof. destruct audio; by_running s. Qed.

Lemma setup_globals (audio : bool) (s : State) :
  let s' := run_state (setup (mkBoot true audio)) s in
  audioEnabled s' = audioEnabled s && audio /\
  currentMode s' = currentMode s /\ isShooting s' = isShooting s /\
  totalPortalsFired s' = totalPortalsFired s /\
  lastButtonPress s' = lastButtonPress s /\
  lastToggleState s' = lastToggleState s /\
  lastShootState s' = lastShootState s.
Proof. destruct audio; by_running s. Qed.

(** X15. When the display answers, [setup] returns with the board
    configured: the two button pins are inputs with pull-up and the three
    LED pins outputs; the three clock-select bits of TCCR0B read 010 and
    its five other bits are as before; the LEDs are idle for the current
    mode. If the audio module answers it is sent the volume (25) and,
    after a second, the power-up track, and nothing else; if not, it is
    sent nothing and [audioEnabled] is cleared ([setup] never sets the
    flag). Mode, counter, shooting flag and the poller's variables are
    untouched, no button is read, and the whole takes 4300 ticks, plus
    1000 if the audio module answers, plus 3200 more if audio is then
    enabled. *)
Theorem X15_setup_configures_board :
  forall (audio : bool) (s : State),
    let boot := mkBoot true audio in
    let s' := run_state (setup boot) s in
    let tr := run_trace (setup boot) s in
    setup boot s = Done tt s' tr /\
    filter is_pin_mode tr
      = [ PinMode TOGGLE_BUTTON_PIN INPUT_PULLUP;
          PinMode SHOOT_BUTTON_PIN INPUT_PULLUP;
          PinMode BLUE_LED_PIN OUTPUT; PinMode RED_LED_PIN OUTPUT;
          PinMode ONBOARD_LED_PIN OUTPUT ] /\
    Z.land (TCCR0B s') 7 = 2 /\
    Z.land (TCCR0B s') 248 = Z.land (TCCR0B s) 248 /\
    idle_leds s' /\
    filter is_audio_command tr
      = (if audio
         then AudioVolume AUDIO_VOLUME
              :: (if audioEnabled s
                  then [AudioPlay (track_index SOUND_POWER_UP)] else [])
         else []) /\
    audioEnabled s' = audioEnabled s && audio /\
    currentMode s' = currentMode s /\ isShooting s' = isShooting s /\
    totalPortalsFired s' = totalPortalsFired s /\
    lastButtonPress s' = lastButtonPress s /\
    filter is_read tr = [] /\
    clock s'
      = clock s + (if audio then 1000 else 0) + 4300
        + (if audioEnabled s && audio then 3200 else 0).
Proof.
  intros audio s boot s' tr.
  pose proof (setup_returns audio s) as R.
  destruct (setup_calls audio s) as (Hpins & Haudio & Hdelay & Hreads).
  destruct (setup_globals audio s) as (Ha & Hm & Hs & Hf & Hl & _).
  destruct (metered_run _ s (metered_setup boot) R) as (Hc & _).
  destruct (prescaler_bits (TCCR0B s)) as (B1 & B2).
  fold boot in Hpins, Haudio, Hdelay, Hreads, Ha, Hm, Hs, Hf, Hl.
  fold tr in Hpins, Haudio, Hdelay, Hreads. fold s' in Ha, Hm, Hs, Hf, Hl.
  split; [apply run_done, R|].
  split; [exact Hpins|].
  unfold s' at 1 2. unfold boot. rewrite !setup_register.
  split; [exact B1|]. split; [exact B2|].
  split; [apply setup_idle|].
  split; [exact Haudio|].
  split; [exact Ha|]. split; [exact Hm|]. split; [exact Hs|].
  split; [exact Hf|]. split; [exact Hl|]. split; [exact Hreads|].
  unfold s'. rewrite Hc. fold tr. rewrite Hdelay. lia.
Qed.

Lemma runStartupSequence_state (s : State) :
  run_state runStartupSequence s
  = set_clock (clock s + (if audioEnabled s then 7500 else 4300)) s.
Proof. fix_flags s; lazy -[Z.add]; f_equal; lia. Qed.

Lemma runStartupSequence_calls (s : State) :
  let tr := run_trace runStartupSequence s in
  returns (runStartupSequence s) = true /\
  frames_in tr = (if audioEnabled s then 4 else 3)%nat /\
  List.length (filter (prints (str_at STARTUP_STRINGS 1)) tr)
    = (if audioEnabled s then 1 else 0)%nat /\
  List.length (filter (prints (str_at STARTUP_STRINGS 2)) tr)
    = (if audioEnabled s then 0 else 1)%nat /\
  List.length (filter (prints "[]") tr) = (if audioEnabled s then 1 else 0)%nat.
Proof. by_running s. Qed.

(** X16. The start-up sequence changes nothing but the clock. It shows
    three screens (title, initializing, ready) in 4300 ticks; the title
    screen says "AUDIO: READY" when audio is enabled and "AUDIO: OFFLINE"
    when it is not; with audio enabled a fourth screen with the portal
    symbols follows and the sequence takes 7500 ticks. *)
Theorem X16_startup_sequence :
  forall (s : State),
    let tr := run_trace runStartupSequence s in
    runStartupSequence s
      = Done tt
          (set_clock (clock s + (if audioEnabled s then 7500 else 4300)) s)
          tr /\
    frames_in tr = (if audioEnabled s then 4 else 3)%nat /\
    List.length (filter (prints "AUDIO: READY") tr)
      = (if audioEnabled s then 1 else 0)%nat /\
    List.length (filter (prints "AUDIO: OFFLINE") tr)
      = (if audioEnabled s then 0 else 1)%nat /\
    List.length (filter (prints "[]") tr)
      = (if audioEnabled s then 1 else 0)%nat.
Proof.
  intros s tr.
  destruct (runStartupSequence_calls s) as (R & F & A & B & C).
  split; [|auto].
  rewrite (run_done _ _ R), runStartupSequence_state. reflexivity.
Qed.

(* ===================================================================== *)
(** ** The onboard LED across an action *)
(* ===================================================================== *)

Lemma playAudio_run (track : AudioTrack) (s : State) :
  playAudio track s
  = Done tt s (if audioEnabled s then [AudioPlay (track_index track)] else []).
Proof.
  unfold playAudio. rewrite bind_gets.
  destruct track, (audioEnabled s); reflexivity.
Qed.

(** The tail of a computation leaves a cheap field alone. *)
Ltac tail_keeps field :=
  lazymatch goal with
  | |- context [state_of (?m ?x) ?d] =>
      let R := fresh "R" in
      let F := fresh "F" in
      assert (R : forall z, returns (m z) = true) by (intros z; by_running z);
      assert (F : forall z, field (state_of (m z) z) = field z)
        by (intros z; by_running z);
      rewrite (state_of_default (m x) d x (R x)), (F x)
  end.

Ltac head_steps :=
  repeat first [ rewrite bind_bind | rewrite bind_millis
               | rewrite bind_modify | rewrite bind_gets ].

Lemma togglePortalMode_into_red (s : State) :
  currentMode s = BLUE_MODE ->
  lastBlinkTime (run_state togglePortalMode s) = wrap_ulong (clock s).
Proof.
  intros Hm. unfold run_state, togglePortalMode.
  rewrite bind_modify, (bind_Done _ _ _ _ _ _ (playAudio_run _ _)).
  rewrite state_of_preceded, bind_gets.
  cbn [currentMode set_currentMode]. rewrite Hm. cbn [other_mode mode_eqb].
  head_steps.
  tail_keeps lastBlinkTime. reflexivity.
Qed.

Lemma performShootingEffect_clock (pin : Z) (s : State) :
  clock (run_state (performShootingEffect pin) s) = clock s + 2980.
Proof.
  destruct (performShootingEffect_calls pin s) as (R & T).
  destruct (metered_run _ s (metered_performShootingEffect pin) R) as (C & _).
  destruct (effect_calls_summary pin) as (D & _).
  rewrite T in C. rewrite C, D. reflexivity.
Qed.

Lemma performShootingEffect_mode (pin : Z) (s : State) :
  currentMode (run_state (performShootingEffect pin) s) = currentMode s.
Proof. vm_compute. reflexivity. Qed.

Lemma autoSwitchMode_into_red (s d : State) :
  currentMode s = BLUE_MODE ->
  lastBlinkTime
    (state_of ((autoSwitchMode ;; modify (set_isShooting false) ;;
                updateMainDisplay) s) d)
  = wrap_ulong (clock s).
Proof.
  intros Hm. unfold autoSwitchMode. head_steps.
  cbn [currentMode set_currentMode]. rewrite Hm. cbn [other_mode mode_eqb].
  head_steps.
  tail_keeps lastBlinkTime. reflexivity.
Qed.

Lemma shootPortal_into_red (s : State) :
  currentMode s = BLUE_MODE ->
  lastBlinkTime (run_state shootPortal s) = wrap_ulong (clock s + 2980).
Proof.
  intros Hm. unfold run_state, shootPortal.
  rewrite !bind_modify, bind_gets.
  cbn [currentMode set_totalPortalsFired set_isShooting]. rewrite Hm.
  cbn [mode_eqb].
  rewrite (bind_Done _ _ _ _ _ _ (playAudio_run _ _)), state_of_preceded.
  match goal with
  | |- context [bind (performShootingEffect ?pin) _ ?x] =>
      destruct (performShootingEffect_calls pin x) as (R & _);
      rewrite (bind_Done _ _ _ _ _ _ (run_done _ _ R)), state_of_preceded;
      rewrite autoSwitchMode_into_red;
      [ rewrite performShootingEffect_clock; reflexivity
      | rewrite performShootingEffect_mode; exact Hm ]
  end.
Qed.

Lemma onboard_writes_app (t1 t2 : list Event) :
  onboard_writes (t1 ++ t2) = onboard_writes t1 ++ onboard_writes t2.
Proof. apply flat_map_app. Qed.

Lemma togglePortalMode_onboard (s : State) :
  onboard_writes (run_trace togglePortalMode s) = [HIGH] /\
  onboardLEDState (run_state togglePortalMode s)
  = (if mode_eqb (currentMode s) BLUE_MODE then true else onboardLEDState s).
Proof. by_running s. Qed.

Lemma shootPortal_onboard (s : State) :
  onboard_writes (run_trace shootPortal s) = [HIGH] /\
  onboardLEDState (run_state shootPortal s)
  = (if mode_eqb (currentMode s) BLUE_MODE then true else onboardLEDState s).
Proof. by_running s. Qed.

Lemma updateMainDisplay_onboard (s : State) :
  onboard_writes (run_trace updateMainDisplay s) = [].
Proof. by_running s. Qed.

Lemma buttons_trace_onboard (p : Poll) (s : State) :
  onboard_writes (buttons_trace p s) = repeat HIGH (actions_fired p s).
Proof.
  unfold buttons_trace, actions_fired. rewrite !onboard_writes_app.
  destruct (togglePortalMode_onboard s) as (T & _).
  destruct (shootPortal_onboard (after_toggle p s)) as (S & _).
  destruct (toggle_fires p s), (shoot_fires p s); rewrite ?T, ?S; reflexivity.
Qed.

Lemma periodic_trace_onboard (s : State) :
  onboard_writes (periodic_trace s) = [].
Proof.
  unfold periodic_trace. destruct (refresh_due s); [|reflexivity].
  apply updateMainDisplay_onboard.
Qed.

Lemma periodic_state_blink (s : State) :
  onboardLEDState (periodic_state s) = onboardLEDState s /\
  lastBlinkTime (periodic_state s) = lastBlinkTime s.
Proof. unfold periodic_state. destruct (refresh_due s); split; reflexivity. Qed.

Lemma mode_cases (m : PortalMode) : m = BLUE_MODE \/ m = RED_MODE.
Proof. destruct m; auto. Qed.

(** After a poll that accepted an action and ended in RED mode, the blink
    timer was started [k] ticks ago with the LED on, [k] being what was
    left of the last animation. *)
Lemma after_shoot_blink (p : Poll) (s : State) :
  (0 < actions_fired p s)%nat ->
  currentMode (after_shoot p s) = RED_MODE ->
  let k := if shoot_fires p s then 1820 else 1320 in
  onboardLEDState (after_shoot p s) = true /\
  lastBlinkTime (after_shoot p s) = wrap_ulong (clock (after_shoot p s) - k).
Proof.
  unfold actions_fired, after_shoot. intros Hn Hm.
  destruct (shoot_fires p s).
  - set (s1 := after_toggle p s) in *.
    destruct (shootPortal_globals s1) as (M & _).
    change (currentMode (run_state shootPortal s1) = RED_MODE) in Hm.
    rewrite M in Hm.
    assert (B : currentMode s1 = BLUE_MODE).
    { destruct (currentMode s1); [reflexivity | discriminate]. }
    destruct (shootPortal_onboard s1) as (_ & L).
    rewrite B in L. cbn [mode_eqb] in L.
    unfold stamp. cbn [onboardLEDState lastBlinkTime clock set_lastButtonPress].
    rewrite L, (shootPortal_into_red _ B), shootPortal_clock.
    split; [reflexivity | f_equal; lia].
  - unfold after_toggle in *.
    destruct (toggle_fires p s); [|cbn in Hn; lia].
    destruct (togglePortalMode_globals s) as (M & _).
    change (currentMode (run_state togglePortalMode s) = RED_MODE) in Hm.
    rewrite M in Hm.
    assert (B : currentMode s = BLUE_MODE).
    { destruct (currentMode s); [reflexivity | discriminate]. }
    destruct (togglePortalMode_onboard s) as (_ & L).
    rewrite B in L. cbn [mode_eqb] in L.
    unfold stamp. cbn [onboardLEDState lastBlinkTime clock set_lastButtonPress].
    rewrite L, (togglePortalMode_into_red _ B), togglePortalMode_clock.
    split; [reflexivity | f_equal; lia].
Qed.

Lemma buttons_state_blink_due (p : Poll) (s : State) :
  (0 < actions_fired p s)%nat ->
  currentMode (buttons_state p s) = RED_MODE ->
  blink_due (buttons_state p s) = true /\
  onboardLEDState (buttons_state p s) = true.
Proof.
  intros Hn Hm.
  destruct (after_shoot_blink p s Hn Hm) as (L & T).
  split; [|exact L].
  unfold blink_due, buttons_state, latch.
  cbn [clock lastBlinkTime set_lastShootState set_lastToggleState].
  rewrite T.
  set (k := if shoot_fires p s then 1820 else 1320).
  replace (clock (after_shoot p s)) with (clock (after_shoot p s) - k + k)
    at 1 by lia.
  rewrite ulong_elapsed by (subst k; destruct (shoot_fires p s); lia).
  subst k. destruct (shoot_fires p s); reflexivity.
Qed.

(** X17. A pass that accepts an action holds the onboard LED high through
    the animation(s) and sets its final level before it ends: high if the
    pass ends in BLUE mode, low if it ends in RED mode. In the RED case
    the blink timer, started when RED was entered, has already expired
    when the animation returns (1320 ticks after a toggle, 1820 after an
    auto-switch, against an interval of 500): the blink state is turned
    off and the timer restarted in the same pass. *)
Theorem X17_led_after_action :
  forall (p : Poll) (s : State),
    let s0 := at_poll p s in
    let s' := run_state (pass p) s in
    (0 < actions_fired p s0)%nat ->
    onboard_writes (run_trace (pass p) s)
      = repeat HIGH (actions_fired p s0)
        ++ [if mode_eqb (currentMode s') BLUE_MODE then HIGH else LOW] /\
    (currentMode s' = RED_MODE ->
       onboardLEDState s' = false /\
       lastBlinkTime s' = wrap_ulong (clock s' - 10)).
Proof.
  intros p s s0 s' Hn.
  assert (E : s' = pass_state p s) by (unfold s', run_state; rewrite pass_run; reflexivity).
  assert (T : run_trace (pass p) s = pass_trace p s)
    by (unfold run_trace; rewrite pass_run; reflexivity).
  rewrite T, E. clear T E s'.
  destruct (pass_state_globals p s) as (M & _).
  fold s0 in M. rewrite M.
  unfold pass_state, pass_trace, loop_state, loop_trace. fold s0.
  rewrite !onboard_writes_app, buttons_trace_onboard, periodic_trace_onboard.
  set (s1 := buttons_state p s0) in *.
  destruct (periodic_state_blink (onboard_state s1)) as (P1 & P2).
  destruct (periodic_state_frame (onboard_state s1))
    as (_ & _ & _ & _ & _ & _ & P3 & _).
  destruct (onboard_state_frame s1) as (_ & _ & _ & _ & _ & _ & O3 & _).
  cbn [onboardLEDState lastBlinkTime clock set_clock].
  rewrite P1, P2, P3, O3.
  destruct (mode_cases (currentMode s1)) as [B | R].
  - rewrite B. split; [|discriminate].
    unfold onboard_trace. rewrite B. reflexivity.
  - destruct (buttons_state_blink_due p s0 Hn R) as (D & L).
    fold s1 in D, L.
    unfold onboard_trace, onboard_state. rewrite R, D, L. cbn [mode_eqb].
    split; [reflexivity|]. intros _.
    cbn [onboardLEDState lastBlinkTime set_lastBlinkTime set_onboardLEDState negb].
    split; [reflexivity | f_equal; lia].
Qed.

Lemma X17_led_after_action_witness :
  let p := mkPoll 100 LOW HIGH in
  onboard_writes (run_trace (pass p) ready0) = [HIGH; LOW] /\
  onboardLEDState (run_state (pass p) ready0) = false.
Proof.
  intros p.
  destruct (X17_led_after_action p ready0) as (W & H);
    [vm_compute; lia|].
  split.
  - rewrite W. vm_compute. reflexivity.
  - apply H. vm_compute. reflexivity.
Defined.



(* ===================================================================== *)
(** ** Protocols the call list obeys *)
(* ===================================================================== *)


Lemma pin_usage_app (t1 t2 : list Event) (c : PinConfig) :
  pin_usage (t1 ++ t2) c = pin_usage t2 (pin_usage t1 c).
Proof. apply fold_left_app. Qed.

Lemma frame_usage_app (t1 t2 : list Event) (st : option bool) :
  frame_usage (t1 ++ t2) st = frame_usage t2 (frame_usage t1 st).
Proof. apply fold_left_app. Qed.

Lemma setup_usage (b : Boot) (s : State) :
  pin_usage (trace_of (setup b s)) (Some ([], []))
    = (if display_ok b then board_pins else Some ([], [])) /\
  frame_usage (trace_of (setup b s)) (Some false) = Some false.
Proof. destruct b as [[|] [|]]; by_running s. Qed.

Lemma togglePortalMode_usage (s : State) :
  pin_usage (run_trace togglePortalMode s) board_pins = board_pins /\
  frame_usage (run_trace togglePortalMode s) (Some false) = Some false.
Proof. by_running s. Qed.

Lemma shootPortal_usage (s : State) :
  pin_usage (run_trace shootPortal s) board_pins = board_pins /\
  frame_usage (run_trace shootPortal s) (Some false) = Some false.
Proof. by_running s. Qed.

Lemma updateMainDisplay_usage (s : State) :
  pin_usage (run_trace updateMainDisplay s) board_pins = board_pins /\
  frame_usage (run_trace updateMainDisplay s) (Some false) = Some false.
Proof. by_running s. Qed.

Lemma onboard_trace_usage (s : State) :
  pin_usage (onboard_trace s) board_pins = board_pins /\
  frame_usage (onboard_trace s) (Some false) = Some false.
Proof.
  unfold onboard_trace.
  destruct (mode_eqb (currentMode s) BLUE_MODE), (blink_due s);
    split; reflexivity.
Qed.

Lemma periodic_trace_usage (s : State) :
  pin_usage (periodic_trace s) board_pins = board_pins /\
  frame_usage (periodic_trace s) (Some false) = Some false.
Proof.
  unfold periodic_trace.
  destruct (refresh_due s); [apply updateMainDisplay_usage | split; reflexivity].
Qed.

Lemma buttons_trace_usage (p : Poll) (s : State) :
  pin_usage (buttons_trace p s) board_pins = board_pins /\
  frame_usage (buttons_trace p s) (Some false) = Some false.
Proof.
  unfold buttons_trace.
  destruct (togglePortalMode_usage s) as (T1 & T2).
  destruct (shootPortal_usage (after_toggle p s)) as (S1 & S2).
  rewrite !pin_usage_app, !frame_usage_app.
  change (pin_usage (reads p) board_pins) with board_pins.
  change (frame_usage (reads p) (Some false)) with (Some false).
  destruct (toggle_fires p s), (shoot_fires p s);
    cbn [pin_usage frame_usage fold_left];
    fold (pin_usage (run_trace togglePortalMode s) board_pins);
    fold (frame_usage (run_trace togglePortalMode s) (Some false));
    rewrite ?T1, ?T2;
    fold (pin_usage (run_trace shootPortal (after_toggle p s)) board_pins);
    fold (frame_usage (run_trace shootPortal (after_toggle p s)) (Some false));
    rewrite ?S1, ?S2; split; reflexivity.
Qed.

Lemma pass_trace_usage (p : Poll) (s : State) :
  pin_usage (pass_trace p s) board_pins = board_pins /\
  frame_usage (pass_trace p s) (Some false) = Some false.
Proof.
  unfold pass_trace, loop_trace.
  rewrite !pin_usage_app, !frame_usage_app.
  destruct (buttons_trace_usage p (at_poll p s)) as (-> & ->).
  destruct (onboard_trace_usage (buttons_state p (at_poll p s))) as (-> & ->).
  destruct (periodic_trace_usage
              (onboard_state (buttons_state p (at_poll p s)))) as (-> & ->).
  split; reflexivity.
Qed.

Lemma passes_trace_usage (ps : list Poll) (s : State) :
  pin_usage (passes_trace ps s) board_pins = board_pins /\
  frame_usage (passes_trace ps s) (Some false) = Some false.
Proof.
  revert s. induction ps as [|p ps IH]; intros s; [split; reflexivity|].
  cbn [passes_trace]. rewrite pin_usage_app, frame_usage_app.
  destruct (pass_trace_usage p s) as (-> & ->). apply IH.
Qed.

Lemma sketch_trace (b : Boot) (ps : list Poll) (s : State) :
  trace_of (sketch b ps s)
  = trace_of (setup b s)
    ++ (if display_ok b
        then passes_trace ps (run_state (setup b) s) else []).
Proof.
  destruct b as [[|] audio]; unfold sketch; cbn [display_ok].
  - rewrite (bind_Done _ _ _ _ _ _ (run_done _ _ (setup_returns audio s))).
    rewrite passes_run.
    rewrite (run_done _ _ (setup_returns audio s)). reflexivity.
  - unfold bind. rewrite setup_without_display. cbn [trace_of].
    rewrite app_nil_r. reflexivity.
Qed.

(** X19. Pins are used as configured. Over any run, every [digitalRead]
    is on a pin configured before as input with pull-up and every
    [digitalWrite] and [analogWrite] on a pin configured before as
    output. [setup] configures the two button pins and the three LED
    pins, once each, and the main loop configures nothing; if the display
    fails no pin is configured and none is used. *)
Theorem X19_pins_are_configured_before_use :
  forall (b : Boot) (ps : list Poll) (s : State),
    pin_usage (trace_of (sketch b ps s)) (Some ([], []))
    = (if display_ok b then board_pins else Some ([], [])).
Proof.
  intros b ps s. rewrite sketch_trace, pin_usage_app.
  destruct (setup_usage b s) as (-> & _).
  destruct (display_ok b); [|reflexivity].
  apply passes_trace_usage.
Qed.

(** X20. Frames are composed whole. Over any run the display calls come
    in frames: a [clearDisplay], then drawing calls only, then the
    [display()] that pushes the frame. Nothing is drawn outside a frame,
    no frame is left unpushed, and while a frame is being composed the
    sketch makes no other call: no delay, no pin access, no audio
    command. *)
Theorem X20_frames_are_composed_whole :
  forall (b : Boot) (ps : list Poll) (s : State),
    frame_usage (trace_of (sketch b ps s)) (Some false) = Some false.
Proof.
  intros b ps s. rewrite sketch_trace, frame_usage_app.
  destruct (setup_usage b s) as (_ & ->).
  destruct (display_ok b); [|reflexivity].
  apply passes_trace_usage.
Qed.

(* ===================================================================== *)
(** ** The poller and the shooting flag *)
(* ===================================================================== *)



(* ===================================================================== *)
(** ** Running without sound *)
(* ===================================================================== *)

(** C7. If the audio module does not answer at start-up, [setup] still
    completes, with [audioEnabled] false and no command sent to the audio
    device; the flag then stays false through every pass of the main
    loop, every call of [playAudio], for every track, does nothing, and no
    play command is ever issued. Everything else goes on as with sound:
    the run is, pass for pass, the run the sketch would make from the
    same state with audio enabled, with the same modes, counter, duties
    and accepted actions and the same number of frames pushed to the
    display, its call list being that of the audible run with the play
    commands and the audio glyph of the status screen taken out. And in
    its own terms: [setup] shows its start-up screens and the status
    frame; at any point of the silent run the status frame is drawn, on
    demand and by the periodic refresh, with mode and counter and without
    the audio glyph; a toggle flips the mode, shows its banner and the
    new status frame and leaves the LEDs idle; a shoot counts once,
    flips the mode, shows its banner and the status frame and leaves the
    LEDs idle; and a pass accepts a toggle and a shoot exactly by the
    gate and the edges of the lines, with no play command. *)
Theorem C7_audio_failure_is_silent_not_fatal :
  forall (s : State) (ps : list Poll) (track : AudioTrack),
    let boot := mkBoot true false in
    let s1 := run_state (setup boot) s in
    let audible := set_audioEnabled true s1 in
    setup boot s = Done tt s1 (run_trace (setup boot) s) /\
    audioEnabled s1 = false /\
    filter is_audio_command (run_trace (setup boot) s) = [] /\
    sketch boot ps s
      = Done tt (passes_state ps s1)
          (run_trace (setup boot) s ++ passes_trace ps s1) /\
    audioEnabled (passes_state ps s1) = false /\
    audio_plays (passes_trace ps s1) = [] /\
    playAudio track (passes_state ps s1) = Done tt (passes_state ps s1) [] /\
    passes_state ps s1 = mute (passes_state ps audible) /\
    erasure (passes_trace ps audible) (passes_trace ps s1) /\
    frames_in (passes_trace ps s1) = frames_in (passes_trace ps audible) /\
    toggles_in (passes_trace ps s1) = toggles_in (passes_trace ps audible) /\
    shoots_in (passes_trace ps s1) = shoots_in (passes_trace ps audible) /\
    currentMode (passes_state ps s1) = currentMode (passes_state ps audible) /\
    totalPortalsFired (passes_state ps s1)
      = totalPortalsFired (passes_state ps audible) /\
    pwm (passes_state ps s1) = pwm (passes_state ps audible) /\
    (* what the silent board does, in its own terms *)
    let t := passes_state ps s1 in
    (frames_in (run_trace (setup boot) s)
     = if isShooting s then 3 else 4)%nat /\
    updateMainDisplay t
      = Done tt t
          (if isShooting t then []
           else status_frame (currentMode t) false (totalPortalsFired t)) /\
    updateDisplayPeriodically t
      = Done tt (periodic_state t)
          (if refresh_due t
           then (if isShooting t then []
                 else status_frame (currentMode t) false (totalPortalsFired t))
           else []) /\
    (let tr := run_trace togglePortalMode t in
     let t' := run_state togglePortalMode t in
     togglePortalMode t = Done tt t' tr /\
     currentMode t' = other_mode (currentMode t) /\
     totalPortalsFired t' = totalPortalsFired t /\
     idle_leds t' /\
     toggles_in tr = 1%nat /\ audio_plays tr = [] /\
     frames_in tr = (if isShooting t then 1 else 2)%nat) /\
    (let tr := run_trace shootPortal t in
     let t' := run_state shootPortal t in
     shootPortal t = Done tt t' tr /\
     totalPortalsFired t' = int_add (totalPortalsFired t) 1 /\
     currentMode t' = other_mode (currentMode t) /\
     isShooting t' = false /\
     idle_leds t' /\
     shoots_in tr = 1%nat /\ audio_plays tr = [] /\
     frames_in tr = 2%nat) /\
    (forall p,
       pass p t = Done tt (pass_state p t) (pass_trace p t) /\
       toggles_in (pass_trace p t)
         = (if toggle_fires p (at_poll p t) then 1 else 0)%nat /\
       shoots_in (pass_trace p t)
         = (if shoot_fires p (at_poll p t) then 1 else 0)%nat /\
       totalPortalsFired (pass_state p t)
         = (if shoot_fires p (at_poll p t)
            then int_add (totalPortalsFired t) 1 else totalPortalsFired t) /\
       currentMode (pass_state p t)
         = (if xorb (toggle_fires p (at_poll p t)) (shoot_fires p (at_poll p t))
            then other_mode (currentMode t) else currentMode t) /\
       audioEnabled (pass_state p t) = false /\
       audio_plays (pass_trace p t) = []).
Proof.
  intros s ps track boot s1 audible.
  destruct (silent_run_against_audible s ps track)
    as (H1 & H2 & H3 & H4 & H5 & H6 & H7 & H8 & H9 & H10 & H11 & H12 & H13
        & H14 & H15).
  fold boot in H1, H2, H3, H4, H5, H6, H7, H8, H9, H10, H11, H12, H13, H14, H15.
  fold s1 in H1, H2, H4, H5, H6, H7, H8, H9, H10, H11, H12, H13, H14, H15.
  fold audible in H8, H9, H10, H11, H12, H13, H14, H15.
  do 14 (split; [assumption|]). split; [assumption|].
  intros t.
  assert (A : audioEnabled t = false) by exact H5.
  destruct (setup_without_audio s) as (_ & _ & _ & F).
  split; [exact F|].
  split.
  { rewrite updateMainDisplay_done, updateMainDisplay_frame, A. reflexivity. }
  split.
  { rewrite updateDisplayPeriodically_run. unfold periodic_trace.
    rewrite updateMainDisplay_frame, A. reflexivity. }
  split.
  { destruct (togglePortalMode_globals t) as (Gm & _ & _ & Gf & _).
    destruct (togglePortalMode_calls t) as (Ct & _ & Ca & Cf).
    rewrite A in Ca.
    split; [apply togglePortalMode_done|].
    split; [exact Gm|]. split; [exact Gf|].
    split; [apply togglePortalMode_idle|].
    split; [exact Ct|]. split; [exact Ca | exact Cf]. }
  split.
  { destruct (shootPortal_globals t) as (Gm & Gs & _).
    destruct (shootPortal_calls t) as (_ & Cs & Ca & Cf).
    rewrite A in Ca.
    split; [apply shootPortal_done|].
    split; [apply shootPortal_counter|].
    split; [exact Gm|]. split; [exact Gs|].
    split; [apply shootPortal_idle|].
    split; [exact Cs|]. split; [exact Ca | exact Cf]. }
  intros p.
  destruct (pass_trace_actions p t) as (Pt & Ps).
  split; [apply pass_run|].
  split; [exact Pt|]. split; [exact Ps|].
  split; [apply pass_counter|]. split; [apply pass_mode|].
  split.
  - change (audioEnabled (passes_state [p] t) = false).
    rewrite passes_state_audio. exact A.
  - apply pass_trace_plays, A.
Qed.


(* ===================================================================== *)
(** * Version 3.0 *)
(* ===================================================================== *)

(** ** Basic facts *)

Lemma v30_preceded_nil {A} (r : V30.Res A) : V30.preceded [] r = r.
Proof. destruct r; reflexivity. Qed.

Lemma v30_preceded_preceded {A} (t1 t2 : list V30.Event) (r : V30.Res A) :
  V30.preceded t1 (V30.preceded t2 r) = V30.preceded (t1 ++ t2) r.
Proof. destruct r; simpl; rewrite ?app_assoc; reflexivity. Qed.

Lemma v30_bind_Done {A B} (m : V30.M A) (k : A -> V30.M B)
    (s s1 : V30.State) (a : A) (t1 : list V30.Event) :
  m s = V30.Done a s1 t1 -> V30.bind m k s = V30.preceded t1 (k a s1).
Proof. intros H. unfold V30.bind. rewrite H. reflexivity. Qed.

Lemma v30_bind_ret {A B} (a : A) (k : A -> V30.M B) (s : V30.State) :
  V30.bind (V30.ret a) k s = k a s.
Proof. unfold V30.bind, V30.ret. apply v30_preceded_nil. Qed.

Lemma v30_bind_gets {A B} (f : V30.State -> A) (k : A -> V30.M B)
    (s : V30.State) :
  V30.bind (V30.gets f) k s = k (f s) s.
Proof. unfold V30.bind, V30.gets. apply v30_preceded_nil. Qed.

Lemma v30_bind_millis {B} (k : Z -> V30.M B) (s : V30.State) :
  V30.bind V30.millis k s = k (wrap_ulong (V30.clock s)) s.
Proof. unfold V30.millis. rewrite v30_bind_gets. reflexivity. Qed.

Lemma v30_bind_modify {B} (f : V30.State -> V30.State) (k : unit -> V30.M B)
    (s : V30.State) :
  V30.bind (V30.modify f) k s = k tt (f s).
Proof. unfold V30.bind, V30.modify. apply v30_preceded_nil. Qed.

Lemma v30_bind_emit {B} (e : V30.Event) (k : unit -> V30.M B) (s : V30.State) :
  V30.bind (V30.emit e) k s = V30.preceded [e] (k tt s).
Proof. reflexivity. Qed.

Lemma v30_bind_bind {A B C} (m : V30.M A) (k : A -> V30.M B)
    (h : B -> V30.M C) (s : V30.State) :
  V30.bind (V30.bind m k) h s = V30.bind m (fun a => V30.bind (k a) h) s.
Proof.
  unfold V30.bind. destruct (m s) as [a s1 t1 | s1 t1 | ]; try reflexivity.
  destruct (k a s1) as [b s2 t2 | s2 t2 | ]; try reflexivity.
  simpl. destruct (h b s2); simpl; rewrite ?app_assoc; reflexivity.
Qed.

Lemma v30_run_done (m : V30.M unit) (s : V30.State) :
  V30.returns (m s) = true ->
  m s = V30.Done tt (V30.run_state m s) (V30.run_trace m s).
Proof.
  unfold V30.run_state, V30.run_trace.
  destruct (m s) as [[] s1 t1 | s1 t1 |]; simpl; intros H;
    [reflexivity | discriminate | discriminate].
Qed.

(** The control flow depends on the mode and on the two flags only. *)
Ltac v30_flags s :=
  destruct s as [mode shooting lastPress fired enabled lastBlink led
                 lastUpdate frame lastAnim lastBlue lastRed lastShoot
                 ticks duty tccr];
  destruct mode, shooting, enabled.

Ltac v30_running s := v30_flags s; vm_compute; repeat split; reflexivity.

(* ===================================================================== *)
(** ** The two versions side by side *)
(* ===================================================================== *)

Lemma off_screen_app (t1 t2 : list Event) :
  off_screen (t1 ++ t2) = off_screen t1 ++ off_screen t2.
Proof. apply filter_app. Qed.

Lemma v30_off_screen_app (t1 t2 : list V30.Event) :
  v30_off_screen (t1 ++ t2) = v30_off_screen t1 ++ v30_off_screen t2.
Proof. apply flat_map_app. Qed.

Lemma same_outcome_preceded {A} (font : string -> Z -> Z)
    (t30 : list V30.Event) (t : list Event) (r30 : V30.Res A) (r : Res A) :
  off_screen t = v30_off_screen t30 ->
  same_outcome font r30 r ->
  same_outcome font (V30.preceded t30 r30) (preceded t r).
Proof.
  intros Ht. destruct r30, r; cbn; try tauto.
  - intros (? & ? & H). rewrite off_screen_app, v30_off_screen_app, Ht, H. auto.
  - intros (? & H). rewrite off_screen_app, v30_off_screen_app, Ht, H. auto.
Qed.

(** Calls that are not off-screen calls can be made on either side. *)
Lemma same_outcome_left {A} (font : string -> Z -> Z)
    (t30 : list V30.Event) (r30 : V30.Res A) (r : Res A) :
  v30_off_screen t30 = [] ->
  same_outcome font r30 r ->
  same_outcome font (V30.preceded t30 r30) r.
Proof.
  intros Ht H. rewrite <- (preceded_nil r).
  apply same_outcome_preceded; [rewrite Ht; reflexivity | exact H].
Qed.

Lemma same_outcome_right {A} (font : string -> Z -> Z)
    (t : list Event) (r30 : V30.Res A) (r : Res A) :
  off_screen t = [] ->
  same_outcome font r30 r ->
  same_outcome font r30 (preceded t r).
Proof.
  intros Ht H. rewrite <- (v30_preceded_nil r30).
  apply same_outcome_preceded; [rewrite Ht; reflexivity | exact H].
Qed.

Lemma same_outcome_bind {A B} (font : string -> Z -> Z)
    (m30 : V30.M A) (m : M A) (k30 : A -> V30.M B) (k : A -> M B)
    (s30 : V30.State) (s : State) :
  same_outcome font (m30 s30) (m s) ->
  (forall a, agrees (k30 a) (k a)) ->
  same_outcome font (V30.bind m30 k30 s30) (bind m k s).
Proof.
  intros Hm Hk. unfold V30.bind, bind.
  destruct (m30 s30) as [a s1 t1| s1 t1|], (m s) as [a' s1' t1'| s1' t1'|];
    cbn in Hm; try contradiction; try exact Hm.
  destruct Hm as (-> & -> & Ht).
  apply same_outcome_preceded; [exact Ht | apply Hk].
Qed.

Lemma agrees_bind {A B} (m30 : V30.M A) (m : M A)
    (k30 : A -> V30.M B) (k : A -> M B) :
  agrees m30 m -> (forall a, agrees (k30 a) (k a)) ->
  agrees (V30.bind m30 k30) (bind m k).
Proof. intros Hm Hk font s. apply same_outcome_bind; [apply Hm | exact Hk]. Qed.

Lemma agrees_ret {A} (a : A) : agrees (V30.ret a) (ret a).
Proof. intros font s. cbn. auto. Qed.

Lemma agrees_gets {A} (f30 : V30.State -> A) (f : State -> A) :
  (forall font s, f (as_v31 font s) = f30 s) ->
  agrees (V30.gets f30) (gets f).
Proof. intros H font s. cbn. rewrite H. auto. Qed.

Lemma agrees_modify (g30 : V30.State -> V30.State) (g : State -> State) :
  (forall font s, g (as_v31 font s) = as_v31 font (g30 s)) ->
  agrees (V30.modify g30) (modify g).
Proof. intros H font s. cbn. rewrite H. auto. Qed.

Lemma agrees_millis : agrees V30.millis millis.
Proof. apply agrees_gets. reflexivity. Qed.

Lemma agrees_delay (ms : Z) : agrees (V30.delay ms) (delay ms).
Proof. intros font s. cbn. auto. Qed.

Lemma agrees_analogWrite (pin v : Z) :
  agrees (V30.analogWrite pin v) (analogWrite pin v).
Proof. intros font s. cbn. auto. Qed.

Lemma agrees_digitalWrite (pin : Z) (level : bool) :
  agrees (V30.digitalWrite pin level) (digitalWrite pin level).
Proof. intros font s. cbn. auto. Qed.

Lemma agrees_digitalRead (p : Poll) (pin : Z) :
  agrees (V30.digitalRead p pin) (digitalRead p pin).
Proof. intros font s. cbn. auto. Qed.

Lemma agrees_when (c : bool) (body30 : V30.M unit) (body : M unit) :
  agrees body30 body -> agrees (V30.when c body30) (when c body).
Proof. destruct c; [auto | intros _; apply agrees_ret]. Qed.

Lemma agrees_if {A} (c : bool) (a30 b30 : V30.M A) (a b : M A) :
  agrees a30 a -> agrees b30 b ->
  agrees (if c then a30 else b30) (if c then a else b).
Proof. destruct c; auto. Qed.

Lemma agrees_for_loop (fuel : nat) (i : Z) (cond : Z -> bool)
    (next : Z -> Z) (body30 : Z -> V30.M unit) (body : Z -> M unit) :
  (forall j, agrees (body30 j) (body j)) ->
  agrees (V30.for_loop fuel i cond next body30)
         (for_loop fuel i cond next body).
Proof.
  intros Hb. revert i. induction fuel as [|fuel IH]; intros i.
  - intros font s. exact I.
  - cbn [V30.for_loop for_loop]. destruct (cond i); [|apply agrees_ret].
    apply agrees_bind; [apply Hb | intros _; apply IH].
Qed.

(** Serial and display calls may be made by one version only. *)
Lemma agrees_call_left {A} (e : V30.Event) (k30 : V30.M A) (m : M A) :
  v30_call e = [] -> agrees k30 m ->
  agrees (V30.bind (V30.emit e) (fun _ => k30)) m.
Proof.
  intros He H font s. rewrite v30_bind_emit.
  apply same_outcome_left; [cbn; rewrite He; reflexivity | apply H].
Qed.

Lemma agrees_call_right {A} (e : Event) (m30 : V30.M A) (k : M A) :
  is_off_screen e = false -> agrees m30 k ->
  agrees m30 (bind (emit e) (fun _ => k)).
Proof.
  intros He H font s. rewrite bind_emit.
  apply same_outcome_right; [cbn; rewrite He; reflexivity | apply H].
Qed.

Lemma agrees_emit (e30 : V30.Event) (e : Event) :
  off_screen [e] = v30_call e30 -> agrees (V30.emit e30) (emit e).
Proof.
  intros H font s. cbn. rewrite app_nil_r.
  change (if is_off_screen e then [e] else []) with (off_screen [e]).
  auto.
Qed.

(** Reassociation of sequences. *)
Lemma agrees_assoc_left {A B C} (m30 : V30.M A) (k30 : A -> V30.M B)
    (h30 : B -> V30.M C) (m : M C) :
  agrees (V30.bind m30 (fun a => V30.bind (k30 a) h30)) m ->
  agrees (V30.bind (V30.bind m30 k30) h30) m.
Proof. intros H font s. rewrite v30_bind_bind. apply H. Qed.

Lemma agrees_assoc_right {A B C} (m30 : V30.M C) (m : M A) (k : A -> M B)
    (h : B -> M C) :
  agrees m30 (bind m (fun a => bind (k a) h)) ->
  agrees m30 (bind (bind m k) h).
Proof. intros H font s. rewrite bind_bind. apply H. Qed.

(** A computation that returns [tt] at the end of a sequence. *)
Lemma agrees_unit_left (m30 : V30.M unit) (m : M unit) :
  agrees (V30.bind m30 (fun _ => V30.ret tt)) m -> agrees m30 m.
Proof.
  intros H font s. specialize (H font s). unfold V30.bind in H.
  destruct (m30 s) as [[] s1 t1 | s1 t1 |]; cbn in H; try exact H.
  rewrite app_nil_r in H. exact H.
Qed.

Lemma agrees_unit_right (m30 : V30.M unit) (m : M unit) :
  agrees m30 (bind m (fun _ => ret tt)) -> agrees m30 m.
Proof.
  intros H font s. specialize (H font s). unfold bind in H.
  destruct (m (as_v31 font s)) as [[] s1 t1 | s1 t1 |]; cbn in H; try exact H.
  rewrite app_nil_r in H. exact H.
Qed.

(** *** The functions that are the same in both versions *)

Lemma agrees_fadeTransition (fromPin toPin : Z) :
  agrees (V30.fadeTransition fromPin toPin) (fadeTransition fromPin toPin).
Proof.
  unfold V30.fadeTransition, fadeTransition.
  apply agrees_bind.
  - apply agrees_for_loop. intros j.
    apply agrees_bind; [apply agrees_analogWrite | intros _].
    apply agrees_bind; [apply agrees_analogWrite | intros _].
    apply agrees_delay.
  - intros _. apply agrees_bind; [apply agrees_analogWrite | intros _].
    apply agrees_analogWrite.
Qed.

Lemma agrees_setIdleMode : agrees V30.setIdleMode setIdleMode.
Proof.
  unfold V30.setIdleMode, setIdleMode.
  apply agrees_bind; [apply agrees_gets; reflexivity | intros mode].
  apply agrees_if.
  - apply agrees_bind; [apply agrees_analogWrite | intros _].
    apply agrees_bind; [apply agrees_analogWrite | intros _].
    apply agrees_digitalWrite.
  - apply agrees_bind; [apply agrees_analogWrite | intros _].
    apply agrees_analogWrite.
Qed.

Lemma agrees_updateOnboardLED : agrees V30.updateOnboardLED updateOnboardLED.
Proof.
  unfold V30.updateOnboardLED, updateOnboardLED.
  apply agrees_bind; [apply agrees_gets; reflexivity | intros mode].
  apply agrees_if; [apply agrees_digitalWrite|].
  apply agrees_bind; [apply agrees_millis | intros now].
  apply agrees_bind; [apply agrees_gets; reflexivity | intros lastBlink].
  apply agrees_when.
  apply agrees_bind; [apply agrees_modify; reflexivity | intros _].
  apply agrees_bind; [apply agrees_gets; reflexivity | intros led].
  apply agrees_bind; [apply agrees_digitalWrite | intros _].
  apply agrees_bind; [apply agrees_millis | intros now'].
  apply agrees_modify; reflexivity.
Qed.

Lemma agrees_playSound (track : AudioTrack) :
  agrees (V30.playSound (track_index track)) (playAudio track).
Proof.
  unfold V30.playSound, playAudio.
  apply agrees_bind; [apply agrees_gets; reflexivity | intros enabled].
  apply agrees_when.
  apply agrees_call_left; [reflexivity|].
  apply agrees_call_left; [reflexivity|].
  apply agrees_emit. reflexivity.
Qed.

(** *** The display functions *)

Lemma updateMainDisplay_off_screen (s : State) :
  off_screen (run_trace updateMainDisplay s) = [].
Proof. by_running s. Qed.

Lemma v30_updateOLEDDisplay_done (s : V30.State) :
  V30.updateOLEDDisplay s
    = V30.Done tt s (V30.run_trace V30.updateOLEDDisplay s) /\
  v30_off_screen (V30.run_trace V30.updateOLEDDisplay s) = [].
Proof. v30_running s. Qed.

Lemma agrees_updateDisplay : agrees V30.updateOLEDDisplay updateMainDisplay.
Proof.
  intros font s.
  destruct (v30_updateOLEDDisplay_done s) as (-> & H).
  rewrite updateMainDisplay_done. cbn [same_outcome].
  rewrite updateMainDisplay_off_screen, H. auto.
Qed.

(** A banner: one frame, then a wait. *)
Lemma v30_displayModeSwitch_done (newMode : string) (s : V30.State) :
  V30.displayModeSwitch newMode s
    = V30.Done tt (V30.set_clock (V30.clock s + 1000) s)
        (V30.run_trace (V30.displayModeSwitch newMode) s) /\
  v30_off_screen (V30.run_trace (V30.displayModeSwitch newMode) s)
    = [Delay 1000].
Proof. split; reflexivity. Qed.

Lemma v30_displayAutoSwitch_done (newMode : string) (s : V30.State) :
  V30.displayAutoSwitch newMode s
    = V30.Done tt (V30.set_clock (V30.clock s + 1500) s)
        (V30.run_trace (V30.displayAutoSwitch newMode) s) /\
  v30_off_screen (V30.run_trace (V30.displayAutoSwitch newMode) s)
    = [Delay 1500].
Proof. split; reflexivity. Qed.

Lemma displayMessage_off_screen (l1 l2 : string) (ms : Z) (s : State) :
  0 < ms ->
  displayMessage l1 (Some l2) ms s
    = Done tt (set_clock (clock s + ms) s)
        (run_trace (displayMessage l1 (Some l2) ms) s) /\
  off_screen (run_trace (displayMessage l1 (Some l2) ms) s) = [Delay ms].
Proof.
  intros H. unfold run_trace. rewrite displayMessage_run.
  apply Z.ltb_lt in H. rewrite H. split; reflexivity.
Qed.

Lemma agrees_mode_banner (newMode l1 l2 : string) :
  agrees (V30.displayModeSwitch newMode) (displayMessage l1 (Some l2) 1000).
Proof.
  intros font s.
  destruct (v30_displayModeSwitch_done newMode s) as (-> & H).
  destruct (displayMessage_off_screen l1 l2 1000 (as_v31 font s)) as (-> & H');
    [lia|].
  cbn [same_outcome]. rewrite H, H'. auto.
Qed.

Lemma agrees_switch_banner (newMode l1 l2 : string) :
  agrees (V30.displayAutoSwitch newMode) (displayMessage l1 (Some l2) 1500).
Proof.
  intros font s.
  destruct (v30_displayAutoSwitch_done newMode s) as (-> & H).
  destruct (displayMessage_off_screen l1 l2 1500 (as_v31 font s)) as (-> & H');
    [lia|].
  cbn [same_outcome]. rewrite H, H'. auto.
Qed.

(** *** Entering a mode *)

(** Syntax-directed comparison of two sequences of statements. *)
Ltac agree_step :=
  lazymatch goal with
  | |- agrees (V30.bind (V30.bind _ _) _) _ => apply agrees_assoc_left
  | |- agrees _ (bind (bind _ _) _) => apply agrees_assoc_right
  | |- agrees (V30.bind (V30.emit (V30.SerialPrint _)) _) _ =>
      apply agrees_call_left; [reflexivity|]
  | |- agrees (V30.bind (V30.emit (V30.SerialPrintln _)) _) _ =>
      apply agrees_call_left; [reflexivity|]
  | |- agrees (V30.bind _ _) (bind _ _) =>
      apply agrees_bind; [|intro]
  | |- agrees (V30.ret _) (ret _) => apply agrees_ret
  | |- agrees (V30.gets _) (gets _) => apply agrees_gets; reflexivity
  | |- agrees (V30.modify _) (modify _) => apply agrees_modify; reflexivity
  | |- agrees V30.millis millis => apply agrees_millis
  | |- agrees (V30.delay _) (delay _) => apply agrees_delay
  | |- agrees (V30.analogWrite _ _) (analogWrite _ _) =>
      apply agrees_analogWrite
  | |- agrees (V30.digitalWrite _ _) (digitalWrite _ _) =>
      apply agrees_digitalWrite
  | |- agrees (V30.digitalRead _ _) (digitalRead _ _) =>
      apply agrees_digitalRead
  | |- agrees (V30.when _ _) (when _ _) => apply agrees_when
  | |- agrees (if ?c then _ else _) (if ?c then _ else _) => apply agrees_if
  | |- agrees (V30.for_loop _ _ _ _ _) (for_loop _ _ _ _ _) =>
      apply agrees_for_loop; intro
  | |- agrees (V30.fadeTransition _ _) (fadeTransition _ _) =>
      apply agrees_fadeTransition
  | |- agrees V30.setIdleMode setIdleMode => apply agrees_setIdleMode
  | |- agrees V30.updateOnboardLED updateOnboardLED =>
      apply agrees_updateOnboardLED
  | |- agrees V30.updateOLEDDisplay updateMainDisplay =>
      apply agrees_updateDisplay
  | |- agrees (V30.displayModeSwitch _) (displayMessage _ _ _) =>
      apply agrees_mode_banner
  | |- agrees (V30.displayAutoSwitch _) (displayMessage _ _ _) =>
      apply agrees_switch_banner
  | |- agrees (V30.playSound V30.SOUND_MODE_SWITCH) (playAudio ?t) =>
      apply (agrees_playSound t)
  | |- agrees (V30.playSound V30.SOUND_BLUE_PORTAL) (playAudio ?t) =>
      apply (agrees_playSound t)
  | |- agrees (V30.playSound V30.SOUND_RED_PORTAL) (playAudio ?t) =>
      apply (agrees_playSound t)
  end.

Ltac agree := repeat agree_step.

(** The statements of [togglePortalMode] once the mode it enters is
    known are those inside the guard of [switchToRedMode] or of
    [switchToBlueMode]. *)
Lemma togglePortalMode_from (s : State) :
  togglePortalMode s
  = (if mode_eqb (currentMode s) BLUE_MODE
     then
       (modify (set_currentMode RED_MODE) ;;
        playAudio SOUND_MODE_SWITCH ;;
        (now <- millis ;;
         modify (set_lastBlinkTime now) ;;
         modify (set_onboardLEDState true) ;;
         digitalWrite ONBOARD_LED_PIN HIGH ;;
         displayMessage (str_at MODE_STRINGS 0) (Some (str_at MODE_STRINGS 2))
           1000 ;;
         fadeTransition BLUE_LED_PIN RED_LED_PIN) ;;
        updateMainDisplay) s
     else
       (modify (set_currentMode BLUE_MODE) ;;
        playAudio SOUND_MODE_SWITCH ;;
        (digitalWrite ONBOARD_LED_PIN HIGH ;;
         displayMessage (str_at MODE_STRINGS 0) (Some (str_at MODE_STRINGS 1))
           1000 ;;
         fadeTransition RED_LED_PIN BLUE_LED_PIN) ;;
        updateMainDisplay) s).
Proof.
  unfold togglePortalMode.
  rewrite bind_modify, (bind_Done _ _ _ _ _ _ (playAudio_run _ _)).
  rewrite bind_gets. cbn [currentMode set_currentMode].
  destruct (currentMode s) eqn:Hm; cbn [other_mode mode_eqb];
    rewrite bind_modify, (bind_Done _ _ _ _ _ _ (playAudio_run _ _));
    reflexivity.
Qed.

(** From a comparison at one state back to a comparison of programs. *)
Ltac as_programs :=
  lazymatch goal with
  | |- same_outcome ?font (?m30 ?s) (?m (as_v31 ?font ?s)) =>
      let E := fresh "E" in
      enough (E : agrees m30 m) by (apply E)
  end.

Lemma agrees_toggle_then (rest30 : V30.M unit) (rest : M unit) :
  agrees rest30 rest ->
  agrees
    (V30.bind (V30.gets V30.currentMode)
       (fun mode =>
          V30.bind (if mode_eqb mode BLUE_MODE then V30.switchToRedMode
                    else V30.switchToBlueMode)
            (fun _ => rest30)))
    (bind togglePortalMode (fun _ => rest)).
Proof.
  intros H font s. rewrite v30_bind_gets.
  apply same_outcome_bind; [|intros []; exact H].
  rewrite togglePortalMode_from.
  change (currentMode (as_v31 font s)) with (V30.currentMode s).
  destruct (V30.currentMode s) eqn:Hm; cbn [mode_eqb].
  - unfold V30.switchToRedMode. rewrite v30_bind_gets, Hm.
    cbn [mode_eqb negb V30.when].
    as_programs. agree.
  - unfold V30.switchToBlueMode. rewrite v30_bind_gets, Hm.
    cbn [mode_eqb negb V30.when].
    as_programs. agree.
Qed.

(** *** Shooting *)

(** The auto-switch: version 3.0 tests the mode and then sets the other
    one; version 3.1 flips the mode and then tests it. *)
Lemma agrees_flip_then (red30 blue30 rest30 : V30.M unit)
    (inRed inBlue rest : M unit) :
  agrees red30 inRed -> agrees blue30 inBlue -> agrees rest30 rest ->
  agrees
    (V30.bind (V30.gets V30.currentMode)
       (fun mode =>
          V30.bind
            (if mode_eqb mode BLUE_MODE
             then V30.bind (V30.modify (V30.set_currentMode RED_MODE))
                    (fun _ => red30)
             else V30.bind (V30.modify (V30.set_currentMode BLUE_MODE))
                    (fun _ => blue30))
            (fun _ => rest30)))
    (bind
       (bind (modify (fun s => set_currentMode (other_mode (currentMode s)) s))
          (fun _ =>
             bind (gets currentMode)
               (fun mode => if mode_eqb mode BLUE_MODE then inBlue else inRed)))
       (fun _ => rest)).
Proof.
  intros Hred Hblue Hrest font s.
  rewrite v30_bind_gets, bind_bind, bind_modify, bind_bind, bind_gets.
  cbn [currentMode set_currentMode as_v31].
  destruct (V30.currentMode s) eqn:Hm; cbn [mode_eqb other_mode];
    rewrite v30_bind_bind, v30_bind_modify.
  - replace (set_currentMode RED_MODE (as_v31 font s))
      with (as_v31 font (V30.set_currentMode RED_MODE s)) by reflexivity.
    apply (agrees_bind red30 inRed (fun _ => rest30) (fun _ => rest));
      [exact Hred | intros _; exact Hrest].
  - replace (set_currentMode BLUE_MODE (as_v31 font s))
      with (as_v31 font (V30.set_currentMode BLUE_MODE s)) by reflexivity.
    apply (agrees_bind blue30 inBlue (fun _ => rest30) (fun _ => rest));
      [exact Hblue | intros _; exact Hrest].
Qed.

Ltac agree_more :=
  lazymatch goal with
  | |- agrees _ (bind (performShootingEffect _) _) =>
      unfold performShootingEffect
  | |- agrees (V30.bind (V30.gets V30.currentMode) _)
              (bind autoSwitchMode _) =>
      unfold autoSwitchMode; apply agrees_flip_then
  | |- _ => agree_step
  end.

Ltac agree_all := repeat agree_more.

Lemma agrees_shoot_then (rest30 : V30.M unit) (rest : M unit)
    (font : string -> Z -> Z) (s : V30.State) :
  agrees rest30 rest ->
  V30.isShooting s = false ->
  same_outcome font
    (V30.bind V30.shootPortal (fun _ => rest30) s)
    (bind shootPortal (fun _ => rest) (as_v31 font s)).
Proof.
  intros H Hflag. apply same_outcome_bind; [|intros []; exact H].
  unfold V30.shootPortal, shootPortal.
  rewrite v30_bind_gets, Hflag, !v30_bind_modify, !bind_modify.
  rewrite v30_bind_emit. apply same_outcome_left; [reflexivity|].
  set (s1 := V30.set_totalPortalsFired _ _).
  change (set_totalPortalsFired _ _) with (as_v31 font s1).
  rewrite v30_bind_gets, bind_gets.
  change (currentMode (as_v31 font s1)) with (V30.currentMode s1).
  clearbody s1.
  destruct (V30.currentMode s1) eqn:Hm.
  all: rewrite v30_bind_emit; apply same_outcome_left; [reflexivity|].
  all: rewrite v30_bind_emit; apply same_outcome_left; [reflexivity|].
  all: rewrite !v30_bind_gets, Hm; cbn [mode_eqb]; cbv zeta.
  all: as_programs; agree_all.
Qed.

(** *** The main loop *)

Lemma agrees_shoot_guarded (c : bool) (rest30 : V30.M unit) (rest : M unit) :
  agrees rest30 rest ->
  agrees
    (V30.bind (V30.gets V30.isShooting)
       (fun shooting =>
          V30.when (c && negb shooting)
            (V30.bind V30.shootPortal (fun _ => rest30))))
    (bind (gets isShooting)
       (fun shooting =>
          when (c && negb shooting) (bind shootPortal (fun _ => rest)))).
Proof.
  intros H font s. rewrite v30_bind_gets, bind_gets.
  change (isShooting (as_v31 font s)) with (V30.isShooting s).
  destruct (V30.isShooting s) eqn:Hflag.
  - rewrite andb_false_r. cbn. auto.
  - destruct c; cbn [andb negb V30.when when].
    + apply agrees_shoot_then; assumption.
    + cbn. auto.
Qed.

Ltac agree_loop_step :=
  lazymatch goal with
  | |- agrees (V30.bind (V30.gets V30.currentMode) _)
              (bind togglePortalMode _) =>
      apply agrees_toggle_then
  | |- agrees (V30.bind (V30.gets V30.isShooting) _)
              (bind (gets isShooting) _) =>
      apply agrees_shoot_guarded
  | |- _ => agree_more
  end.

Lemma agrees_loop (p : Poll) : agrees (V30.loop p) (loop p).
Proof.
  unfold V30.loop, loop, handleButtons, updateDisplayPeriodically.
  repeat agree_loop_step.
Qed.

Lemma agrees_pass (p : Poll) : agrees (V30.pass p) (pass p).
Proof.
  unfold V30.pass, pass.
  apply agrees_bind; [apply agrees_modify; reflexivity | intros _].
  apply agrees_loop.
Qed.

Lemma agrees_passes (ps : list Poll) : agrees (V30.passes ps) (passes ps).
Proof.
  induction ps as [|p ps IH]; [apply agrees_ret|].
  cbn [V30.passes passes].
  apply agrees_bind; [apply agrees_pass | intros _; exact IH].
Qed.

Lemma passes_preserved :
  forall (ps : list Poll) (font : string -> Z -> Z) (s : V30.State),
    V30.returns (V30.passes ps s) = true /\
    returns (passes ps (as_v31 font s)) = true /\
    run_state (passes ps) (as_v31 font s)
      = as_v31 font (V30.run_state (V30.passes ps) s) /\
    off_screen (run_trace (passes ps) (as_v31 font s))
      = v30_off_screen (V30.run_trace (V30.passes ps) s).
Proof.
  intros ps font s.
  pose proof (agrees_passes ps font s) as H.
  unfold run_state, run_trace, V30.run_state, V30.run_trace.
  rewrite passes_run in *.
  destruct (V30.passes ps s) as [[] s1 t1 | s1 t1 |]; cbn in H;
    try contradiction.
  destruct H as (_ & Hs & Ht). cbn. auto.
Qed.

(** X21. The main loop of version 3.1 does what the main loop of version
    3.0 does. From corresponding states and against the same button
    levels, any number of passes of the two loops return, leave
    corresponding states (same mode, flags, counter, timers, recorded
    button levels, clock and duty registers) and make the same calls to
    the pins, to [delay] and to the audio module, in the same order; the
    two versions differ in what they print and in how they draw. *)
Theorem X21_main_loop_is_preserved :
  forall (ps : list Poll) (font : string -> Z -> Z) (s : V30.State),
    (forall p, same_outcome font (V30.loop p s) (loop p (as_v31 font s))) /\
    V30.returns (V30.passes ps s) = true /\
    returns (passes ps (as_v31 font s)) = true /\
    run_state (passes ps) (as_v31 font s)
      = as_v31 font (V30.run_state (V30.passes ps) s) /\
    off_screen (run_trace (passes ps) (as_v31 font s))
      = v30_off_screen (V30.run_trace (V30.passes ps) s).
Proof.
  intros ps font s.
  split; [intros p; apply agrees_loop|].
  pose proof (agrees_passes ps font s) as H.
  unfold run_state, run_trace, V30.run_state, V30.run_trace.
  rewrite passes_run in *.
  destruct (V30.passes ps s) as [[] s1 t1 | s1 t1 |]; cbn in H;
    try contradiction.
  destruct H as (_ & Hs & Ht). cbn. auto.
Qed.


(** *** Start-up *)

Lemma v30_setup_returns (audio : bool) (s : V30.State) :
  V30.returns (V30.setup (mkBoot true audio) s) = true.
Proof. destruct audio; v30_running s. Qed.

Lemma v30_setup_without_display (audio : bool) (s : V30.State) :
  V30.setup (mkBoot false audio) s
  = V30.Hang s [ V30.SerialBegin 9600;
                 V30.SerialPrintln "Portal Gun Complete Edition Starting...";
                 V30.DisplayBegin false;
                 V30.SerialPrintln "OLED allocation failed!" ].
Proof. reflexivity. Qed.

Lemma setup_same_state (audio : bool) (font : string -> Z -> Z)
    (s : V30.State) :
  V30.audioEnabled s = true ->
  run_state (setup (mkBoot true audio)) (as_v31 font s)
  = as_v31 font (V30.run_state (V30.setup (mkBoot true audio)) s).
Proof.
  intros H.
  destruct s as [mode shooting lastPress fired enabled lastBlink led
                 lastUpdate frame lastAnim lastBlue lastRed lastShoot
                 ticks duty tccr].
  cbn in H. subst enabled.
  destruct audio, mode, shooting; vm_compute; reflexivity.
Qed.

(** X22. The same for the whole sketch, from a state where audio is
    enabled, as at reset. If the display fails both versions hang in
    [setup], having touched no pin. If it answers, both return from
    [setup] in corresponding states, whatever the audio module answers,
    and from the first pass on they make the same off-screen calls. (In
    [setup] itself the calls come in a different order: version 3.0 shows
    its start-up screens before it configures the pins.) *)
Theorem X22_sketch_is_preserved :
  forall (b : Boot) (ps : list Poll) (font : string -> Z -> Z)
         (s : V30.State),
    V30.audioEnabled s = true ->
    let r30 := V30.sketch b ps s in
    let r := sketch b ps (as_v31 font s) in
    let s30 := V30.run_state (V30.setup b) s in
    let s31 := run_state (setup b) (as_v31 font s) in
    (* reset states correspond *)
    (forall pwm0 tccr,
       as_v31 font (V30.power_on pwm0 tccr) = power_on pwm0 tccr font) /\
    (* both return, or both hang *)
    V30.returns r30 = display_ok b /\ returns r = display_ok b /\
    (* in corresponding states *)
    s31 = as_v31 font s30 /\
    state_of r (as_v31 font s) = as_v31 font (V30.state_of r30 s) /\
    (* after the same off-screen calls, from the first pass on *)
    V30.trace_of r30
      = V30.run_trace (V30.setup b) s
        ++ (if display_ok b then V30.run_trace (V30.passes ps) s30 else []) /\
    trace_of r
      = run_trace (setup b) (as_v31 font s)
        ++ (if display_ok b then run_trace (passes ps) s31 else []) /\
    off_screen (run_trace (passes ps) s31)
      = v30_off_screen (V30.run_trace (V30.passes ps) s30).
Proof.
  intros b ps font s Ha r30 r s30 s31.
  split; [reflexivity|].
  destruct b as [[|] audio]; cbn [display_ok].
  - assert (Es : s31 = as_v31 font s30) by (apply setup_same_state, Ha).
    destruct (passes_preserved ps font s30) as (R30 & R & S & T).
    rewrite <- Es in R, S, T.
    assert (E30 : r30 = V30.preceded (V30.run_trace (V30.setup (mkBoot true audio)) s)
                          (V30.passes ps s30)).
    { unfold r30, V30.sketch.
      rewrite (v30_bind_Done _ _ _ _ _ _
                 (v30_run_done _ _ (v30_setup_returns audio s))).
      reflexivity. }
    assert (E : r = preceded (run_trace (setup (mkBoot true audio)) (as_v31 font s))
                      (passes ps s31)).
    { unfold r, sketch.
      rewrite (bind_Done _ _ _ _ _ _
                 (run_done _ _ (setup_returns audio (as_v31 font s)))).
      reflexivity. }
    rewrite E30, E.
    rewrite (v30_run_done _ _ R30), (run_done _ _ R).
    cbn [V30.preceded preceded V30.returns returns V30.state_of state_of
         V30.trace_of trace_of].
    rewrite S. repeat split; try reflexivity; assumption.
  - unfold r30, r, s30, s31, V30.sketch, sketch, V30.bind, bind,
      V30.run_state, run_state, V30.run_trace, run_trace.
    rewrite v30_setup_without_display, setup_without_display.
    cbn. repeat split. apply (passes_preserved ps font s).
Qed.

Lemma X22_sketch_is_preserved_witness :
  let ps := [mkPoll 0 LOW HIGH; mkPoll 100 HIGH LOW] in
  V30.audioEnabled V30.board0 = true /\
  state_of (sketch (mkBoot true true) ps (as_v31 classic_font V30.board0))
    (as_v31 classic_font V30.board0)
  = as_v31 classic_font
      (V30.state_of (V30.sketch (mkBoot true true) ps V30.board0) V30.board0).
Proof.
  intros ps. split; [reflexivity|].
  destruct (X22_sketch_is_preserved (mkBoot true true) ps classic_font
              V30.board0) as (_ & _ & _ & _ & H & _);
    [reflexivity | exact H].
Defined.


(** ** Time and duty registers in version 3.0 *)

Lemma v30_metered_ret {A} (a : A) : v30_metered (V30.ret a).
Proof. intros s. cbn. split; [lia | reflexivity]. Qed.

Lemma v30_metered_gets {A} (f : V30.State -> A) : v30_metered (V30.gets f).
Proof. intros s. cbn. split; [lia | reflexivity]. Qed.

Lemma v30_metered_bind {A B} (m : V30.M A) (k : A -> V30.M B) :
  v30_metered m -> (forall a, v30_metered (k a)) -> v30_metered (V30.bind m k).
Proof.
  intros Hm Hk s. specialize (Hm s). unfold V30.bind.
  destruct (m s) as [a s1 t1 | s1 t1 |]; [|exact Hm|exact I].
  specialize (Hk a s1). destruct Hm as (C1 & P1).
  destruct (k a s1) as [b s2 t2 | s2 t2 |]; cbn; [| |exact I];
    destruct Hk as (C2 & P2);
    rewrite v30_off_screen_app, total_delay_app, duty_after_app, <- P1;
    (split; [lia | exact P2]).
Qed.

Lemma v30_metered_when (c : bool) (body : V30.M unit) :
  v30_metered body -> v30_metered (V30.when c body).
Proof. destruct c; [auto | intros _; apply v30_metered_ret]. Qed.

Lemma v30_metered_for_loop (fuel : nat) (i : Z) (cond : Z -> bool)
    (next : Z -> Z) (body : Z -> V30.M unit) :
  (forall j, v30_metered (body j)) ->
  v30_metered (V30.for_loop fuel i cond next body).
Proof.
  intros Hb. revert i. induction fuel as [|fuel IH]; intros i.
  - intros s. exact I.
  - cbn [V30.for_loop]. destruct (cond i); [|apply v30_metered_ret].
    apply v30_metered_bind; [apply Hb | intros _; apply IH].
Qed.

Lemma v30_metered_emit (e : V30.Event) :
  total_delay (v30_call e) = 0 ->
  (forall f, duty_after (v30_call e) f = f) ->
  v30_metered (V30.emit e).
Proof.
  intros Hd Hp s. cbn. rewrite app_nil_r, Hd, Hp. split; [lia | reflexivity].
Qed.

Lemma v30_metered_modify (g : V30.State -> V30.State) :
  (forall s, V30.clock (g s) = V30.clock s /\ V30.pwm (g s) = V30.pwm s) ->
  v30_metered (V30.modify g).
Proof.
  intros H s. destruct (H s) as (Hc & Hp). cbn. split; [lia | exact Hp].
Qed.

Lemma v30_metered_delay (ms : Z) : v30_metered (V30.delay ms).
Proof. intros s. cbn. split; [lia | reflexivity]. Qed.

Lemma v30_metered_analogWrite (pin v : Z) :
  v30_metered (V30.analogWrite pin v).
Proof. intros s. cbn. split; [lia | reflexivity]. Qed.

Ltac v30_meter_step :=
  lazymatch goal with
  | |- v30_metered (V30.bind _ _) => apply v30_metered_bind; [|intros ?]
  | |- v30_metered (V30.ret _) => apply v30_metered_ret
  | |- v30_metered (V30.gets _) => apply v30_metered_gets
  | |- v30_metered V30.millis => apply v30_metered_gets
  | |- v30_metered (V30.emit _) =>
      apply v30_metered_emit; [reflexivity | intros ?; reflexivity]
  | |- v30_metered (V30.digitalWrite _ _) =>
      apply v30_metered_emit; [reflexivity | intros ?; reflexivity]
  | |- v30_metered (V30.delay _) => apply v30_metered_delay
  | |- v30_metered (V30.analogWrite _ _) => apply v30_metered_analogWrite
  | |- v30_metered (V30.when _ _) => apply v30_metered_when
  | |- v30_metered (V30.for_loop _ _ _ _ _) =>
      apply v30_metered_for_loop; intros ?
  | |- v30_metered (V30.modify _) =>
      apply v30_metered_modify; intros ?; split; reflexivity
  | |- v30_metered (if ?c then _ else _) => destruct c
  | |- v30_metered (let _ := _ in _) => cbv zeta
  | |- v30_metered _ => solve [auto]
  end.

Ltac v30_meter := repeat v30_meter_step.

Lemma v30_metered_playSound (n : Z) : v30_metered (V30.playSound n).
Proof. unfold V30.playSound. v30_meter. Qed.

Lemma v30_metered_setIdleMode : v30_metered V30.setIdleMode.
Proof. unfold V30.setIdleMode. v30_meter. Qed.

Lemma v30_metered_updateOLEDDisplay : v30_metered V30.updateOLEDDisplay.
Proof. unfold V30.updateOLEDDisplay. v30_meter. Qed.

Lemma v30_metered_enterSleepMode : v30_metered V30.enterSleepMode.
Proof.
  pose proof v30_metered_playSound. pose proof v30_metered_setIdleMode.
  pose proof v30_metered_updateOLEDDisplay.
  unfold V30.enterSleepMode. v30_meter.
Qed.

Lemma v30_metered_startupSequence : v30_metered V30.startupSequence.
Proof.
  pose proof v30_metered_setIdleMode.
  unfold V30.startupSequence. v30_meter.
Qed.

Lemma v30_metered_run (m : V30.M unit) (s : V30.State) :
  v30_metered m -> V30.returns (m s) = true ->
  V30.clock (V30.run_state m s)
    = V30.clock s + total_delay (v30_off_screen (V30.run_trace m s)) /\
  V30.pwm (V30.run_state m s)
    = duty_after (v30_off_screen (V30.run_trace m s)) (V30.pwm s).
Proof.
  intros K R. specialize (K s). unfold V30.run_state, V30.run_trace.
  destruct (m s); try discriminate. exact K.
Qed.

(** ** The sleep function and the light show *)

Lemma v30_enterSleepMode_calls (s : V30.State) :
  V30.returns (V30.enterSleepMode s) = true /\
  v30_off_screen (V30.run_trace V30.enterSleepMode s)
    = sleep_calls (V30.currentMode s) (V30.audioEnabled s) /\
  V30.currentMode (V30.run_state V30.enterSleepMode s) = V30.currentMode s /\
  V30.isShooting (V30.run_state V30.enterSleepMode s) = V30.isShooting s /\
  V30.audioEnabled (V30.run_state V30.enterSleepMode s) = V30.audioEnabled s.
Proof. v30_running s. Qed.

Lemma sleep_calls_summary (mode : PortalMode) (enabled : bool) (f : Z -> Z) :
  total_delay (sleep_calls mode enabled) = 4000 /\
  filter is_read (sleep_calls mode enabled) = [] /\
  duty_after (sleep_calls mode enabled) f (led_pin mode) = 30 /\
  duty_after (sleep_calls mode enabled) f (led_pin (other_mode mode)) = 0 /\
  channel_history (sleep_calls mode enabled) (f 5) (f 6)
    = [ (0, f 6); (0, 0) ]
      ++ match mode with
         | BLUE_MODE => [(30, 0); (30, 0)]
         | RED_MODE => [(0, 30); (0, 30)]
         end.
Proof. destruct mode, enabled; repeat split. Qed.

Lemma v30_enterSleepMode_screen (s : V30.State) :
  filter (says "Press any key...") (V30.run_trace V30.enterSleepMode s)
  = [V30.DPrintln "Press any key..."].
Proof. v30_running s. Qed.

(** X24. The sleep function of version 3.0 ends by itself. It plays the
    power-down track (if audio is enabled), waits 2000 ticks, turns both
    LED channels and the onboard LED off, shows a screen that says
    "Press any key...", and then, without reading any button, waits 1000
    ticks, plays the power-up track, waits 1000 ticks more and sets the
    LEDs idle for the current mode: it returns after exactly 4000 ticks
    with mode and flags unchanged. *)
Theorem X24_sleep_ends_by_itself :
  forall (s : V30.State),
    let s' := V30.run_state V30.enterSleepMode s in
    let tr := V30.run_trace V30.enterSleepMode s in
    V30.enterSleepMode s = V30.Done tt s' tr /\
    v30_off_screen tr = sleep_calls (V30.currentMode s) (V30.audioEnabled s) /\
    filter (says "Press any key...") tr = [V30.DPrintln "Press any key..."] /\
    filter is_read (v30_off_screen tr) = [] /\
    V30.clock s' = V30.clock s + 4000 /\
    V30.currentMode s' = V30.currentMode s /\
    V30.isShooting s' = V30.isShooting s /\
    V30.audioEnabled s' = V30.audioEnabled s /\
    channel_history (v30_off_screen tr) (V30.pwm s 5) (V30.pwm s 6)
      = [ (0, V30.pwm s 6); (0, 0) ]
        ++ match V30.currentMode s with
           | BLUE_MODE => [(30, 0); (30, 0)]
           | RED_MODE => [(0, 30); (0, 30)]
           end /\
    V30.pwm s' (led_pin (V30.currentMode s)) = 30 /\
    V30.pwm s' (led_pin (other_mode (V30.currentMode s))) = 0.
Proof.
  intros s s' tr.
  destruct (v30_enterSleepMode_calls s) as (R & T & Hm & Hs & Ha).
  destruct (v30_metered_run _ s v30_metered_enterSleepMode R) as (C & P).
  fold s' tr in T, Hm, Hs, Ha, C, P.
  destruct (sleep_calls_summary (V30.currentMode s) (V30.audioEnabled s)
              (V30.pwm s)) as (D & Rd & P1 & P2 & Hh).
  split; [apply v30_run_done, R|].
  split; [exact T|]. split; [apply v30_enterSleepMode_screen|].
  rewrite T, C, P, T, D.
  repeat split; assumption.
Qed.

Lemma v30_startupSequence_calls (s : V30.State) :
  V30.returns (V30.startupSequence s) = true /\
  v30_off_screen (V30.run_trace V30.startupSequence s)
    = flash_round ++ flash_round ++ flash_round
      ++ idle_calls (V30.currentMode s) /\
  V30.currentMode (V30.run_state V30.startupSequence s) = V30.currentMode s.
Proof. v30_running s. Qed.

Lemma light_show_summary (mode : PortalMode) (b r : Z) :
  let calls := flash_round ++ flash_round ++ flash_round ++ idle_calls mode in
  total_delay calls = 1200 /\
  (forall f, duty_after calls f (led_pin mode) = 30 /\
             duty_after calls f (led_pin (other_mode mode)) = 0) /\
  forallb dark_one (channel_history calls b r) = (r <? 30).
Proof.
  destruct mode; cbn; (split; [reflexivity|]); (split; [auto|]);
    unfold dark_one; cbn; destruct (r <? 30) eqn:E;
    [ apply Z.ltb_lt in E | apply Z.ltb_ge in E
    | apply Z.ltb_lt in E | apply Z.ltb_ge in E ];
    unfold DIM_BRIGHTNESS;
    repeat match goal with
           | |- context [?a <=? ?b] =>
               first [ replace (a <=? b) with true
                         by (symmetry; apply Z.leb_le; lia)
                     | replace (a <=? b) with false
                         by (symmetry; apply Z.leb_gt; lia) ]
           end; reflexivity.
Qed.

(** X25. The light show of version 3.0: three rounds of a 200-tick
    flash of the blue channel followed by a 200-tick flash of the red
    channel, at full duty, then the LEDs idle for the current mode; 1200
    ticks in all, the mode unchanged. The two channels are never lit
    together during the show exactly when the red channel is below idle
    brightness on entry (as at reset): called while the device idles in
    RED mode, the first blue flash finds the red channel lit. *)
Theorem X25_light_show :
  forall (s : V30.State),
    let s' := V30.run_state V30.startupSequence s in
    let calls := v30_off_screen (V30.run_trace V30.startupSequence s) in
    V30.returns (V30.startupSequence s) = true /\
    calls = flash_round ++ flash_round ++ flash_round
            ++ idle_calls (V30.currentMode s) /\
    V30.clock s' = V30.clock s + 1200 /\
    V30.currentMode s' = V30.currentMode s /\
    V30.pwm s' (led_pin (V30.currentMode s)) = 30 /\
    V30.pwm s' (led_pin (other_mode (V30.currentMode s))) = 0 /\
    forallb dark_one (channel_history calls (V30.pwm s 5) (V30.pwm s 6))
      = (V30.pwm s 6 <? 30).
Proof.
  intros s s' calls.
  destruct (v30_startupSequence_calls s) as (R & T & Hm).
  destruct (v30_metered_run _ s v30_metered_startupSequence R) as (C & P).
  fold s' in Hm, C, P. fold calls in T, C, P.
  destruct (light_show_summary (V30.currentMode s) (V30.pwm s 5) (V30.pwm s 6))
    as (D & Hp & Hd).
  rewrite <- T in D, Hp, Hd.
  split; [exact R|]. split; [exact T|].
  rewrite C, P, D. destruct (Hp (V30.pwm s)) as (P1 & P2).
  repeat split; assumption.
Qed.

(** ** The guards of version 3.0 *)

Lemma v30_switch_ends (s : V30.State) :
  V30.returns (V30.switchToBlueMode s) = true /\
  V30.returns (V30.switchToRedMode s) = true /\
  V30.currentMode (V30.run_state V30.switchToBlueMode s) = BLUE_MODE /\
  V30.currentMode (V30.run_state V30.switchToRedMode s) = RED_MODE.
Proof. v30_running s. Qed.

Lemma v30_switchToBlueMode_there (s : V30.State) :
  V30.currentMode s = BLUE_MODE -> V30.switchToBlueMode s = V30.Done tt s [].
Proof.
  intros H. unfold V30.switchToBlueMode. rewrite v30_bind_gets, H. reflexivity.
Qed.

Lemma v30_switchToRedMode_there (s : V30.State) :
  V30.currentMode s = RED_MODE -> V30.switchToRedMode s = V30.Done tt s [].
Proof.
  intros H. unfold V30.switchToRedMode. rewrite v30_bind_gets, H. reflexivity.
Qed.

(** X23. The guards of version 3.0. Switching to the mode the device is
    in does nothing, and so does shooting or refreshing the status frame
    while the shooting flag is set: no call is made and no variable
    changes. A switch always ends in the mode asked for, so that
    switching twice to the same mode does what switching once does. *)
Theorem X23_guards_of_version_3_0 :
  forall (s : V30.State),
    (V30.currentMode s = BLUE_MODE ->
       V30.switchToBlueMode s = V30.Done tt s []) /\
    (V30.currentMode s = RED_MODE ->
       V30.switchToRedMode s = V30.Done tt s []) /\
    (V30.isShooting s = true ->
       V30.shootPortal s = V30.Done tt s [] /\
       V30.updateOLEDDisplay s = V30.Done tt s []) /\
    V30.currentMode (V30.run_state V30.switchToBlueMode s) = BLUE_MODE /\
    V30.currentMode (V30.run_state V30.switchToRedMode s) = RED_MODE /\
    V30.bind V30.switchToBlueMode (fun _ => V30.switchToBlueMode) s
      = V30.switchToBlueMode s /\
    V30.bind V30.switchToRedMode (fun _ => V30.switchToRedMode) s
      = V30.switchToRedMode s.
Proof.
  intros s.
  destruct (v30_switch_ends s) as (Rb & Rr & Mb & Mr).
  split; [apply v30_switchToBlueMode_there|].
  split; [apply v30_switchToRedMode_there|].
  split.
  { intros H. unfold V30.shootPortal, V30.updateOLEDDisplay.
    rewrite !v30_bind_gets, H. split; reflexivity. }
  split; [exact Mb|]. split; [exact Mr|].
  split.
  - rewrite (v30_bind_Done _ _ _ _ _ _ (v30_run_done _ _ Rb)).
    rewrite (v30_switchToBlueMode_there _ Mb).
    cbn [V30.preceded]. rewrite app_nil_r.
    symmetry. apply v30_run_done, Rb.
  - rewrite (v30_bind_Done _ _ _ _ _ _ (v30_run_done _ _ Rr)).
    rewrite (v30_switchToRedMode_there _ Mr).
    cbn [V30.preceded]. rewrite app_nil_r.
    symmetry. apply v30_run_done, Rr.
Qed.

Lemma X23_guards_of_version_3_0_witness :
  V30.switchToBlueMode V30.board0 = V30.Done tt V30.board0 [] /\
  V30.shootPortal (V30.set_isShooting true V30.board0)
  = V30.Done tt (V30.set_isShooting true V30.board0) [].
Proof.
  split.
  - destruct (X23_guards_of_version_3_0 V30.board0) as (H & _).
    apply H. reflexivity.
  - destruct (X23_guards_of_version_3_0 (V30.set_isShooting true V30.board0))
      as (_ & _ & H & _).
    apply H. reflexivity.
Defined.

(** ** Start-up of version 3.0 *)

Lemma v30_setup_calls (audio : bool) (s : V30.State) :
  let calls := v30_off_screen (V30.run_trace (V30.setup (mkBoot true audio)) s) in
  filter is_pin_mode calls
    = [ PinMode 8 INPUT_PULLUP; PinMode 9 INPUT_PULLUP;
        PinMode 7 INPUT_PULLUP;
        PinMode 5 OUTPUT; PinMode 6 OUTPUT; PinMode 13 OUTPUT ] /\
  filter is_audio_command calls
    = (if audio
       then AudioVolume 25
            :: (if V30.audioEnabled s then [AudioPlay 1] else [])
       else []) /\
  filter is_read calls = [] /\
  total_delay calls = 4300 + (if audio then 4200 else 0) /\
  pin_usage calls (Some ([], [])) = Some ([7; 9; 8], [13; 6; 5]) /\
  forallb sound_write (duty_writes calls) = true.
Proof. destruct audio; v30_running s. Qed.

Lemma v30_setup_globals (audio : bool) (s : V30.State) :
  let s' := V30.run_state (V30.setup (mkBoot true audio)) s in
  V30.audioEnabled s' = audio /\
  V30.currentMode s' = V30.currentMode s /\
  V30.isShooting s' = V30.isShooting s /\
  V30.pwm s' (led_pin (V30.currentMode s)) = 30 /\
  V30.pwm s' (led_pin (other_mode (V30.currentMode s))) = 0.
Proof. destruct audio; v30_running s. Qed.

Lemma v30_setup_rest (audio : bool) (s : V30.State) :
  let s' := V30.run_state (V30.setup (mkBoot true audio)) s in
  V30.totalPortalsFired s' = V30.totalPortalsFired s /\
  V30.lastButtonPress s' = V30.lastButtonPress s /\
  V30.TCCR0B s' = Z.lor (Z.land (V30.TCCR0B s) 248) 2.
Proof. destruct audio; v30_running s. Qed.

Lemma v30_metered_displayStartupSequence :
  v30_metered V30.displayStartupSequence.
Proof. unfold V30.displayStartupSequence. v30_meter. Qed.

Lemma v30_metered_setup (b : Boot) : v30_metered (V30.setup b).
Proof.
  pose proof v30_metered_playSound. pose proof v30_metered_setIdleMode.
  pose proof v30_metered_updateOLEDDisplay.
  pose proof v30_metered_displayStartupSequence.
  assert (v30_metered (V30.display_begin b))
    by (intros s; cbn; split; [lia | reflexivity]).
  assert (v30_metered (V30.audio_begin b))
    by (intros s; cbn; split; [lia | reflexivity]).
  assert (forall A, v30_metered (@V30.forever A))
    by (intros A s; cbn; split; [lia | reflexivity]).
  assert (forall pin dir, v30_metered (V30.pinMode pin dir))
    by (intros pin dir s; cbn; split; [lia | reflexivity]).
  unfold V30.setup. v30_meter.
Qed.

(** X26. [setup] of version 3.0, when the display answers. It configures
    three button pins as inputs with pull-up (pin 9, the red button,
    among them) and the three LED pins as outputs, before any of them is
    used, and reads no button. It sets [audioEnabled] to what the audio
    module answered (version 3.1 only ever clears it); the module is sent
    the volume and, if audio was enabled on entry, the power-up track.
    The clock-select bits of TCCR0B read 010 and the other bits are
    unchanged, the LEDs are idle for the current mode, mode, counter and
    shooting flag are untouched, and the whole takes 4300 ticks, or 8500
    if the audio module answers. *)
Theorem X26_setup_of_version_3_0 :
  forall (audio : bool) (s : V30.State),
    let boot := mkBoot true audio in
    let s' := V30.run_state (V30.setup boot) s in
    let tr := V30.run_trace (V30.setup boot) s in
    let calls := v30_off_screen tr in
    V30.setup boot s = V30.Done tt s' tr /\
    filter is_pin_mode calls
      = [ PinMode 8 INPUT_PULLUP; PinMode 9 INPUT_PULLUP;
          PinMode 7 INPUT_PULLUP;
          PinMode 5 OUTPUT; PinMode 6 OUTPUT; PinMode 13 OUTPUT ] /\
    pin_usage calls (Some ([], [])) = Some ([7; 9; 8], [13; 6; 5]) /\
    filter is_read calls = [] /\
    filter is_audio_command calls
      = (if audio
         then AudioVolume 25
              :: (if V30.audioEnabled s then [AudioPlay 1] else [])
         else []) /\
    V30.audioEnabled s' = audio /\
    V30.currentMode s' = V30.currentMode s /\
    V30.isShooting s' = V30.isShooting s /\
    V30.totalPortalsFired s' = V30.totalPortalsFired s /\
    V30.lastButtonPress s' = V30.lastButtonPress s /\
    Z.land (V30.TCCR0B s') 7 = 2 /\
    Z.land (V30.TCCR0B s') 248 = Z.land (V30.TCCR0B s) 248 /\
    V30.pwm s' (led_pin (V30.currentMode s)) = 30 /\
    V30.pwm s' (led_pin (other_mode (V30.currentMode s))) = 0 /\
    V30.clock s' = V30.clock s + 4300 + (if audio then 4200 else 0).
Proof.
  intros audio s boot s' tr calls.
  pose proof (v30_setup_returns audio s) as R.
  destruct (v30_setup_calls audio s) as (Hp & Ha & Hr & Hd & Hu & _).
  destruct (v30_setup_globals audio s) as (G1 & G2 & G3 & G4 & G5).
  destruct (v30_setup_rest audio s) as (G6 & G7 & G8).
  destruct (v30_metered_run _ s (v30_metered_setup boot) R) as (C & _).
  destruct (prescaler_bits (V30.TCCR0B s)) as (B1 & B2).
  fold boot in Hp, Ha, Hr, Hd, Hu, G1, G2, G3, G4, G5, G6, G7, G8, C.
  fold s' in G1, G2, G3, G4, G5, G6, G7, G8, C.
  fold tr in Hp, Ha, Hr, Hd, Hu, C. fold calls in Hp, Ha, Hr, Hd, Hu, C.
  split; [apply v30_run_done, R|].
  rewrite G8, C, Hd.
  repeat split; try assumption. lia.
Qed.

(** ** What version 3.0 inherits *)

Lemma duty_writes_off_screen (t : list Event) :
  duty_writes (off_screen t) = duty_writes t.
Proof.
  unfold off_screen. induction t as [|e t IH]; [reflexivity|].
  destruct e; cbn [filter is_off_screen duty_writes]; rewrite ?IH; reflexivity.
Qed.

Lemma v30_sketch_trace (b : Boot) (ps : list Poll) (s : V30.State) :
  V30.trace_of (V30.sketch b ps s)
  = V30.run_trace (V30.setup b) s
    ++ (if display_ok b
        then V30.run_trace (V30.passes ps) (V30.run_state (V30.setup b) s)
        else []).
Proof.
  destruct b as [[|] audio]; unfold V30.sketch; cbn [display_ok].
  - rewrite (v30_bind_Done _ _ _ _ _ _
               (v30_run_done _ _ (v30_setup_returns audio s))).
    destruct (passes_preserved ps classic_font
                (V30.run_state (V30.setup (mkBoot true audio)) s)) as (R & _).
    rewrite (v30_run_done _ _ R). reflexivity.
  - unfold V30.bind. rewrite v30_setup_without_display. cbn.
    reflexivity.
Qed.

(** X27. What version 3.0 inherits through the correspondence. Whatever
    the collaborators answer and the buttons do, every duty it writes
    goes to pin 5 or 6 and is within 0..255; and when the display
    answers, every run returns with the LEDs idle for the current mode
    (the channel of the mode at 30, the other at 0). *)
Theorem X27_version_3_0_inherits :
  forall (b : Boot) (ps : list Poll) (s : V30.State),
    let r := V30.sketch b ps s in
    let s' := V30.state_of r s in
    Forall (fun pv => (fst pv = 5 \/ fst pv = 6) /\ 0 <= snd pv <= 255)
      (duty_writes (v30_off_screen (V30.trace_of r))) /\
    (display_ok b = true ->
       V30.returns r = true /\
       V30.pwm s' (led_pin (V30.currentMode s')) = 30 /\
       V30.pwm s' (led_pin (other_mode (V30.currentMode s'))) = 0).
Proof.
  intros b ps s r s'. split.
  - assert (H : forallb sound_write
                  (duty_writes (v30_off_screen (V30.trace_of r))) = true).
    { unfold r. rewrite v30_sketch_trace, v30_off_screen_app, duty_writes_app,
        forallb_app.
      apply andb_true_intro. split.
      - destruct b as [[|] audio].
        + apply v30_setup_calls.
        + unfold V30.run_trace. rewrite v30_setup_without_display. reflexivity.
      - destruct (display_ok b); [|reflexivity].
        destruct (passes_preserved ps classic_font
                    (V30.run_state (V30.setup b) s)) as (_ & _ & _ & <-).
        rewrite duty_writes_off_screen.
        unfold run_trace. rewrite passes_run. apply passes_trace_writes. }
    rewrite forallb_forall in H. apply Forall_forall. intros pv Hin.
    specialize (H pv Hin). unfold sound_write in H.
    apply andb_prop in H. destruct H as (H & Hhi).
    apply andb_prop in H. destruct H as (Hpin & Hlo).
    apply Z.leb_le in Hlo, Hhi. apply orb_prop in Hpin.
    split; [|lia].
    destruct Hpin as [E|E]; apply Z.eqb_eq in E; auto.
  - intros Hd. destruct b as [d audio]. cbn in Hd. subst d.
    set (s30 := V30.run_state (V30.setup (mkBoot true audio)) s).
    destruct (passes_preserved ps classic_font s30) as (R & _ & S & _).
    assert (E : r = V30.preceded (V30.run_trace (V30.setup (mkBoot true audio)) s)
                      (V30.passes ps s30)).
    { unfold r, V30.sketch.
      rewrite (v30_bind_Done _ _ _ _ _ _
                 (v30_run_done _ _ (v30_setup_returns audio s))).
      reflexivity. }
    assert (Es : s' = V30.run_state (V30.passes ps) s30).
    { unfold s'. rewrite E, (v30_run_done _ _ R). reflexivity. }
    split; [rewrite E, (v30_run_done _ _ R); reflexivity|].
    assert (Hidle : idle_leds (as_v31 classic_font s')).
    { rewrite Es, <- S. unfold run_state. rewrite passes_run.
      cbn [state_of]. apply passes_state_idle.
      destruct (v30_setup_globals audio s) as (_ & Hm & _ & P1 & P2).
      fold s30 in Hm, P1, P2. unfold idle_leds.
      cbn [as_v31 pwm currentMode]. rewrite Hm. split; assumption. }
    exact Hidle.
Qed.

Lemma X27_version_3_0_inherits_witness :
  V30.returns
    (V30.sketch (mkBoot true true) [mkPoll 0 LOW HIGH; mkPoll 0 HIGH LOW]
       V30.board0) = true.
Proof.
  destruct (X27_version_3_0_inherits (mkBoot true true)
              [mkPoll 0 LOW HIGH; mkPoll 0 HIGH LOW] V30.board0) as (_ & H).
  apply H. reflexivity.
Defined.
